(** * Raccoon modpack installer: a shallow embedding of [htmlAndZipVer10.py]

    The script installs a Minecraft modpack either from a direct archive
    link ([download_and_install_ftb_pack_from_link]) or from the hyperlinks
    of a local HTML page ([download_and_install_ftb_pack_from_html]); both
    end by rewriting [launcher_profiles.json].

    The file system is a tree of directories and regular files, the
    console and every effect performed are recorded in a trace, and the
    libraries whose answers the script only consumes (the network, the zip
    reader, the JSON codec, the HTML parser) are oracles gathered in one
    record.  Files hold text; symbolic links, permissions, quotas and
    [shutil.move]'s fall-back to copying when a rename fails are not
    modelled. *)

From Stdlib Require Import List String Ascii Bool Arith ZArith Lia DecimalString.
Import ListNotations.
Open Scope string_scope.
Open Scope list_scope.

Set Warnings "-register-all".

(** ** Python strings *)

Module PyStr.

(** [s.startswith(p)] *)
Definition startswith (s p : string) : bool := String.prefix p s.

(** [s.endswith(suf)]: the last [len(suf)] characters of [s] are [suf]. *)
Definition endswith (s suf : string) : bool :=
  Nat.leb (String.length suf) (String.length s)
  && String.eqb
       (substring (String.length s - String.length suf) (String.length suf) s)
       suf.

(** Pieces of [s] between occurrences of the character [sep], as
    [s.split(sep)] returns them (never the empty list). *)
Fixpoint split (sep : ascii) (s : string) : list string :=
  match s with
  | EmptyString => [ EmptyString ]
  | String c rest =>
      if Ascii.eqb c sep then EmptyString :: split sep rest
      else match split sep rest with
           | [] => [ String c EmptyString ]
           | w :: ws => String c w :: ws
           end
  end.

(** [sep.join(parts)] *)
Fixpoint join (sep : string) (parts : list string) : string :=
  match parts with
  | [] => EmptyString
  | [ w ] => w
  | w :: ws => w ++ sep ++ join sep ws
  end.

End PyStr.

(** ** JSON values and Python dictionaries

    A [dict] keeps its keys in insertion order; [d[k] = v] overwrites the
    value of an existing key where it stands and appends a new key at the
    end.  Numbers are integers: the installers never look at a number. *)

Inductive json : Type :=
| JNull
| JBool (b : bool)
| JNum (n : Z)
| JStr (s : string)
| JArr (items : list json)
| JObj (fields : list (string * json)).

Module Dict.

Definition t := list (string * json).

Definition keys (d : t) : list string := map fst d.

(** [d.get(k)] *)
Fixpoint get (d : t) (k : string) : option json :=
  match d with
  | [] => None
  | (k', v) :: rest => if String.eqb k' k then Some v else get rest k
  end.

(** [d[k] = v] *)
Fixpoint set (d : t) (k : string) (v : json) : t :=
  match d with
  | [] => [ (k, v) ]
  | (k', v') :: rest =>
      if String.eqb k' k then (k', v) :: rest else (k', v') :: set rest k v
  end.

(** [dict(pairs)]: the pairs are stored one after the other, so a key
    written twice keeps its first place and its last value. *)
Definition of_pairs (pairs : list (string * json)) : t :=
  fold_left (fun d kv => set d (fst kv) (snd kv)) pairs [].

End Dict.

(** The Python value [json.load] builds from a JSON text whose members are
    given in the order written: every object becomes a [dict]. *)
Fixpoint as_python (j : json) : json :=
  match j with
  | JArr items => JArr (map as_python items)
  | JObj fields =>
      JObj (Dict.of_pairs (map (fun kv => (fst kv, as_python (snd kv))) fields))
  | _ => j
  end.

(** ** The hyperlinks kept by the scrape installer (lines 137-142)

    [soup.find_all('a')] is the list of anchors in document order and
    [link.get('href')] is [None] for an anchor without that attribute. *)

Definition wanted_suffix (href : string) : bool :=
  PyStr.endswith href ".jar" || PyStr.endswith href ".zip".

(** Truth value of a Python string: the empty string is false. *)
Definition truthy (s : string) : bool :=
  match s with EmptyString => false | _ => true end.

Fixpoint mod_links (anchors : list (option string)) : list string :=
  match anchors with
  | [] => []
  | None :: rest => mod_links rest
  | Some href :: rest =>
      if truthy href && wanted_suffix href
      then href :: mod_links rest
      else mod_links rest
  end.

(** The guard of the archive installer (line 21): [true] when the link is
    turned down. *)
Definition invalid_link (pack_url : string) : bool :=
  negb (PyStr.endswith pack_url ".zip")
  || negb (PyStr.startswith pack_url "http").

(** ** Paths ([pathlib.PurePosixPath])

    A path is the list of its components below the root; every path of a
    run descends from [Path(minecraft_dir).expanduser().resolve()], which
    is absolute.  The root written with exactly two slashes, which POSIX
    sets apart, is taken for the ordinary root. *)

Definition path := list string.

Module Path.

(** Components of a string: pathlib drops empty and ["."] components. *)
Definition parts (s : string) : list string :=
  filter (fun w => negb (String.eqb w "") && negb (String.eqb w "."))
         (PyStr.split "/" s).

(** [p / s]: an absolute right operand replaces the left one. *)
Definition join (p : path) (s : string) : path :=
  if PyStr.startswith s "/" then parts s else p ++ parts s.

(** Where [p / s] starts from: the root for an absolute [s], else [p]. *)
Definition anchor (p : path) (s : string) : path :=
  if PyStr.startswith s "/" then [] else p.

(** [str(p)] *)
Definition str (p : path) : string := "/" ++ PyStr.join "/" p.

(** [Path(s).name] and [os.path.basename(s)] of a string that does not end
    in a slash: the text after the last slash. *)
Definition name (s : string) : string := last (PyStr.split "/" s) "".

(** [str(p) + suffix], read back as a path. *)
Fixpoint add_suffix (p : path) (suffix : string) : path :=
  match p with
  | [] => parts suffix
  | [ x ] => [ (x ++ suffix)%string ]
  | x :: q => x :: add_suffix q suffix
  end.

(** The place a path denotes: a [".."] component steps back to the parent
    (the root is its own parent). *)
Fixpoint resolve_onto (up : list string) (p : path) : path :=
  match p with
  | [] => rev up
  | x :: q =>
      if String.eqb x ".." then resolve_onto (tl up) q
      else resolve_onto (x :: up) q
  end.

Definition resolve (p : path) : path := resolve_onto [] p.

(** [is_prefix p q]: the place [q] is [p] or lies below it. *)
Fixpoint is_prefix (p q : path) : bool :=
  match p, q with
  | [], _ => true
  | x :: p', y :: q' => String.eqb x y && is_prefix p' q'
  | _ :: _, [] => false
  end.

End Path.

(** ** The file system

    A regular file holds text, [File], or bytes that the platform's text
    decoding refuses, [Raw]: such a file can be copied, moved and
    overwritten like any other, but reading it as text raises
    [UnicodeDecodeError]. *)

Inductive node : Type :=
| File (data : string)
| Raw (bytes : string)
| Dir (entries : list (string * node)).

Module FS.

Fixpoint assoc (x : string) (es : list (string * node)) : option node :=
  match es with
  | [] => None
  | (y, n) :: rest => if String.eqb y x then Some n else assoc x rest
  end.

(** Replace the entry named [x], or add it at the end. *)
Fixpoint put (x : string) (n : node) (es : list (string * node))
  : list (string * node) :=
  match es with
  | [] => [ (x, n) ]
  | (y, m) :: rest =>
      if String.eqb y x then (y, n) :: rest else (y, m) :: put x n rest
  end.

Fixpoint drop (x : string) (es : list (string * node)) : list (string * node) :=
  match es with
  | [] => []
  | (y, m) :: rest =>
      if String.eqb y x then rest else (y, m) :: drop x rest
  end.

(** What lies at place [p] below [n]. *)
Fixpoint lookup (n : node) (p : path) : option node :=
  match p with
  | [] => Some n
  | x :: q =>
      match n with
      | Dir es =>
          match assoc x es with
          | Some c => lookup c q
          | None => None
          end
      | _ => None
      end
  end.

Definition exists_ (n : node) (p : path) : bool :=
  match lookup n p with Some _ => true | None => false end.

Definition is_dir (n : node) (p : path) : bool :=
  match lookup n p with Some (Dir _) => true | _ => false end.

Definition is_file (n : node) (p : path) : bool :=
  match lookup n p with Some (File _) | Some (Raw _) => true | _ => false end.

(** The text of the file at [p]. *)
Definition read (n : node) (p : path) : option string :=
  match lookup n p with Some (File d) => Some d | _ => None end.

(** The bytes of a regular file. *)
Definition bytes (c : node) : string :=
  match c with File d => d | Raw b => b | Dir _ => "" end.

(** A regular file stands strictly above place [p]. *)
Fixpoint under_file (n : node) (p : path) : bool :=
  match p with
  | [] => false
  | x :: q =>
      match n with
      | Dir es =>
          match assoc x es with
          | Some c => under_file c q
          | None => false
          end
      | _ => true
      end
  end.

(** Names in the directory at [p] ([os.listdir]). *)
Definition listdir (n : node) (p : path) : list string :=
  match lookup n p with Some (Dir es) => map fst es | _ => [] end.

(** Directory [p] and the missing directories above it are created; a
    regular file on the way makes it fail. *)
Fixpoint mkdir_p (n : node) (p : path) : option node :=
  match n with
  | Dir es =>
      match p with
      | [] => Some n
      | x :: q =>
          match assoc x es with
          | Some c =>
              match mkdir_p c q with
              | Some c' => Some (Dir (put x c' es))
              | None => None
              end
          | None =>
              match mkdir_p (Dir []) q with
              | Some c' => Some (Dir (put x c' es))
              | None => None
              end
          end
      end
  | _ => None
  end.

(** The subtree at [p] becomes [sub] when [ok] accepts what was there
    before; the directory holding [p] must exist. *)
Fixpoint place (ok : option node -> bool) (sub : node) (n : node) (p : path)
  : option node :=
  match p with
  | [] => None
  | x :: q =>
      match n with
      | Dir es =>
          match q with
          | [] => if ok (assoc x es) then Some (Dir (put x sub es)) else None
          | _ :: _ =>
              match assoc x es with
              | Some c =>
                  match place ok sub c q with
                  | Some c' => Some (Dir (put x c' es))
                  | None => None
                  end
              | None => None
              end
          end
      | _ => None
      end
  end.

Definition not_a_dir (o : option node) : bool :=
  match o with Some (Dir _) => false | _ => true end.

(** [open(p, 'w')] followed by writing [data]: creates or truncates. *)
Definition write (n : node) (p : path) (data : string) : option node :=
  place not_a_dir (File data) n p.

(** The subtree at [p] is taken out. *)
Fixpoint detach (n : node) (p : path) : option node :=
  match p with
  | [] => None
  | x :: q =>
      match n with
      | Dir es =>
          match assoc x es with
          | None => None
          | Some c =>
              match q with
              | [] => Some (Dir (drop x es))
              | _ :: _ =>
                  match detach c q with
                  | Some c' => Some (Dir (put x c' es))
                  | None => None
                  end
              end
          end
      | _ => None
      end
  end.

(** What [os.rename] may replace: nothing, or a regular file by a regular
    file. *)
Definition regular (c : node) : bool :=
  match c with Dir _ => false | _ => true end.

Definition replaceable (sub : node) (o : option node) : bool :=
  match o with
  | None => true
  | Some c => regular c && regular sub
  end.

(** [os.rename(src, dst)] *)
Definition rename (n : node) (src dst : path) : option node :=
  match lookup n src with
  | None => None
  | Some sub =>
      match detach n src with
      | None => None
      | Some n' => place (replaceable sub) sub n' dst
      end
  end.

(** *** Paths as the kernel walks them

    [Path.resolve] cancels [x/..] without looking at the tree, as
    [Path.resolve()] and [os.path.normpath] do.  The kernel does look:
    it goes through [x] on the way, so [x] has to be a directory.  The
    installers hand three texts of the user to the kernel as they are
    written: the pack name (below [instances]), a link and the name of
    the HTML file (both from the working directory). *)

(** Why a walk stops: [ENOENT] or [ENOTDIR]. *)
Inductive lost : Type :=
| Absent
| Obstructed.

Definition obstacle (n : node) (q : path) : lost :=
  if under_file n q || is_file n q then Obstructed else Absent.

(** The place the components [rel] lead to from the place [cur], or why
    the walk stops.  A directory is only asked for where the text steps
    back ([..]) or ends in a slash or a dot: under any other component the
    operation itself finds what is missing. *)
Fixpoint locate (n : node) (cur : path) (rel : list string) : lost + path :=
  match rel with
  | [] => inr cur
  | c :: rest =>
      if String.eqb c ".." then
        if is_dir n cur then locate n (removelast cur) rest
        else inl (obstacle n cur)
      else if String.eqb c "" || String.eqb c "." then
        match rest with
        | [] => if is_file n cur then inl Obstructed else inr cur
        | _ :: _ => locate n cur rest
        end
      else locate n (cur ++ [ c ]) rest
  end.

Definition reachable (n : node) (cur : path) (rel : list string) : bool :=
  match locate n cur rel with inr _ => true | inl _ => false end.

(** [os.path.isdir] of the components [rel] from [cur]: the walk
    arrives, and at a directory. *)
Definition isdir (n : node) (cur : path) (rel : list string) : bool :=
  match locate n cur rel with inr q => is_dir n q | inl _ => false end.

(** Every directory the components [rel] name from [cur] on is there. *)
Fixpoint standing (n : node) (cur : path) (rel : list string) : bool :=
  match rel with
  | [] => true
  | c :: rest =>
      if String.eqb c ".." then
        is_dir n cur && standing n (removelast cur) rest
      else is_dir n (cur ++ [ c ]) && standing n (cur ++ [ c ]) rest
  end.

(** Where a text given to [open] or [os.path.isfile] starts from. *)
Definition start (cwd : path) (s : string) : path :=
  if PyStr.startswith s "/" then [] else Path.resolve cwd.

(** [os.path.isfile(s)] in working directory [cwd]: the walk arrives,
    and at a regular file. *)
Definition isfile (n : node) (cwd : path) (s : string) : bool :=
  reachable n (start cwd s) (PyStr.split "/" s)
  && is_file n (Path.resolve (Path.join cwd s)).

(** The text [open(s, 'r')] would give in working directory [cwd]. *)
Definition text_at (n : node) (cwd : path) (s : string) : option string :=
  match s with
  | EmptyString => None
  | _ =>
      if reachable n (start cwd s) (PyStr.split "/" s)
      then read n (Path.resolve (Path.join cwd s))
      else None
  end.

(** Why [mkdir] gives up: a regular file stands at [at_], or on the way
    before anything had to be made. *)
Inductive refusal : Type :=
| Occupied (at_ : path)
| Barred.

(** [Path.mkdir(parents=True, exist_ok=True)] from the directory at
    [cur], which is written [written], through the components [rel]:
    [os.mkdir] is tried on the whole path first and, when a directory is
    missing, on each parent in turn ([creating] from then on), so every
    directory named on the way is made, also one the path leaves again
    through [..].  A regular file on the way is [ENOTDIR] for the first
    [os.mkdir], before anything was made, and [EEXIST] for the call on
    that very prefix afterwards.  What was made stays. *)
Fixpoint mkdir_along (n : node) (cur written : path) (creating : bool)
  (rel : list string) : node * option refusal :=
  match rel with
  | [] => (n, None)
  | c :: rest =>
      if String.eqb c ".." then
        mkdir_along n (removelast cur) (written ++ [ c ]) creating rest
      else
        match lookup n (cur ++ [ c ]) with
        | Some (Dir _) =>
            mkdir_along n (cur ++ [ c ]) (written ++ [ c ]) creating rest
        | Some _ =>
            match rest with
            | [] => (n, Some (Occupied (written ++ [ c ])))
            | _ :: _ =>
                if creating then (n, Some (Occupied (written ++ [ c ])))
                else (n, Some Barred)
            end
        | None =>
            match mkdir_p n (cur ++ [ c ]) with
            | Some n' =>
                mkdir_along n' (cur ++ [ c ]) (written ++ [ c ]) true rest
            | None => (n, Some Barred)
            end
        end
  end.

End FS.

(** ** Exceptions, effects and the state of a run *)

Inductive exn : Type :=
| FileNotFoundError (p : path)
| IsADirectoryError (p : path)
| NotADirectoryError (p : path)
| FileExistsError (p : path)
| ShutilError (msg : string) (p : path)
| JSONDecodeError
| KeyError (k : string)
| TypeError
| EOFError
| UnicodeDecodeError
| LibraryError (msg : string).

(** [str(e)], as the reports interpolate it; the wording of the operating
    system's messages is not reproduced. *)
Definition exn_text (e : exn) : string :=
  match e with
  | FileNotFoundError p => "No such file or directory: " ++ Path.str p
  | IsADirectoryError p => "Is a directory: " ++ Path.str p
  | NotADirectoryError p => "Not a directory: " ++ Path.str p
  | FileExistsError p => "File exists: " ++ Path.str p
  | ShutilError msg p => msg ++ Path.str p
  | JSONDecodeError => "Expecting value"
  | KeyError k => k
  | TypeError => "object does not support item assignment"
  | EOFError => "EOF when reading a line"
  | UnicodeDecodeError => "'utf-8' codec can't decode bytes"
  | LibraryError msg => msg
  end.

(** Every call that reaches outside the process, in the order made. *)
Inductive event : Type :=
| Print (text : string)
| Input (prompt : string)
| Mkdir (p : path)
| Urlretrieve (url : string) (dst : path)
| Extractall (archive dst : path)
| Move (src dst : path)
| Copyfile (src dst : path)
| Copy2 (link : string) (dst : path)
| HttpGet (url : string)
| OpenRead (p : path)
| OpenWrite (p : path).

Record world : Type := World {
  fs : node;
  stdin : list string;
  trace : list event
}.

(** What [urllib.request.urlretrieve] obtains: the server refuses, or it
    sends [body], which is written to the destination before a short
    transfer is signalled. *)
Inductive fetched : Type :=
| Refused (msg : string)
| Sent (body : string) (short : option string).

(** A [requests] response read with [stream=True]: the chunks that arrive
    and the error that may cut the stream after them. *)
Record response : Type := Response {
  status_code : Z;
  chunks : list string;
  broken : option string
}.

(** The libraries of the script, as oracles.  [json_load] gives the
    value a text spells out, or [None] when it is not JSON. *)
Record env : Type := Env {
  cwd : path;
  urlopen : string -> fetched;
  zip_members : string -> list (string * string) * option string;
  json_load : string -> option json;
  json_dump : json -> string;
  html_hrefs : string -> string + list (option string);
  requests_get : string -> string + response
}.

Inductive result (A : Type) : Type :=
| Val (a : A)
| Exc (e : exn).
Arguments Val {A} a.
Arguments Exc {A} e.

Definition M (A : Type) : Type := world -> result A * world.

Definition ret {A} (a : A) : M A := fun w => (Val a, w).
Definition raise {A} (e : exn) : M A := fun w => (Exc e, w).

Definition bind {A B} (m : M A) (k : A -> M B) : M B :=
  fun w => match m w with
           | (Val a, w') => k a w'
           | (Exc e, w') => (Exc e, w')
           end.

(** A value or an exception computed without effects. *)
Definition lift {A} (r : result A) : M A := fun w => (r, w).

(** [try: m except Exception as e: h e] *)
Definition catch {A} (m : M A) (h : exn -> M A) : M A :=
  fun w => match m w with
           | (Val a, w') => (Val a, w')
           | (Exc e, w') => h e w'
           end.

Declare Scope py_scope.
Delimit Scope py_scope with py.
Notation "x <- m ;; k" := (bind m (fun x => k))
  (at level 61, m at next level, right associativity) : py_scope.
Notation "m ;; k" := (bind m (fun _ => k))
  (at level 61, right associativity) : py_scope.
Open Scope py_scope.

Definition emit (ev : event) : M unit :=
  fun w => (Val tt, World (fs w) (stdin w) (trace w ++ [ ev ])).

Definition print (text : string) : M unit := emit (Print text).

Definition get_fs : M node := fun w => (Val (fs w), w).

Definition set_fs (n : node) : M unit :=
  fun w => (Val tt, World n (stdin w) (trace w)).

(** [input(prompt)] *)
Definition input (prompt : string) : M string :=
  emit (Input prompt) ;;
  fun w => match stdin w with
           | [] => (Exc EOFError, w)
           | line :: rest => (Val line, World (fs w) rest (trace w))
           end.

(** [p.mkdir(parents=True, exist_ok=True)] for a path [p] without a
    component the user wrote. *)
Definition mkdir (p : path) : M unit :=
  emit (Mkdir p) ;;
  n <- get_fs ;;
  match FS.mkdir_p n (Path.resolve p) with
  | Some n' => set_fs n'
  | None =>
      if FS.under_file n (Path.resolve p) then raise (NotADirectoryError p)
      else raise (FileExistsError p)
  end.

(** The same for the path [p] that is [base] followed by the components
    [rel], which the kernel walks as they are written. *)
Definition mkdir_at (base : path) (rel : list string) (p : path) : M unit :=
  emit (Mkdir p) ;;
  n <- get_fs ;;
  match FS.mkdir_p n (Path.resolve base) with
  | Some n1 =>
      let (n2, stopped) :=
        FS.mkdir_along n1 (Path.resolve base) base
          (negb (FS.is_dir n (Path.resolve base))) rel in
      set_fs n2 ;;
      match stopped with
      | None => ret tt
      | Some (FS.Occupied q) => raise (FileExistsError q)
      | Some FS.Barred => raise (NotADirectoryError p)
      end
  | None =>
      match rel with
      | [] =>
          if FS.under_file n (Path.resolve base) then raise (NotADirectoryError p)
          else raise (FileExistsError p)
      | _ :: _ => raise (NotADirectoryError p)
      end
  end.

(** The kernel's walk through the components [rel] from the place
    [cur], on the way to [p]. *)
Definition reach (cur : path) (rel : list string) (p : path) : M unit :=
  n <- get_fs ;;
  match FS.locate n cur rel with
  | inr _ => ret tt
  | inl FS.Absent => raise (FileNotFoundError p)
  | inl FS.Obstructed => raise (NotADirectoryError p)
  end.

(** Writing the regular file [c] to a file opened for writing at [p]. *)
Definition store_node (p : path) (c : node) : M unit :=
  n <- get_fs ;;
  match FS.place FS.not_a_dir c n (Path.resolve p) with
  | Some n' => set_fs n'
  | None =>
      if FS.is_dir n (Path.resolve p) then raise (IsADirectoryError p)
      else if FS.under_file n (Path.resolve p) then raise (NotADirectoryError p)
      else raise (FileNotFoundError p)
  end.

(** Writing [data] to a file opened for writing at [p]. *)
Definition store (p : path) (data : string) : M unit :=
  n <- get_fs ;;
  match FS.write n (Path.resolve p) data with
  | Some n' => set_fs n'
  | None =>
      if FS.is_dir n (Path.resolve p) then raise (IsADirectoryError p)
      else if FS.under_file n (Path.resolve p) then raise (NotADirectoryError p)
      else raise (FileNotFoundError p)
  end.

(** What [open(p, 'rb')] finds: a regular file. *)
Definition found (p : path) : M node :=
  n <- get_fs ;;
  match FS.lookup n (Path.resolve p) with
  | Some (Dir _) => raise (IsADirectoryError p)
  | Some c => ret c
  | None =>
      if FS.under_file n (Path.resolve p) then raise (NotADirectoryError p)
      else raise (FileNotFoundError p)
  end.

(** [open(p, 'rb')] and reading all of it. *)
Definition load_node (p : path) : M node :=
  emit (OpenRead p) ;;
  found p.

(** What reading a file as text gives. *)
Definition decoded (c : node) : M string :=
  match c with
  | File data => ret data
  | _ => raise UnicodeDecodeError
  end.

(** [open(p, 'r')] and reading all of it. *)
Definition load (p : path) : M string :=
  c <- load_node p ;;
  decoded c.

(** ** Library calls of the installers *)

Fixpoint for_each {A} (xs : list A) (body : A -> M unit) : M unit :=
  match xs with
  | [] => ret tt
  | x :: rest => body x ;; for_each rest body
  end.

(** The kernel's walk to [p], the text [s] as given in working directory
    [cwd]. *)
Definition reach_text (cwd : path) (s : string) (p : path) : M unit :=
  match s with
  | EmptyString => raise (FileNotFoundError p)
  | _ => reach (FS.start cwd s) (PyStr.split "/" s) p
  end.

(** [urllib.request.urlretrieve(url, dst)]; the kernel reaches [dst]
    through the components [rel] from [base]. *)
Definition urlretrieve (E : env) (url : string) (base : path)
  (rel : list string) (dst : path) : M unit :=
  emit (Urlretrieve url dst) ;;
  match urlopen E url with
  | Refused msg => raise (LibraryError msg)
  | Sent body short =>
      reach (Path.resolve base) rel dst ;;
      store dst body ;;
      match short with
      | Some msg => raise (LibraryError msg)
      | None => ret tt
      end
  end.

(** Components of a member name that [zipfile] keeps. *)
Definition arcname (filename : string) : list string :=
  filter (fun w => negb (String.eqb w "") && negb (String.eqb w ".")
                   && negb (String.eqb w ".."))
         (PyStr.split "/" filename).

(** [ZipFile._extract_member]: the directories above the target are
    made, then the member is a directory to make or a file to write. *)
Definition extract_member (dst : path) (member : string * string) : M unit :=
  let (filename, data) := member in
  let target := dst ++ arcname filename in
  n <- get_fs ;;
  match FS.mkdir_p n (Path.resolve (removelast target)) with
  | None => raise (NotADirectoryError (removelast target))
  | Some n' =>
      set_fs n' ;;
      if PyStr.endswith filename "/" then
        match FS.mkdir_p n' (Path.resolve target) with
        | Some n'' => set_fs n''
        | None => raise (FileExistsError target)
        end
      else store target data
  end.

(** [with zipfile.ZipFile(archive, 'r') as z: z.extractall(dst)]; the
    kernel reaches [archive] through [rel] from [base], the members go
    where [os.path.normpath] puts them. *)
Definition extractall (E : env) (base : path) (rel : list string)
  (archive dst : path) : M unit :=
  emit (Extractall archive dst) ;;
  emit (OpenRead archive) ;;
  reach (Path.resolve base) rel archive ;;
  c <- found archive ;;
  let (members, bad) := zip_members E (FS.bytes c) in
  for_each members (extract_member dst) ;;
  match bad with
  | Some msg => raise (LibraryError msg)
  | None => ret tt
  end.

Definition path_eqb (p q : path) : bool :=
  if list_eq_dec string_dec p q then true else false.

(** [os.path.samefile(a, b)] for two paths that can be walked: both
    name the same thing, and it exists. *)
Definition samefile (n : node) (a b : path) : bool :=
  FS.exists_ n (Path.resolve a) && path_eqb (Path.resolve a) (Path.resolve b).

(** [shutil.move(src, dst)]; the kernel reaches both through [rel] from
    [base]. *)
Definition shutil_move (base : path) (rel : list string) (src dst : path)
  : M unit :=
  emit (Move src dst) ;;
  reach (Path.resolve base) rel src ;;
  n <- get_fs ;;
  if FS.is_dir n (Path.resolve dst) && samefile n src dst then ret tt
  else
    let real_dst :=
      if FS.is_dir n (Path.resolve dst) then dst ++ [ last src "" ] else dst in
    if FS.is_dir n (Path.resolve dst) && FS.exists_ n (Path.resolve real_dst)
    then raise (ShutilError "Destination path already exists: " real_dst)
    else match FS.rename n (Path.resolve src) (Path.resolve real_dst) with
         | Some n' => set_fs n'
         | None => raise (FileNotFoundError src)
         end.

(** [for item in src_dir.iterdir(): shutil.move(str(item), str(dst_dir))] *)
Definition move_items (base : path) (rel : list string) (src_dir dst_dir : path)
  : M unit :=
  reach (Path.resolve base) rel src_dir ;;
  n <- get_fs ;;
  if FS.is_dir n (Path.resolve src_dir) then
    for_each (FS.listdir n (Path.resolve src_dir))
             (fun name => shutil_move base rel (src_dir ++ [ name ]) dst_dir)
  else raise (NotADirectoryError src_dir).

(** [shutil.copyfile(src, dst)] *)
Definition copyfile (src dst : path) : M unit :=
  emit (Copyfile src dst) ;;
  n <- get_fs ;;
  if samefile n src dst then raise (ShutilError "are the same file: " src)
  else c <- load_node src ;; store_node dst c.

(** [shutil.copy2(link, dst)]: into [dst] when it is a directory; the
    link is opened as it is written. *)
Definition copy2 (E : env) (link : string) (dst : path) : M unit :=
  emit (Copy2 link dst) ;;
  n <- get_fs ;;
  let src := Path.join (cwd E) link in
  let real_dst :=
    if FS.is_dir n (Path.resolve dst) then dst ++ [ Path.name link ] else dst in
  if FS.reachable n (FS.start (cwd E) link) (PyStr.split "/" link)
     && samefile n src real_dst
  then raise (ShutilError "are the same file: " src)
  else
    emit (OpenRead src) ;;
    reach_text (cwd E) link src ;;
    c <- found src ;;
    store_node real_dst c.

(** [open(s, 'r')] in the working directory and reading all of it. *)
Definition load_text (E : env) (s : string) : M string :=
  let p := Path.join (cwd E) s in
  emit (OpenRead p) ;;
  reach_text (cwd E) s p ;;
  c <- found p ;;
  decoded c.

(** [requests.get(link, stream=True)] *)
Definition http_get (E : env) (link : string) : M response :=
  emit (HttpGet link) ;;
  match requests_get E link with
  | inl msg => raise (LibraryError msg)
  | inr r => ret r
  end.

(** The chunks of a response written to [file_path]. *)
Definition save_stream (file_path : path) (r : response) : M unit :=
  emit (OpenWrite file_path) ;;
  store file_path (String.concat "" (chunks r)) ;;
  match broken r with
  | Some msg => raise (LibraryError msg)
  | None => ret tt
  end.

Definition Z_to_string (z : Z) : string :=
  NilZero.string_of_int (Z.to_int z).

(** ** The registry of launcher profiles *)

Definition default_registry : json :=
  JObj [ ("profiles", JObj []); ("settings", JObj []); ("version", JNum 2) ].

(** The profile written for a pack (lines 98-108 and 195-205). *)
Definition profile_entry (pack_name profile_version game_dir : string) : json :=
  JObj [ ("name", JStr pack_name);
         ("type", JStr "custom");
         ("created", JStr "2024-01-01T00:00:00.000Z");
         ("lastUsed", JStr "2024-01-01T00:00:00.000Z");
         ("icon", JStr "Furnace");
         ("lastVersionId", JStr profile_version);
         ("javaDir", JStr "");
         ("javaArgs", JStr "-Xmx4G");
         ("gameDir", JStr game_dir) ].

(** [profiles_data["profiles"][profile_id] = entry] *)
Definition insert_profile (profiles_data : json) (profile_id : string)
  (entry : json) : result json :=
  match profiles_data with
  | JObj d =>
      match Dict.get d "profiles" with
      | None => Exc (KeyError "profiles")
      | Some (JObj ps) =>
          Val (JObj (Dict.set d "profiles" (JObj (Dict.set ps profile_id entry))))
      | Some _ => Exc TypeError
      end
  | _ => Exc TypeError
  end.

(** Lines 84-92 and 181-189: the registry as read, or the default one
    when the file is missing or, after a backup, when it does not parse. *)
Definition read_registry (E : env) (profiles_path : path) : M json :=
  catch
    (data <- load profiles_path ;;
     match json_load E data with
     | Some doc => ret (as_python doc)
     | None => raise JSONDecodeError
     end)
    (fun e =>
       match e with
       | FileNotFoundError _ => ret default_registry
       | JSONDecodeError =>
           print "Error decoding launcher_profiles.json. Backing up the file and creating a new one." ;;
           copyfile profiles_path (Path.add_suffix profiles_path ".bak") ;;
           ret default_registry
       | _ => raise e
       end).

(** ** The installers *)

(** How a call of an installer returns: its last line is reached, or it
    returns early after a report.  An exception that leaves the call is
    the [Exc] of the monad. *)
Inductive outcome : Type :=
| Installed
| GaveUp.

(** Lines 82-117 and 178-214, the same statements in both installers up
    to the game directory recorded and the closing message. *)
Definition update_launcher_profiles (E : env) (profiles_path : path)
  (pack_name game_dir closing : string) : M outcome :=
  print "Updating launcher profile..." ;;
  profiles_data <- read_registry E profiles_path ;;
  let profile_id := pack_name in
  profile_version <- input "Input Minecraft version for modpack: " ;;
  profiles_data' <-
    lift (insert_profile profiles_data profile_id
            (profile_entry pack_name profile_version game_dir)) ;;
  written <-
    catch (emit (OpenWrite profiles_path) ;;
           store profiles_path (json_dump E profiles_data') ;;
           ret true)
          (fun e =>
             print ("Error writing to launcher_profiles.json: " ++ exn_text e) ;;
             ret false) ;;
  if written : bool then print closing ;; ret Installed else ret GaveUp.

(** Lines 25-41, step 1: the instance directory is made and the archive
    fetched into it.  [Val false] is the early return of line 41. *)
Definition download_pack (E : env) (pack_url : string)
  (minecraft_path : path) (pack_name : string) : M bool :=
  let instances_dir := Path.join minecraft_path "instances" in
  let pack_instance_dir := Path.join instances_dir pack_name in
  let base := Path.anchor instances_dir pack_name in
  let rel := Path.parts pack_name in
  mkdir instances_dir ;;
  mkdir_at base rel pack_instance_dir ;;
  print ("Downloading FTB pack from " ++ pack_url ++ "...") ;;
  let zip_file_path := Path.join pack_instance_dir "pack.zip" in
  catch (urlretrieve E pack_url base rel zip_file_path ;; ret true)
        (fun e => print ("Error downloading pack: " ++ exn_text e) ;; ret false).

(** Lines 43-50, step 2.  [Val false] is the early return of line 50. *)
Definition extract_pack (E : env) (minecraft_path : path) (pack_name : string)
  : M bool :=
  let instances_dir := Path.join minecraft_path "instances" in
  let pack_instance_dir := Path.join instances_dir pack_name in
  let base := Path.anchor instances_dir pack_name in
  let rel := Path.parts pack_name in
  let zip_file_path := Path.join pack_instance_dir "pack.zip" in
  print "Extracting FTB pack..." ;;
  catch (extractall E base rel zip_file_path pack_instance_dir ;; ret true)
        (fun e => print ("Error extracting pack: " ++ exn_text e) ;; ret false).

(** [folder.exists()] for a folder of the pack's instance directory. *)
Definition folder_exists (base : path) (rel : list string) (folder : path)
  : M bool :=
  n <- get_fs ;;
  ret (FS.reachable n (Path.resolve base) rel
       && FS.exists_ n (Path.resolve folder)).

(** Lines 52-80, step 3: the known subfolders go to the working
    directory. *)
Definition move_subfolders (minecraft_path : path) (pack_name : string)
  : M unit :=
  let instances_dir := Path.join minecraft_path "instances" in
  let pack_instance_dir := Path.join instances_dir pack_name in
  let base := Path.anchor instances_dir pack_name in
  let rel := Path.parts pack_name in
  let mods_source_dir := Path.join pack_instance_dir "mods" in
  let config_source_dir := Path.join pack_instance_dir "config" in
  let mods_target_dir :=
    Path.join (Path.join pack_instance_dir "minecraft") "mods" in
  let config_target_dir :=
    Path.join (Path.join pack_instance_dir "minecraft") "config" in
  mkdir_at base (rel ++ [ "minecraft" ])
           (Path.join pack_instance_dir "minecraft") ;;
  mkdir_at base (rel ++ [ "minecraft"; "mods" ]) mods_target_dir ;;
  mkdir_at base (rel ++ [ "minecraft"; "config" ]) config_target_dir ;;
  there <- folder_exists base rel mods_source_dir ;;
  (if there : bool
   then print "Moving mods..." ;;
        move_items base rel mods_source_dir mods_target_dir
   else ret tt) ;;
  there <- folder_exists base rel config_source_dir ;;
  (if there : bool
   then print "Moving configs..." ;;
        move_items base rel config_source_dir config_target_dir
   else ret tt) ;;
  let libraries_source_dir := Path.join pack_instance_dir "libraries" in
  let libraries_target_dir :=
    Path.join (Path.join pack_instance_dir "minecraft") "libraries" in
  mkdir_at base (rel ++ [ "minecraft"; "libraries" ]) libraries_target_dir ;;
  there <- folder_exists base rel libraries_source_dir ;;
  (if there : bool
   then print "Moving libraries..." ;;
        move_items base rel libraries_source_dir libraries_target_dir
   else ret tt).

(** Lines 25-80: the steps of the archive installer before the registry;
    [Val false] when one of the two early returns is taken. *)
Definition fetch_and_unpack (E : env) (pack_url : string)
  (minecraft_path : path) (pack_name : string) : M bool :=
  downloaded <- download_pack E pack_url minecraft_path pack_name ;;
  if downloaded : bool then
    extracted <- extract_pack E minecraft_path pack_name ;;
    if extracted : bool then
      move_subfolders minecraft_path pack_name ;;
      ret true
    else ret false
  else ret false.

(** [download_and_install_ftb_pack_from_link(pack_url, minecraft_dir,
    pack_name)], with [minecraft_path] the resolved [minecraft_dir]. *)
Definition download_and_install_ftb_pack_from_link (E : env)
  (pack_url : string) (minecraft_path : path) (pack_name : string)
  : M outcome :=
  if invalid_link pack_url then
    print "Invalid direct download link. Please provide a URL ending with .zip." ;;
    ret GaveUp
  else
    let profiles_path := Path.join minecraft_path "launcher_profiles.json" in
    let pack_instance_dir :=
      Path.join (Path.join minecraft_path "instances") pack_name in
    ready <- fetch_and_unpack E pack_url minecraft_path pack_name ;;
    if ready : bool then
      update_launcher_profiles E profiles_path pack_name
        (Path.str (Path.join pack_instance_dir "minecraft"))
        ("FTB pack '" ++ pack_name
         ++ "' installed successfully! Launch Minecraft and select the '"
         ++ pack_name ++ "' profile.")
    else ret GaveUp.

(** Lines 149-176: one collected link. *)
Definition install_link (E : env) (mods_dir : path) (link : string) : M unit :=
  n <- get_fs ;;
  if FS.isfile n (cwd E) link then
    catch (copy2 E link mods_dir ;;
           print ("Mod copied from " ++ link ++ " to " ++ Path.str mods_dir))
          (fun e => print ("Error copying mod from " ++ link ++ ": " ++ exn_text e))
  else if PyStr.startswith link "http" then
    catch (print ("Downloading mod from " ++ link ++ "...") ;;
           r <- http_get E link ;;
           if Z.eqb (status_code r) 200 then
             let file_name := Path.name link in
             let file_path := Path.join mods_dir file_name in
             save_stream file_path r ;;
             print ("Mod " ++ file_name ++ " downloaded successfully!")
           else
             print ("Failed to download mod from " ++ link ++ ". Status code: "
                    ++ Z_to_string (status_code r)))
          (fun e => print ("Error downloading mod from " ++ link ++ ": " ++ exn_text e))
  else print ("Unsupported link type: " ++ link).

(** Lines 129-135: the hyperlinks of the page, or [None] after a report. *)
Definition parse_html (E : env) (html_file_path : string)
  : M (option (list (option string))) :=
  catch (data <- load_text E html_file_path ;;
         match html_hrefs E data with
         | inl msg => raise (LibraryError msg)
         | inr anchors => ret (Some anchors)
         end)
        (fun e => print ("Error parsing HTML file: " ++ exn_text e) ;; ret None).

(** Lines 137-176: the links are collected and fetched one by one. *)
Definition gather_mods (E : env) (anchors : list (option string))
  (minecraft_path : path) : M unit :=
  let links := mod_links anchors in
  let mods_dir := Path.join minecraft_path "mods" in
  mkdir mods_dir ;;
  for_each links (install_link E mods_dir).

(** Lines 137-214: the installer once the page is parsed. *)
Definition install_from_anchors (E : env) (anchors : list (option string))
  (minecraft_path : path) (pack_name : string) : M outcome :=
  gather_mods E anchors minecraft_path ;;
  let profiles_path := Path.join minecraft_path "launcher_profiles.json" in
  update_launcher_profiles E profiles_path pack_name
    (Path.str minecraft_path)
    ("Mods installed successfully! Launch Minecraft and select the '"
     ++ pack_name ++ "' profile.").

(** [download_and_install_ftb_pack_from_html(html_file_path,
    minecraft_dir, pack_name)] *)
Definition download_and_install_ftb_pack_from_html (E : env)
  (html_file_path : string) (minecraft_path : path) (pack_name : string)
  : M outcome :=
  parsed <- parse_html E html_file_path ;;
  match parsed with
  | None => ret GaveUp
  | Some anchors => install_from_anchors E anchors minecraft_path pack_name
  end.

(** ** Notions used in the statements *)

(** The anchors that carry an [href]. *)
Definition hrefs_present (anchors : list (option string)) : list string :=
  flat_map (fun a => match a with Some h => [ h ] | None => [] end) anchors.

(** No component of [q] steps back to a parent. *)
Definition clean (q : path) : Prop := forall x, In x q -> x <> "..".

(** A value that [json.load] can build. *)
Definition pythonic (v : json) : Prop := exists j, v = as_python j.

(** The document the registry step starts from when the tree is [n]:
    what the file spells out, or the default one. *)
Definition registry_start (E : env) (n : node) (profiles_path : path) : json :=
  match FS.read n (Path.resolve profiles_path) with
  | Some data =>
      match json_load E data with
      | Some doc => as_python doc
      | None => default_registry
      end
  | None => default_registry
  end.

(** Every run of [m] relates the state it starts from to the state it
    leaves, however it ends. *)
Definition respects (R : world -> world -> Prop) {A} (m : M A) : Prop :=
  forall w r w', m w = (r, w') -> R w w'.

(** Every exception that leaves [m] satisfies [Q] in the state it leaves. *)
Definition raises_only (Q : exn -> world -> Prop) {A} (m : M A) : Prop :=
  forall w e w', m w = (Exc e, w') -> Q e w'.

(** The specification's words for the archive link and for a collected
    link: the text is an HTTP or HTTPS URL.  The script itself only asks
    whether the text starts with the four letters [http]. *)
Definition spec_is_http_url (s : string) : bool :=
  PyStr.startswith s "http://" || PyStr.startswith s "https://".

(** No line was taken from the console. *)
Definition same_stdin (w w' : world) : Prop := stdin w' = stdin w.

(** The regular file at place [q], or its absence, is the same in both
    states. *)
Definition same_file (q : path) (w w' : world) : Prop :=
  FS.read (fs w') q = FS.read (fs w) q.

(** Nothing was added to the trace. *)
Definition same_trace (w w' : world) : Prop := trace w' = trace w.

(** The trace grew by events that all satisfy [P]. *)
Definition grew_by (P : event -> Prop) (w w' : world) : Prop :=
  exists added, trace w' = trace w ++ added /\ Forall P added.

(** The event is not a request of [requests.get]. *)
Definition not_a_get (ev : event) : Prop := forall url, ev <> HttpGet url.

(** An event that is neither a move of step 3 nor part of the registry
    step. *)
Definition before_registry (ev : event) : Prop :=
  match ev with
  | Move _ _ | Input _ | OpenWrite _ | Copyfile _ _ => False
  | Print text => text <> "Updating launcher profile..."
  | _ => True
  end.

(** The component is a name or [..]: what [Path.parts] keeps. *)
Definition plain (c : string) : Prop := c <> "" /\ c <> ".".

(** The path an exception names, when it names one. *)
Definition blamed (e : exn) : option path :=
  match e with
  | FileNotFoundError p | IsADirectoryError p | NotADirectoryError p
  | FileExistsError p | ShutilError _ p => Some p
  | _ => None
  end.

(** The directories step 3 makes, from the instance directory of the
    pack. *)
Definition destinations : list (list string) :=
  [ [ "minecraft" ]; [ "minecraft"; "mods" ]; [ "minecraft"; "config" ];
    [ "minecraft"; "libraries" ] ].

(** The exception names the first [k] of the components [rel] from
    [base], and no directory is there. *)
Definition blames_no_directory (base : path) (rel : list string) (e : exn)
  (w : world) : Prop :=
  exists k, blamed e = Some (base ++ firstn k rel)
            /\ FS.isdir (fs w) (Path.resolve base) (firstn k rel) = false.

(** When the exception names a destination directory of the pack whose
    instance directory is [base] followed by [rel], no directory is
    there. *)
Definition no_standing_destination (base : path) (rel : list string) (e : exn)
  (w : world) : Prop :=
  forall sub, In sub destinations ->
              blamed e = Some (base ++ rel ++ sub) ->
              FS.isdir (fs w) (Path.resolve base) (rel ++ sub) = false.

(** The exception names no destination directory of the pack in [pid]. *)
Definition elsewhere (pid : path) (e : exn) (w : world) : Prop :=
  forall sub, In sub destinations -> blamed e <> Some (pid ++ sub).

(** The path the exception names, if any, is among [ps]. *)
Definition names_among (ps : list path) (e : exn) (w : world) : Prop :=
  forall s, blamed e = Some s -> In s ps.

(** The report that closes the copy of a local link (lines 155 and 157). *)
Definition copy_report (mods_dir : path) (link : string) (r : result unit)
  : string :=
  match r with
  | Val _ => "Mod copied from " ++ link ++ " to " ++ Path.str mods_dir
  | Exc e => "Error copying mod from " ++ link ++ ": " ++ exn_text e
  end.

(** The report that closes the download of a link answered with status
    200 (lines 170 and 174): [stored] is how writing the file ended. *)
Definition download_report (link : string) (r : response) (stored : result unit)
  : string :=
  match stored, broken r with
  | Val _, None => "Mod " ++ Path.name link ++ " downloaded successfully!"
  | Val _, Some msg => "Error downloading mod from " ++ link ++ ": " ++ msg
  | Exc e, _ => "Error downloading mod from " ++ link ++ ": " ++ exn_text e
  end.


(** Holds of every event. *)
Definition any_event (ev : event) : Prop := True.

(** ** A small machine to run the installers on *)

Module Sample.

Definition quoted (s : string) : string :=
  String (ascii_of_nat 34) (s ++ String (ascii_of_nat 34) EmptyString).

(** A serialiser on one line. *)
Fixpoint dump (j : json) : string :=
  match j with
  | JNull => "null"
  | JBool b => if b then "true" else "false"
  | JNum n => Z_to_string n
  | JStr s => quoted s
  | JArr items => "[" ++ String.concat ", " (map dump items) ++ "]"
  | JObj fields =>
      "{" ++ String.concat ", "
               (map (fun kv => (quoted (fst kv) ++ ": " ++ dump (snd kv))%string)
                    fields)
          ++ "}"
  end.

(** One server, [h]: it serves [p.zip] and [broken.zip] to [urlretrieve]
    and [b.zip] to [requests], and nothing else.  The second archive has
    one sound member followed by a damaged one.  The only JSON text is the
    empty object. *)
Definition E : env :=
  Env [ "home" ]
      (fun url => if String.eqb url "http://h/p.zip"
                  then Sent "PK-pack" None
                  else if String.eqb url "http://h/broken.zip"
                  then Sent "PK-broken" None
                  else Refused "unknown url type or HTTP Error 404")
      (fun data => if String.eqb data "PK-pack"
                   then ([ ("mods/a.jar", "A"); ("config/", "");
                           ("config/c.cfg", "C") ], None)
                   else if String.eqb data "PK-broken"
                   then ([ ("launcher_profiles.json", "clobbered") ],
                         Some "Bad CRC-32 for file 'mods/a.jar'")
                   else ([], Some "File is not a zip file"))
      (fun text => if String.eqb text "{}" then Some (JObj []) else None)
      dump
      (fun page => inr [ Some "a.jar"; Some "http://h/b.zip"; Some "c.txt"; None ])
      (fun url => if String.eqb url "http://h/b.zip"
                  then inr (Response 200 [ "x"; "y" ] None)
                  else inl "No connection adapters were found").

(** The working directory holds a page and a mod; nothing is installed. *)
Definition w0 : world :=
  World (Dir [ ("home", Dir [ ("a.jar", File "AAA");
                              ("page.html", File "<html>") ]) ])
        [ "1.12.2" ] [].

(** The same with a registry file that is not JSON and an old backup. *)
Definition w_corrupt : world :=
  World (Dir [ ("home", Dir [ ("a.jar", File "AAA");
                              ("page.html", File "<html>") ]);
               ("mc", Dir [ ("launcher_profiles.json", File "{oops");
                            ("launcher_profiles.json.bak", File "old") ]) ])
        [ "1.12.2" ] [].

(** The same with a sound registry file. *)
Definition w_registry : world :=
  World (Dir [ ("home", Dir [ ("a.jar", File "AAA");
                              ("page.html", File "<html>") ]);
               ("mc", Dir [ ("launcher_profiles.json", File "{}") ]) ])
        [ "1.12.2" ] [].

(** A mod whose file name starts with [http] lies in the working
    directory, and the mods directory is there. *)
Definition w_http_file : world :=
  World (Dir [ ("home", Dir [ ("http-tools.jar", File "JAR") ]);
               ("mc", Dir [ ("mods", Dir []) ]) ])
        [ "1.12.2" ] [].

(** The same with a regular file where [instances] should be made. *)
Definition w_blocked : world :=
  World (Dir [ ("mc", Dir [ ("instances", File "not a directory") ]) ])
        [ "1.12.2" ] [].

(** A regular file where the pack's [minecraft] folder should be made. *)
Definition w_occupied : world :=
  World (Dir [ ("mc",
                Dir [ ("instances",
                       Dir [ ("Pack",
                              Dir [ ("minecraft", File "not a directory") ]) ]) ]) ])
        [ "1.12.2" ] [].

End Sample.

Module Shadowed.

(** A registry with another pack, a setting and version 3. *)
Definition before : Dict.t :=
  [ ("profiles", JObj [ ("Other", profile_entry "Other" "1.7.10" "/mc") ]);
    ("settings", JObj [ ("locale", JStr "en-us") ]);
    ("version", JNum 3) ].

(** One server that sends an archive with a single member, a registry
    file of its own; the JSON reader knows that text and the one above. *)
Definition E : env :=
  Env [ "home" ]
      (fun _ => Sent "PK-registry" None)
      (fun _ => ([ ("launcher_profiles.json", Sample.dump default_registry) ],
                 None))
      (fun text => if String.eqb text (Sample.dump (JObj before))
                   then Some (JObj before)
                   else if String.eqb text (Sample.dump default_registry)
                   then Some default_registry
                   else None)
      Sample.dump
      (fun _ => inr [])
      (fun _ => inl "No connection adapters were found").

(** The game directory holds that registry. *)
Definition w : world :=
  World (Dir [ ("mc", Dir [ ("launcher_profiles.json",
                             File (Sample.dump (JObj before))) ]) ])
        [ "1.12.2" ] [].

End Shadowed.

Module Undecodable.

(** A registry file whose bytes are no text, next to an old backup. *)
Definition w : world :=
  World (Dir [ ("mc", Dir [ ("launcher_profiles.json",
                             Raw (String (ascii_of_nat 255) "{}"));
                            ("launcher_profiles.json.bak", File "old") ]) ])
        [ "1.12.2" ] [].

End Undecodable.

(** ** The menu (lines 216-235)

    [minecraft_path] is ["~/.minecraft"] expanded and resolved. *)

Definition main (E : env) (minecraft_path : path) : M unit :=
  print "Choose an installation method:" ;;
  print "1. Install from a direct download link" ;;
  print "2. Install from an HTML document" ;;
  choice <- input "Enter your choice (1/2): " ;;
  pack_name <- input "Input pack name: " ;;
  if String.eqb choice "1" then
    print "To download a modpack, you need a direct download link ending with .zip." ;;
    print "You can obtain this link by using tools like the Minecraft Serverpack Installer script or by manually downloading the modpack from CurseForge and then providing the direct link to the downloaded zip file." ;;
    pack_url <- input "Input direct download URL (ending with .zip): " ;;
    download_and_install_ftb_pack_from_link E pack_url minecraft_path pack_name ;;
    ret tt
  else if String.eqb choice "2" then
    html_file_path <- input "Input the path to the local HTML file: " ;;
    download_and_install_ftb_pack_from_html E html_file_path minecraft_path
      pack_name ;;
    ret tt
  else print "Invalid choice. Please choose again.".

(** What the menu has printed and asked when the choice and the pack name
    are read. *)
Definition menu_events : list event :=
  [ Print "Choose an installation method:";
    Print "1. Install from a direct download link";
    Print "2. Install from an HTML document";
    Input "Enter your choice (1/2): ";
    Input "Input pack name: " ].

(** What follows when the choice is [1], up to the reading of the link. *)
Definition link_prompt_events : list event :=
  [ Print "To download a modpack, you need a direct download link ending with .zip.";
    Print "You can obtain this link by using tools like the Minecraft Serverpack Installer script or by manually downloading the modpack from CurseForge and then providing the direct link to the downloaded zip file.";
    Input "Input direct download URL (ending with .zip): " ].

(** The value of a call is dropped, its exception kept. *)
Definition forget {A} (x : result A * world) : result unit * world :=
  match x with
  | (Val _, w) => (Val tt, w)
  | (Exc e, w) => (Exc e, w)
  end.

(** ** Notions used in the further statements *)


(** ** More states to run the installers on *)

Module Unpacked.

(** A pack folder after extraction: a mod waits in [mods]. *)
Definition fresh : world :=
  World (Dir [ ("mc",
                Dir [ ("instances",
                       Dir [ ("Pack",
                              Dir [ ("pack.zip", File "PK-pack");
                                    ("mods", Dir [ ("a.jar", File "A2") ]) ]) ]) ]) ])
        [ "1.12.2" ] [].

(** The same after an earlier installation of the pack. *)
Definition again : world :=
  World (Dir [ ("mc",
                Dir [ ("instances",
                       Dir [ ("Pack",
                              Dir [ ("pack.zip", File "PK-pack");
                                    ("mods", Dir [ ("a.jar", File "A2") ]);
                                    ("minecraft",
                                     Dir [ ("mods",
                                            Dir [ ("a.jar", File "A") ]);
                                           ("config",
                                            Dir [ ("c.cfg", File "C") ]) ]) ]) ]) ]) ])
        [ "1.12.2" ] [].

End Unpacked.

Module Reread.

(** The registry a first installation of [Pack] writes where there was
    none. *)
Definition first_doc : json :=
  JObj [ ("profiles", JObj [ ("Pack", profile_entry "Pack" "1.12.2" "/mc") ]);
         ("settings", JObj []);
         ("version", JNum 2) ].

(** The sample machine with a JSON reader that also knows that text. *)
Definition E : env :=
  Env (cwd Sample.E) (urlopen Sample.E) (zip_members Sample.E)
      (fun text => if String.eqb text (Sample.dump first_doc)
                   then Some first_doc
                   else json_load Sample.E text)
      Sample.dump (html_hrefs Sample.E) (requests_get Sample.E).

End Reread.

(** The last thing the run did was to print [text]. *)
Definition last_printed (text : string) (w : world) : Prop :=
  exists before, trace w = before ++ [ Print text ].

Module Cluttered.

(** A registry that is not JSON, and a directory named like its backup. *)
Definition no_room : world :=
  World (Dir [ ("mc", Dir [ ("launcher_profiles.json", File "{oops");
                            ("launcher_profiles.json.bak", Dir []) ]) ])
        [ "1.12.2" ] [].

End Cluttered.

(** The run took no line from the console, or exactly the first one. *)
Definition reads_at_most_one (w w' : world) : Prop :=
  stdin w' = stdin w \/ exists line, stdin w = line :: stdin w'.

(** * Properties *)

(** ** Strings and the suffix tests *)

Lemma endswith_inv (s suf : string) :
  PyStr.endswith s suf = true ->
  substring (String.length s - String.length suf) (String.length suf) s = suf.
Proof.
  unfold PyStr.endswith. intros H.
  apply andb_true_iff in H. destruct H as [_ H].
  now apply String.eqb_eq in H.
Qed.

(** Two suffixes of one string that have the same length are equal. *)
Lemma endswith_same_length (s a b : string) :
  String.length a = String.length b ->
  PyStr.endswith s a = true -> PyStr.endswith s b = true -> a = b.
Proof.
  intros L Ha Hb.
  apply endswith_inv in Ha. apply endswith_inv in Hb.
  rewrite <- Ha, <- Hb, L. reflexivity.
Qed.

Lemma endswith_excludes (s a b : string) :
  String.length a = String.length b -> a <> b ->
  PyStr.endswith s a = true -> PyStr.endswith s b = false.
Proof.
  intros L D Ha.
  destruct (PyStr.endswith s b) eqn:Hb; [| reflexivity].
  exfalso. apply D. eapply endswith_same_length; eauto.
Qed.

Lemma wanted_suffix_nonempty (href : string) :
  wanted_suffix href = true -> truthy href = true.
Proof.
  destruct href; [discriminate | reflexivity].
Qed.

Lemma mod_links_filter (anchors : list (option string)) :
  mod_links anchors = filter wanted_suffix (hrefs_present anchors).
Proof.
  induction anchors as [| [h |] rest IH]; simpl; auto.
  destruct (wanted_suffix h) eqn:W.
  - rewrite (wanted_suffix_nonempty _ W). simpl. now rewrite IH.
  - rewrite andb_false_r. exact IH.
Qed.

Lemma In_hrefs_present (anchors : list (option string)) (h : string) :
  In h (hrefs_present anchors) <-> In (Some h) anchors.
Proof.
  unfold hrefs_present. rewrite in_flat_map. split.
  - intros [[x |] [Hx Hin]]; simpl in Hin; [| contradiction].
    destruct Hin as [-> | []]. exact Hx.
  - intros H. exists (Some h). split; [exact H | now left].
Qed.

Lemma mod_links_In (anchors : list (option string)) (href : string) :
  In href (mod_links anchors) <->
  In (Some href) anchors /\ wanted_suffix href = true.
Proof.
  rewrite mod_links_filter, filter_In, In_hrefs_present. reflexivity.
Qed.

Lemma mod_links_app (a1 a2 : list (option string)) :
  mod_links (a1 ++ a2) = mod_links a1 ++ mod_links a2.
Proof.
  induction a1 as [| [h |] rest IH]; simpl; auto.
  destruct (truthy h && wanted_suffix h); simpl; now rewrite IH.
Qed.

Lemma mod_links_skip (a1 a2 : list (option string)) (href : string) :
  wanted_suffix href = false ->
  mod_links (a1 ++ Some href :: a2) = mod_links (a1 ++ a2).
Proof.
  intros W. rewrite !mod_links_app. simpl.
  now rewrite W, andb_false_r.
Qed.

(** C6: the scrape installer keeps exactly the [href] targets that end in
    [.jar] or [.zip], in document order; a hyperlink with another suffix is
    not collected, and the run with it on the page is the run without it:
    no copy, no download and no report is made for it. *)
Theorem C6_mod_links_exact :
  (forall anchors,
      mod_links anchors = filter wanted_suffix (hrefs_present anchors))
  /\ (forall anchors href,
         In href (mod_links anchors) <->
         In (Some href) anchors
         /\ (PyStr.endswith href ".jar" = true \/ PyStr.endswith href ".zip" = true))
  /\ (forall E before after href minecraft_path pack_name w,
         PyStr.endswith href ".jar" = false ->
         PyStr.endswith href ".zip" = false ->
         ~ In href (mod_links (before ++ Some href :: after))
         /\ install_from_anchors E (before ++ Some href :: after)
                                 minecraft_path pack_name w
            = install_from_anchors E (before ++ after) minecraft_path pack_name w).
Proof.
  split; [exact mod_links_filter |]. split.
  - intros anchors href. rewrite mod_links_In. unfold wanted_suffix.
    rewrite orb_true_iff. reflexivity.
  - intros E before after href R N w Hj Hz.
    assert (W : wanted_suffix href = false)
      by (unfold wanted_suffix; now rewrite Hj, Hz).
    split.
    + rewrite mod_links_In. intros [_ H]. congruence.
    + unfold install_from_anchors, gather_mods.
      now rewrite (mod_links_skip before after href W).
Qed.

(** C9, the guard's side: a link that ends in upper-case [.ZIP] is
    invalid. *)
Lemma upper_zip_invalid (pack_url : string) :
  PyStr.endswith pack_url ".ZIP" = true -> invalid_link pack_url = true.
Proof.
  intros H. unfold invalid_link.
  rewrite (endswith_excludes pack_url ".ZIP" ".zip"); auto.
  discriminate.
Qed.

(** What the archive installer does with an invalid link: one message. *)
Lemma invalid_link_run (E : env) (pack_url : string) (minecraft_path : path)
  (pack_name : string) (w : world) :
  invalid_link pack_url = true ->
  download_and_install_ftb_pack_from_link E pack_url minecraft_path pack_name w
  = (Val GaveUp,
     World (fs w) (stdin w)
           (trace w ++
            [ Print "Invalid direct download link. Please provide a URL ending with .zip." ])).
Proof.
  intros H. unfold download_and_install_ftb_pack_from_link.
  rewrite H. reflexivity.
Qed.

(** C9: both suffix tests distinguish case.  A link ending in [.ZIP] is
    turned down by the archive installer, and an [href] ending in [.JAR]
    or [.ZIP] is never collected by the scrape installer. *)
Theorem C9_suffix_case_sensitive :
  (forall E pack_url minecraft_path pack_name w,
      PyStr.endswith pack_url ".ZIP" = true ->
      download_and_install_ftb_pack_from_link E pack_url minecraft_path pack_name w
      = (Val GaveUp,
         World (fs w) (stdin w)
               (trace w ++
                [ Print "Invalid direct download link. Please provide a URL ending with .zip." ])))
  /\ (forall anchors href,
         PyStr.endswith href ".JAR" = true \/ PyStr.endswith href ".ZIP" = true ->
         ~ In href (mod_links anchors)).
Proof.
  split.
  - intros. apply invalid_link_run. now apply upper_zip_invalid.
  - intros anchors href H. rewrite mod_links_In.
    intros [_ W]. unfold wanted_suffix in W.
    destruct H as [H | H].
    + rewrite (endswith_excludes href ".JAR" ".jar"),
              (endswith_excludes href ".JAR" ".zip") in W;
        auto; discriminate.
    + rewrite (endswith_excludes href ".ZIP" ".jar"),
              (endswith_excludes href ".ZIP" ".zip") in W;
        auto; discriminate.
Qed.

(** ** Paths *)

Lemma resolve_onto_clean (q : path) :
  clean q -> forall up, Path.resolve_onto up q = rev up ++ q.
Proof.
  induction q as [| x q IH]; intros C up; simpl.
  - now rewrite app_nil_r.
  - destruct (String.eqb_spec x "..") as [-> | _].
    + exfalso. apply (C ".."); [now left | reflexivity].
    + rewrite IH by (intros y Hy; apply C; now right).
      simpl. now rewrite <- app_assoc.
Qed.

Lemma resolve_onto_app (p q : path) :
  forall up, exists up',
    Path.resolve_onto up p = rev up'
    /\ Path.resolve_onto up (p ++ q) = Path.resolve_onto up' q.
Proof.
  induction p as [| x p IH]; intros up; simpl.
  - exists up. split; reflexivity.
  - destruct (String.eqb x ".."); apply IH.
Qed.

(** Clean components added to a path are added to its place. *)
Lemma resolve_app (p q : path) :
  clean q -> Path.resolve (p ++ q) = Path.resolve p ++ q.
Proof.
  intros C. unfold Path.resolve.
  destruct (resolve_onto_app p q []) as [up' [H1 H2]].
  rewrite H2, H1. now apply resolve_onto_clean.
Qed.

Lemma resolve_clean (p : path) : clean p -> Path.resolve p = p.
Proof.
  intros C. unfold Path.resolve. now rewrite resolve_onto_clean.
Qed.

Lemma clean_one (x : string) : x <> ".." -> clean [ x ].
Proof.
  intros D y [<- | []]. exact D.
Qed.

Lemma is_prefix_app (p q : path) : Path.is_prefix p (p ++ q) = true.
Proof.
  induction p as [| x p IH]; simpl; auto.
  now rewrite String.eqb_refl.
Qed.

Lemma is_prefix_trans (p q r : path) :
  Path.is_prefix p q = true -> Path.is_prefix q r = true ->
  Path.is_prefix p r = true.
Proof.
  revert q r. induction p as [| x p IH]; intros [| y q] [| z r]; simpl;
    try discriminate; auto.
  rewrite !andb_true_iff. intros [H1 H2] [H3 H4].
  apply String.eqb_eq in H1, H3. subst. rewrite String.eqb_refl.
  split; [reflexivity | eauto].
Qed.

Lemma is_prefix_refl (p : path) : Path.is_prefix p p = true.
Proof.
  induction p as [| x p IH]; simpl; auto. now rewrite String.eqb_refl.
Qed.

(** A place outside [p] is none of the places below [p]. *)
Lemma outside_neq (p q r : path) :
  Path.is_prefix p q = false -> q <> p ++ r.
Proof.
  intros H ->. now rewrite is_prefix_app in H.
Qed.

(** The components [zipfile] keeps never step back. *)
Lemma arcname_clean (filename : string) : clean (arcname filename).
Proof.
  intros x Hx. unfold arcname in Hx. apply filter_In in Hx.
  destruct Hx as [_ Hx]. intros ->. discriminate.
Qed.

(** ** The file-system tree *)

Lemma assoc_put_same (x : string) (n : node) es :
  FS.assoc x (FS.put x n es) = Some n.
Proof.
  induction es as [| [y m] es IH]; simpl.
  - now rewrite String.eqb_refl.
  - destruct (String.eqb y x) eqn:Eq; simpl; now rewrite Eq.
Qed.

Lemma assoc_put_other (x y : string) (n : node) es :
  x <> y -> FS.assoc y (FS.put x n es) = FS.assoc y es.
Proof.
  intros D. induction es as [| [z m] es IH]; simpl.
  - destruct (String.eqb_spec x y); congruence.
  - destruct (String.eqb_spec z x) as [-> | Dz]; simpl.
    + destruct (String.eqb_spec x y); congruence.
    + now rewrite IH.
Qed.

Lemma put_assoc_id (x : string) (n : node) es :
  FS.assoc x es = Some n -> FS.put x n es = es.
Proof.
  induction es as [| [y m] es IH]; simpl; [discriminate |].
  destruct (String.eqb y x); intros H.
  - now inversion H.
  - now rewrite IH.
Qed.

(** Making a directory that is already there changes nothing. *)
Lemma mkdir_p_existing (p : path) :
  forall n, FS.is_dir n p = true -> FS.mkdir_p n p = Some n.
Proof.
  unfold FS.is_dir.
  induction p as [| x q IH]; intros [d | b | es]; simpl; try discriminate; auto.
  destruct (FS.assoc x es) as [c |] eqn:A; [| discriminate].
  intros H. rewrite (IH c H). now rewrite put_assoc_id.
Qed.


Lemma mkdir_p_fresh (p : path) : exists c, FS.mkdir_p (Dir []) p = Some c.
Proof.
  induction p as [| x p [c IH]]; simpl; [eauto |].
  rewrite IH. eauto.
Qed.

(** What stops the making of a directory is a regular file, at the place
    itself when none stands above it. *)
Lemma mkdir_p_blocked (p : path) :
  forall n, FS.mkdir_p n p = None -> FS.under_file n p = false ->
            FS.is_file n p = true.
Proof.
  unfold FS.is_file.
  induction p as [| x p IH]; intros [d | b | es]; simpl; try discriminate; auto.
  destruct (FS.assoc x es) as [c |] eqn:A.
  - destruct (FS.mkdir_p c p) eqn:Mk; [discriminate |]. intros _. now apply IH.
  - destruct (mkdir_p_fresh p) as [c Hc]. rewrite Hc. discriminate.
Qed.

Lemma is_file_not_dir (n : node) (p : path) :
  FS.is_file n p = true -> FS.is_dir n p = false.
Proof.
  unfold FS.is_file, FS.is_dir.
  destruct (FS.lookup n p) as [[d | b | es] |]; auto; discriminate.
Qed.

(** *** What a change of the tree leaves readable *)

Lemma read_cons (es : list (string * node)) (x : string) (q : path) :
  FS.read (Dir es) (x :: q)
  = match FS.assoc x es with Some c => FS.read c q | None => None end.
Proof.
  unfold FS.read. simpl. destruct (FS.assoc x es); reflexivity.
Qed.

Lemma read_below_file (d : string) (x : string) (q : path) :
  FS.read (File d) (x :: q) = None.
Proof. reflexivity. Qed.

Lemma read_below_regular (c : node) (x : string) (q : path) :
  FS.regular c = true -> FS.read c (x :: q) = None.
Proof. destruct c; [reflexivity | reflexivity | discriminate]. Qed.

Lemma read_empty_dir (q : path) : FS.read (Dir []) q = None.
Proof. destruct q; reflexivity. Qed.

(** Making directories neither adds nor alters a regular file. *)
Lemma mkdir_p_read (p : path) :
  forall n n', FS.mkdir_p n p = Some n' ->
  forall q, FS.read n' q = FS.read n q.
Proof.
  induction p as [| x p IH]; intros [d | b | es] n'; simpl; try discriminate.
  - intros H; inversion H; reflexivity.
  - destruct (FS.assoc x es) as [c |] eqn:A.
    + destruct (FS.mkdir_p c p) as [c' |] eqn:Mk; [| discriminate].
      intros H; inversion H; subst n'; clear H. intros [| y q].
      * reflexivity.
      * rewrite !read_cons.
        destruct (String.eqb_spec x y) as [<- | D].
        -- rewrite assoc_put_same, A. eapply IH; eauto.
        -- now rewrite assoc_put_other.
    + destruct (FS.mkdir_p (Dir []) p) as [c' |] eqn:Mk; [| discriminate].
      intros H; inversion H; subst n'; clear H. intros [| y q].
      * reflexivity.
      * rewrite !read_cons.
        destruct (String.eqb_spec x y) as [<- | D].
        -- rewrite assoc_put_same, A.
           rewrite (IH _ _ Mk). apply read_empty_dir.
        -- now rewrite assoc_put_other.
Qed.

(** What is put at a place is found there. *)
Lemma place_lookup_same (ok : option node -> bool) (sub : node) (p : path) :
  forall n n', FS.place ok sub n p = Some n' -> FS.lookup n' p = Some sub.
Proof.
  induction p as [| x p IH]; intros [d | b | es] n'; simpl; try discriminate.
  destruct p as [| z p].
  - destruct (ok (FS.assoc x es)); [| discriminate].
    intros H; inversion H. simpl. now rewrite assoc_put_same.
  - destruct (FS.assoc x es) as [c |] eqn:A; [| discriminate].
    destruct (FS.place ok sub c (z :: p)) as [c' |] eqn:Pl; [| discriminate].
    intros H; inversion H. cbn [FS.lookup]. rewrite assoc_put_same.
    eapply IH; eauto.
Qed.

(** A regular file put over what is no directory: every other place
    reads as before. *)
Lemma place_read_other (sub : node) (p : path) :
  FS.regular sub = true ->
  forall n n', FS.place FS.not_a_dir sub n p = Some n' ->
  forall q, q <> p -> FS.read n' q = FS.read n q.
Proof.
  intros Rg.
  induction p as [| x p IH]; intros [d | b | es] n'; simpl; try discriminate.
  destruct p as [| z p].
  - destruct (FS.not_a_dir (FS.assoc x es)) eqn:ND; [| discriminate].
    intros H; inversion H; subst n'; clear H. intros [| y q] D.
    + reflexivity.
    + rewrite !read_cons.
      destruct (String.eqb_spec x y) as [<- | Dx].
      * rewrite assoc_put_same.
        destruct q as [| y' q]; [congruence |].
        rewrite (read_below_regular _ _ _ Rg).
        destruct (FS.assoc x es) as [[d | b | es'] |]; try reflexivity.
        discriminate.
      * now rewrite assoc_put_other.
  - destruct (FS.assoc x es) as [c |] eqn:A; [| discriminate].
    destruct (FS.place FS.not_a_dir sub c (z :: p)) as [c' |] eqn:Pl;
      [| discriminate].
    intros H; inversion H; subst n'; clear H. intros [| y q] D.
    + reflexivity.
    + rewrite !read_cons.
      destruct (String.eqb_spec x y) as [<- | Dx].
      * rewrite assoc_put_same, A. eapply IH; eauto. congruence.
      * now rewrite assoc_put_other.
Qed.

(** A file written is what is read back there. *)
Lemma write_read_same (p : path) (data : string) :
  forall n n', FS.write n p data = Some n' -> FS.read n' p = Some data.
Proof.
  unfold FS.write, FS.read. intros n n' H.
  now rewrite (place_lookup_same _ _ _ _ _ H).
Qed.

(** Every other place reads as before. *)
Lemma write_read_other (p : path) (data : string) :
  forall n n', FS.write n p data = Some n' ->
  forall q, q <> p -> FS.read n' q = FS.read n q.
Proof. unfold FS.write. now apply place_read_other. Qed.

(** ** The primitive actions *)

Ltac unmonad :=
  unfold bind, ret, raise, emit, print, get_fs, set_fs in *; simpl in *.

Ltac pair_inv H := inversion H; subst; clear H; simpl.

Lemma mkdir_spec (p : path) (w : world) (r : result unit) (w' : world) :
  mkdir p w = (r, w') ->
  stdin w' = stdin w
  /\ trace w' = trace w ++ [ Mkdir p ]
  /\ (forall q, FS.read (fs w') q = FS.read (fs w) q)
  /\ (r = Val tt /\ FS.mkdir_p (fs w) (Path.resolve p) = Some (fs w')
      \/ r = Exc (FileExistsError p) /\ fs w' = fs w
         /\ FS.is_file (fs w) (Path.resolve p) = true
      \/ r = Exc (NotADirectoryError p) /\ fs w' = fs w).
Proof.
  unfold mkdir. unmonad.
  destruct (FS.mkdir_p (fs w) (Path.resolve p)) as [n' |] eqn:Mk.
  - intros H; pair_inv H; repeat split; auto.
    intros q. eapply mkdir_p_read; eauto.
  - destruct (FS.under_file (fs w) (Path.resolve p)) eqn:U;
      intros H; pair_inv H; repeat split; auto.
    right. left. repeat split. now apply mkdir_p_blocked.
Qed.

Lemma store_node_spec (p : path) (c : node) (w : world) (r : result unit)
  (w' : world) :
  FS.regular c = true ->
  store_node p c w = (r, w') ->
  stdin w' = stdin w
  /\ trace w' = trace w
  /\ (forall q, q <> Path.resolve p -> FS.read (fs w') q = FS.read (fs w) q)
  /\ (r = Val tt /\ FS.lookup (fs w') (Path.resolve p) = Some c
      \/ (exists e, r = Exc e /\ fs w' = fs w
                    /\ (e = IsADirectoryError p \/ e = NotADirectoryError p
                        \/ e = FileNotFoundError p))).
Proof.
  intros Rg. unfold store_node. unmonad.
  destruct (FS.place FS.not_a_dir c (fs w) (Path.resolve p)) as [n' |] eqn:Wr.
  - intros H; pair_inv H. repeat split; auto.
    + intros q D. eapply place_read_other; eauto.
    + left. split; auto. eapply place_lookup_same; eauto.
  - destruct (FS.is_dir (fs w) (Path.resolve p));
      [| destruct (FS.under_file (fs w) (Path.resolve p))];
      intros H; pair_inv H; repeat split; auto; right; eauto 6.
Qed.

Lemma store_spec (p : path) (data : string) (w : world) (r : result unit)
  (w' : world) :
  store p data w = (r, w') ->
  stdin w' = stdin w
  /\ trace w' = trace w
  /\ (forall q, q <> Path.resolve p -> FS.read (fs w') q = FS.read (fs w) q)
  /\ (r = Val tt /\ FS.read (fs w') (Path.resolve p) = Some data
      \/ (exists e, r = Exc e /\ fs w' = fs w
                    /\ (e = IsADirectoryError p \/ e = NotADirectoryError p
                        \/ e = FileNotFoundError p))).
Proof.
  unfold store. unmonad.
  destruct (FS.write (fs w) (Path.resolve p) data) as [n' |] eqn:Wr.
  - intros H; pair_inv H. repeat split; auto.
    + intros q D. eapply write_read_other; eauto.
    + left. split; auto. eapply write_read_same; eauto.
  - destruct (FS.is_dir (fs w) (Path.resolve p));
      [| destruct (FS.under_file (fs w) (Path.resolve p))];
      intros H; pair_inv H; repeat split; auto; right; eauto 6.
Qed.

(** What [open(p, 'rb')] finds, and why it may fail. *)
Lemma found_spec (p : path) (w : world) (r : result node) (w' : world) :
  found p w = (r, w') ->
  w' = w
  /\ (forall c, r = Val c <->
                FS.lookup (fs w) (Path.resolve p) = Some c
                /\ FS.regular c = true)
  /\ (forall e, r = Exc e ->
        e = IsADirectoryError p /\ FS.is_dir (fs w) (Path.resolve p) = true
        \/ e = NotADirectoryError p
           /\ FS.lookup (fs w) (Path.resolve p) = None
        \/ e = FileNotFoundError p
           /\ FS.lookup (fs w) (Path.resolve p) = None).
Proof.
  unfold found, FS.is_dir. unmonad.
  destruct (FS.lookup (fs w) (Path.resolve p)) as [[d | b | es] |];
    [| | | destruct (FS.under_file (fs w) (Path.resolve p))];
    intros H; pair_inv H; (split; [reflexivity |]); split;
    try (intros c; split;
         [ intros H; inversion H; split; reflexivity
         | intros [H R]; inversion H; subst; try reflexivity;
           discriminate ]);
    intros e H; inversion H; auto.
Qed.

Lemma load_node_spec (p : path) (w : world) (r : result node) (w' : world) :
  load_node p w = (r, w') ->
  w' = World (fs w) (stdin w) (trace w ++ [ OpenRead p ])
  /\ (forall c, r = Val c <->
                FS.lookup (fs w) (Path.resolve p) = Some c
                /\ FS.regular c = true)
  /\ (forall e, r = Exc e ->
        e = IsADirectoryError p \/ e = NotADirectoryError p
        \/ e = FileNotFoundError p).
Proof.
  unfold load_node. intros H.
  apply found_spec in H. cbn [fs stdin trace] in H.
  destruct H as [-> [V X]]. split; [reflexivity |]. split; [exact V |].
  intros e He. destruct (X e He) as [[-> _] | [[-> _] | [-> _]]]; auto.
Qed.

Lemma load_spec (p : path) (w : world) (r : result string) (w' : world) :
  load p w = (r, w') ->
  w' = World (fs w) (stdin w) (trace w ++ [ OpenRead p ])
  /\ (forall data, r = Val data <-> FS.read (fs w) (Path.resolve p) = Some data)
  /\ (forall e, r = Exc e ->
        e = IsADirectoryError p \/ e = NotADirectoryError p
        \/ e = FileNotFoundError p
        \/ e = UnicodeDecodeError
           /\ FS.is_file (fs w) (Path.resolve p) = true
           /\ FS.read (fs w) (Path.resolve p) = None).
Proof.
  unfold load, load_node, found, decoded, FS.read, FS.is_file. unmonad.
  destruct (FS.lookup (fs w) (Path.resolve p)) as [[d | b | es] |];
    [| | | destruct (FS.under_file (fs w) (Path.resolve p))];
    intros H; pair_inv H; (split; [reflexivity |]); split;
    try (intros data; split; intros H; inversion H; reflexivity);
    intros e H; inversion H; auto 7.
Qed.

(** ** Dictionaries *)

Section DictFacts.

Variables (k : string) (v : json).

Lemma get_set_same (d : Dict.t) : Dict.get (Dict.set d k v) k = Some v.
Proof.
  induction d as [| [k' v'] d IH]; simpl.
  - now rewrite String.eqb_refl.
  - destruct (String.eqb k' k) eqn:Eq; simpl; now rewrite Eq.
Qed.

Lemma get_set_other (d : Dict.t) (k2 : string) :
  k2 <> k -> Dict.get (Dict.set d k v) k2 = Dict.get d k2.
Proof.
  intros D. induction d as [| [k' v'] d IH]; simpl.
  - destruct (String.eqb_spec k k2); congruence.
  - destruct (String.eqb_spec k' k) as [-> | Dk]; simpl.
    + destruct (String.eqb_spec k k2); congruence.
    + now rewrite IH.
Qed.

(** Overwriting keeps every key where it stands. *)
Lemma keys_set_present (d : Dict.t) :
  In k (Dict.keys d) -> Dict.keys (Dict.set d k v) = Dict.keys d.
Proof.
  unfold Dict.keys.
  induction d as [| [k' v'] d IH]; simpl; [contradiction |].
  destruct (String.eqb_spec k' k) as [-> | Dk]; simpl; [reflexivity |].
  intros [E | H]; [congruence | now rewrite IH].
Qed.

(** A new key goes to the end. *)
Lemma keys_set_absent (d : Dict.t) :
  ~ In k (Dict.keys d) -> Dict.keys (Dict.set d k v) = Dict.keys d ++ [ k ].
Proof.
  unfold Dict.keys.
  induction d as [| [k' v'] d IH]; simpl; [reflexivity |].
  intros H. destruct (String.eqb_spec k' k) as [-> | Dk]; simpl.
  - exfalso. apply H. now left.
  - rewrite IH; [reflexivity | tauto].
Qed.

Lemma keys_set_In (d : Dict.t) : In k (Dict.keys (Dict.set d k v)).
Proof.
  destruct (in_dec string_dec k (Dict.keys d)) as [H | H].
  - now rewrite keys_set_present.
  - rewrite keys_set_absent by exact H. apply in_or_app. right. now left.
Qed.

Lemma keys_set_NoDup (d : Dict.t) :
  NoDup (Dict.keys d) -> NoDup (Dict.keys (Dict.set d k v)).
Proof.
  intros ND. destruct (in_dec string_dec k (Dict.keys d)) as [H | H].
  - now rewrite keys_set_present.
  - rewrite keys_set_absent by exact H.
    apply NoDup_app; [exact ND | repeat constructor; intros [] |].
    intros x Hx [<- | []]. exact (H Hx).
Qed.

(** Every value of the dictionary after the assignment is [v] or was
    there before. *)
Lemma values_set (P : json -> Prop) (d : Dict.t) :
  P v -> Forall (fun kv => P (snd kv)) d ->
  Forall (fun kv => P (snd kv)) (Dict.set d k v).
Proof.
  intros Pv. induction 1 as [| [k' v'] d Hk Hd IH]; simpl.
  - repeat constructor. exact Pv.
  - destruct (String.eqb k' k); constructor; auto.
Qed.

End DictFacts.

Lemma get_In (d : Dict.t) (k : string) (v : json) :
  Dict.get d k = Some v -> In (k, v) d.
Proof.
  induction d as [| [k' v'] d IH]; simpl; [discriminate |].
  destruct (String.eqb_spec k' k) as [-> | D]; intros H.
  - inversion H. now left.
  - right. now apply IH.
Qed.

Lemma NoDup_count_one (l : list string) (x : string) :
  NoDup l -> In x l -> count_occ string_dec l x = 1.
Proof.
  intros ND H.
  pose proof (proj1 (NoDup_count_occ string_dec l) ND x) as Le.
  pose proof (proj1 (count_occ_In string_dec l x) H) as Gt.
  lia.
Qed.

(** *** What [json.load] builds *)

Lemma of_pairs_inv (P : json -> Prop) (pairs : list (string * json)) :
  Forall (fun kv => P (snd kv)) pairs ->
  forall d, NoDup (Dict.keys d) -> Forall (fun kv => P (snd kv)) d ->
  NoDup (Dict.keys (fold_left (fun d kv => Dict.set d (fst kv) (snd kv)) pairs d))
  /\ Forall (fun kv => P (snd kv))
            (fold_left (fun d kv => Dict.set d (fst kv) (snd kv)) pairs d).
Proof.
  induction 1 as [| [k v] pairs Hk Hp IH]; intros d ND Hd; simpl; auto.
  apply IH.
  - now apply keys_set_NoDup.
  - now apply values_set.
Qed.

(** A loaded object has distinct keys and loaded values. *)
Lemma as_python_object (j : json) (d : Dict.t) :
  as_python j = JObj d ->
  NoDup (Dict.keys d) /\ Forall (fun kv => pythonic (snd kv)) d.
Proof.
  destruct j; simpl; try discriminate.
  intros H. inversion H. unfold Dict.of_pairs.
  apply of_pairs_inv; [| constructor | constructor].
  apply Forall_forall. intros [k v] Hin.
  apply in_map_iff in Hin. destruct Hin as [[k0 v0] [Eq _]].
  inversion Eq. simpl. now exists v0.
Qed.

Lemma pythonic_member (d : Dict.t) (k : string) (ps : Dict.t) :
  pythonic (JObj d) -> Dict.get d k = Some (JObj ps) -> NoDup (Dict.keys ps).
Proof.
  intros [j Hj] G. symmetry in Hj.
  destruct (as_python_object j d Hj) as [_ Hv].
  apply get_In in G. rewrite Forall_forall in Hv.
  destruct (Hv _ G) as [j' Hj']. simpl in Hj'. symmetry in Hj'.
  now destruct (as_python_object j' ps Hj').
Qed.

Lemma default_registry_pythonic : pythonic default_registry.
Proof. exists default_registry. reflexivity. Qed.

Lemma registry_start_pythonic (E : env) (n : node) (p : path) :
  pythonic (registry_start E n p).
Proof.
  unfold registry_start.
  destruct (FS.read n (Path.resolve p)) as [data |];
    [| apply default_registry_pythonic].
  destruct (json_load E data) as [doc |];
    [now exists doc | apply default_registry_pythonic].
Qed.

(** *** The assignment of line 98 *)

Lemma insert_profile_inv (doc : json) (id : string) (entry doc' : json) :
  insert_profile doc id entry = Val doc' ->
  exists d ps,
    doc = JObj d /\ Dict.get d "profiles" = Some (JObj ps)
    /\ doc' = JObj (Dict.set d "profiles" (JObj (Dict.set ps id entry))).
Proof.
  destruct doc; simpl; try discriminate.
  destruct (Dict.get fields "profiles") as [[| | | | |ps] |] eqn:G;
    try discriminate.
  intros H. inversion H. eauto.
Qed.

(** ** Sequencing *)

Lemma bind_val_inv {A B} (m : M A) (k : A -> M B) (w w' : world) (b : B) :
  bind m k w = (Val b, w') ->
  exists a w1, m w = (Val a, w1) /\ k a w1 = (Val b, w').
Proof.
  unfold bind. destruct (m w) as [[a | e] w1]; intros H.
  - eauto.
  - discriminate.
Qed.

Lemma bind_inv {A B} (m : M A) (k : A -> M B) (w w' : world) (r : result B) :
  bind m k w = (r, w') ->
  (exists a w1, m w = (Val a, w1) /\ k a w1 = (r, w'))
  \/ (exists e, m w = (Exc e, w') /\ r = Exc e).
Proof.
  unfold bind. destruct (m w) as [[a | e] w1]; intros H.
  - left. eauto.
  - right. inversion H. eauto.
Qed.

Lemma emit_run (ev : event) (w : world) :
  emit ev w = (Val tt, World (fs w) (stdin w) (trace w ++ [ ev ])).
Proof. reflexivity. Qed.

Lemma print_run (text : string) (w : world) :
  print text w = (Val tt, World (fs w) (stdin w) (trace w ++ [ Print text ])).
Proof. reflexivity. Qed.

(** ** The registry step *)

Lemma add_suffix_last (p : path) (x suffix : string) :
  Path.add_suffix (p ++ [ x ]) suffix = p ++ [ (x ++ suffix)%string ].
Proof.
  induction p as [| y p IH]; [reflexivity |].
  simpl. rewrite IH. destruct (p ++ [ x ]) eqn:Eq; [| reflexivity].
  now destruct p.
Qed.

Lemma read_of_lookup (n : node) (q : path) (c : node) (data : string) :
  FS.lookup n q = Some c -> FS.read n q = Some data -> c = File data.
Proof.
  unfold FS.read. intros ->. destruct c; congruence.
Qed.

Lemma copyfile_spec (src dst : path) (w : world) (r : result unit) (w' : world) :
  copyfile src dst w = (r, w') ->
  stdin w' = stdin w
  /\ (forall q, q <> Path.resolve dst -> FS.read (fs w') q = FS.read (fs w) q)
  /\ (r = Val tt ->
      exists c, FS.lookup (fs w) (Path.resolve src) = Some c
                /\ FS.lookup (fs w') (Path.resolve dst) = Some c).
Proof.
  unfold copyfile. intros H.
  apply bind_inv in H. destruct H as [[[] [w1 [H1 H]]] | [e [H1 _]]];
    [| discriminate].
  rewrite emit_run in H1. inversion H1; subst w1; clear H1.
  unfold bind at 1, get_fs at 1 in H. cbn [fs] in H.
  destruct (samefile (fs w) src dst).
  { inversion H. simpl. repeat split; auto. discriminate. }
  apply bind_inv in H. destruct H as [[c [w2 [H2 H]]] | [e [H2 ->]]].
  - apply load_node_spec in H2. destruct H2 as [-> [Hd _]]. simpl in Hd.
    destruct (proj1 (Hd c) eq_refl) as [Lk Rg].
    apply store_node_spec in H; [| exact Rg]. simpl in H.
    destruct H as [S [_ [Fr Out]]].
    repeat split; auto.
    intros ->. exists c. split; [exact Lk |].
    destruct Out as [[_ R] | [e [Ex _]]]; [exact R | discriminate].
  - apply load_node_spec in H2. destruct H2 as [-> _]. simpl.
    repeat split; auto. discriminate.
Qed.

Lemma read_registry_spec (E : env) (p : path) (w : world) (doc : json)
  (w1 : world) :
  read_registry E p w = (Val doc, w1) ->
  doc = registry_start E (fs w) p
  /\ stdin w1 = stdin w
  /\ (forall q, q <> Path.resolve (Path.add_suffix p ".bak") ->
        FS.read (fs w1) q = FS.read (fs w) q)
  /\ (forall data, FS.read (fs w) (Path.resolve p) = Some data ->
        json_load E data = None ->
        FS.read (fs w1) (Path.resolve (Path.add_suffix p ".bak")) = Some data).
Proof.
  unfold read_registry, catch, registry_start.
  destruct (bind (load p) _ w) as [[doc0 | e] w0] eqn:Rd.
  - (* the file was read and parsed *)
    apply bind_val_inv in Rd. destruct Rd as [data [w2 [L K]]].
    apply load_spec in L. destruct L as [-> [Hd _]].
    assert (R : FS.read (fs w) (Path.resolve p) = Some data) by now apply Hd.
    rewrite R.
    destruct (json_load E data) as [j |] eqn:J; [| discriminate].
    unfold ret in K. inversion K; subst. intros H; inversion H; subst; simpl.
    repeat split; auto. intros d Hd' J'. congruence.
  - apply bind_inv in Rd.
    destruct Rd as [[data [w2 [L K]]] | [e' [L Ee]]].
    + (* the file was read and is not JSON *)
      apply load_spec in L. destruct L as [-> [Hd _]].
      assert (R : FS.read (fs w) (Path.resolve p) = Some data) by now apply Hd.
      rewrite R.
      destruct (json_load E data) as [j |] eqn:J; [discriminate |].
      unfold raise in K. inversion K; subst e w0; clear K.
      intros H. apply bind_val_inv in H. destruct H as [[] [w3 [P H]]].
      rewrite print_run in P. inversion P; subst w3; clear P.
      apply bind_val_inv in H. destruct H as [[] [w4 [C H]]].
      unfold ret in H. inversion H; subst; clear H.
      apply copyfile_spec in C. simpl in C. destruct C as [S [Fr Cp]].
      repeat split; auto.
      intros d Hd' _. destruct (Cp eq_refl) as [c [R1 R2]].
      rewrite (read_of_lookup _ _ _ _ R1 R) in R2.
      unfold FS.read. rewrite R2. congruence.
    + (* the file could not be opened *)
      inversion Ee; subst e'; clear Ee.
      pose proof (load_spec _ _ _ _ L) as [-> [Hd Hx]].
      destruct (FS.read (fs w) (Path.resolve p)) as [data |] eqn:R.
      { destruct (Hd data) as [_ Hd']. discriminate (Hd' eq_refl). }
      destruct (Hx e eq_refl) as [-> | [-> | [-> | [-> _]]]];
        try discriminate.
      unfold ret. intros H; inversion H; subst; simpl.
      repeat split; auto. discriminate.
Qed.

Lemma input_spec (prompt : string) (w : world) (line : string) (w' : world) :
  input prompt w = (Val line, w') ->
  stdin w = line :: stdin w' /\ fs w' = fs w.
Proof.
  unfold input. unmonad. destruct (stdin w) as [| l rest]; intros H;
    inversion H; subst; simpl; auto.
Qed.

(** A completed registry step: the line typed is the version, the
    document read (or the default one) receives the profile, and the file
    holds its serialisation; the backup, when one was due, holds the bytes
    found. *)
Lemma update_spec (E : env) (p : path) (pack_name game_dir closing : string)
  (w w' : world) :
  update_launcher_profiles E p pack_name game_dir closing w
  = (Val Installed, w') ->
  exists version doc',
    stdin w = version :: stdin w'
    /\ insert_profile (registry_start E (fs w) p) pack_name
                      (profile_entry pack_name version game_dir) = Val doc'
    /\ FS.read (fs w') (Path.resolve p) = Some (json_dump E doc')
    /\ (forall q, q <> Path.resolve p ->
          q <> Path.resolve (Path.add_suffix p ".bak") ->
          FS.read (fs w') q = FS.read (fs w) q)
    /\ (Path.resolve (Path.add_suffix p ".bak") <> Path.resolve p ->
        forall data, FS.read (fs w) (Path.resolve p) = Some data ->
          json_load E data = None ->
          FS.read (fs w') (Path.resolve (Path.add_suffix p ".bak")) = Some data).
Proof.
  unfold update_launcher_profiles. intros H.
  apply bind_val_inv in H. destruct H as [[] [w0 [P H]]].
  rewrite print_run in P. inversion P; subst w0; clear P.
  apply bind_val_inv in H. destruct H as [doc [w1 [R H]]].
  apply read_registry_spec in R. simpl in R.
  destruct R as [-> [S1 [Fr1 Bk]]].
  apply bind_val_inv in H. destruct H as [version [w2 [I H]]].
  apply input_spec in I. destruct I as [S2 F2].
  apply bind_val_inv in H. destruct H as [doc' [w3 [L H]]].
  unfold lift in L. inversion L as [[Ins Ew]]. subst w3. clear L.
  apply bind_val_inv in H. destruct H as [written [w4 [W H]]].
  destruct written.
  2:{ unfold ret in H. discriminate. }
  apply bind_val_inv in H. destruct H as [[] [w5 [P H]]].
  rewrite print_run in P. inversion P; subst w5; clear P.
  unfold ret in H. inversion H; subst w'; clear H. simpl.
  unfold catch in W.
  destruct (bind (emit (OpenWrite p)) _ w2) as [[b | e] w6] eqn:Wr.
  2:{ apply bind_val_inv in W. destruct W as [[] [w7 [_ W]]].
      unfold ret in W. discriminate. }
  inversion W; subst b w6; clear W.
  apply bind_val_inv in Wr. destruct Wr as [[] [w7 [Em Wr]]].
  rewrite emit_run in Em. inversion Em; subst w7; clear Em.
  apply bind_val_inv in Wr. destruct Wr as [[] [w8 [St Wr]]].
  unfold ret in Wr. inversion Wr; subst w8; clear Wr.
  apply store_spec in St. simpl in St. destruct St as [S4 [_ [Fr4 Out]]].
  exists version, doc'. split; [congruence |]. split; [exact Ins |].
  split.
  { destruct Out as [[_ Rd] | [e [Ex _]]]; [exact Rd | discriminate]. }
  split.
  - intros q D1 D2. rewrite Fr4 by exact D1. rewrite F2. now apply Fr1.
  - intros D data Rd J. rewrite Fr4 by exact D. rewrite F2. now apply Bk.
Qed.

(** The registry file of a game directory and its backup. *)
Lemma profiles_path_eq (minecraft_path : path) :
  Path.join minecraft_path "launcher_profiles.json"
  = minecraft_path ++ [ "launcher_profiles.json" ].
Proof. reflexivity. Qed.

Lemma backup_path_eq (minecraft_path : path) :
  Path.add_suffix (Path.join minecraft_path "launcher_profiles.json") ".bak"
  = minecraft_path ++ [ "launcher_profiles.json.bak" ].
Proof. rewrite profiles_path_eq. apply add_suffix_last. Qed.

Lemma backup_elsewhere (minecraft_path : path) :
  Path.resolve (Path.add_suffix (Path.join minecraft_path "launcher_profiles.json") ".bak")
  <> Path.resolve (Path.join minecraft_path "launcher_profiles.json").
Proof.
  rewrite backup_path_eq, profiles_path_eq.
  rewrite !resolve_app by (apply clean_one; discriminate).
  intros H. apply app_inv_head in H. discriminate.
Qed.

(** ** Relations every step of a computation respects *)

Section Respects.

Variable R : world -> world -> Prop.
Hypothesis R_refl : forall w, R w w.
Hypothesis R_trans : forall w1 w2 w3, R w1 w2 -> R w2 w3 -> R w1 w3.

Lemma respects_ret {A} (a : A) : respects R (ret a).
Proof. intros w r w' H. inversion H. apply R_refl. Qed.

Lemma respects_raise {A} (e : exn) : respects R (@raise A e).
Proof. intros w r w' H. inversion H. apply R_refl. Qed.

Lemma respects_lift {A} (x : result A) : respects R (lift x).
Proof. intros w r w' H. inversion H. apply R_refl. Qed.

Lemma respects_get_fs : respects R get_fs.
Proof. intros w r w' H. inversion H. apply R_refl. Qed.

Lemma respects_bind {A B} (m : M A) (k : A -> M B) :
  respects R m -> (forall a, respects R (k a)) -> respects R (bind m k).
Proof.
  intros Hm Hk w r w' H. apply bind_inv in H.
  destruct H as [[a [w1 [H1 H2]]] | [e [H1 _]]].
  - eapply R_trans; [eapply Hm | eapply Hk]; eauto.
  - eapply Hm; eauto.
Qed.

Lemma respects_catch {A} (m : M A) (h : exn -> M A) :
  respects R m -> (forall e, respects R (h e)) -> respects R (catch m h).
Proof.
  intros Hm Hh w r w'. unfold catch.
  destruct (m w) as [[a | e] w1] eqn:Hmw; intros H.
  - inversion H; subst. eapply Hm; eauto.
  - eapply R_trans; [eapply Hm | eapply Hh]; eauto.
Qed.

Lemma respects_for_each {A} (xs : list A) (body : A -> M unit) :
  (forall x, respects R (body x)) -> respects R (for_each xs body).
Proof.
  intros Hb. induction xs as [| x xs IH]; simpl.
  - apply respects_ret.
  - apply respects_bind; auto.
Qed.

End Respects.

(** Breaking a computation into its steps. *)
Ltac respects_side :=
  try solve [eauto];
  try match goal with |- forall _, respects _ _ => intro end.

Ltac respects_steps prim :=
  repeat first
    [ prim
    | apply respects_ret; respects_side
    | apply respects_raise; respects_side
    | apply respects_lift; respects_side
    | apply respects_get_fs; respects_side
    | apply respects_bind; respects_side
    | apply respects_catch; respects_side
    | apply respects_for_each; respects_side
    | match goal with
      | |- respects _ (if ?b then _ else _) => destruct b
      | |- respects _ (match ?x with _ => _ end) => destruct x
      | |- respects _ (let (_, _) := ?x in _) => destruct x
      end ].

(** *** The console input is consumed by [input] only *)

Lemma same_stdin_refl (w : world) : same_stdin w w.
Proof. reflexivity. Qed.

Lemma same_stdin_trans (w1 w2 w3 : world) :
  same_stdin w1 w2 -> same_stdin w2 w3 -> same_stdin w1 w3.
Proof. unfold same_stdin. congruence. Qed.

#[local] Hint Resolve same_stdin_refl same_stdin_trans : core.

Lemma emit_stdin (ev : event) : respects same_stdin (emit ev).
Proof. intros w r w' H. inversion H. reflexivity. Qed.

Lemma set_fs_stdin (n : node) : respects same_stdin (set_fs n).
Proof. intros w r w' H. inversion H. reflexivity. Qed.

Ltac stdin_prim :=
  first [ apply emit_stdin | apply set_fs_stdin
        | unfold print; apply emit_stdin ].

Lemma mkdir_stdin (p : path) : respects same_stdin (mkdir p).
Proof. unfold mkdir. respects_steps stdin_prim. Qed.

Lemma store_stdin (p : path) (data : string) : respects same_stdin (store p data).
Proof. unfold store. respects_steps stdin_prim. Qed.

Lemma store_node_stdin (p : path) (c : node) :
  respects same_stdin (store_node p c).
Proof. unfold store_node. respects_steps stdin_prim. Qed.

Lemma found_stdin (p : path) : respects same_stdin (found p).
Proof. unfold found. respects_steps stdin_prim. Qed.

Lemma load_node_stdin (p : path) : respects same_stdin (load_node p).
Proof. unfold load_node, found. respects_steps stdin_prim. Qed.

Lemma load_stdin (p : path) : respects same_stdin (load p).
Proof. unfold load, load_node, found, decoded. respects_steps stdin_prim. Qed.

Lemma reach_stdin (cur : path) (rel : list string) (p : path) :
  respects same_stdin (reach cur rel p).
Proof. unfold reach. respects_steps stdin_prim. Qed.

Lemma reach_text_stdin (cwd : path) (s : string) (p : path) :
  respects same_stdin (reach_text cwd s p).
Proof. unfold reach_text, reach. respects_steps stdin_prim. Qed.

Lemma mkdir_at_stdin (base : path) (rel : list string) (p : path) :
  respects same_stdin (mkdir_at base rel p).
Proof. unfold mkdir_at. respects_steps stdin_prim. Qed.

Lemma load_text_stdin (E : env) (s : string) :
  respects same_stdin (load_text E s).
Proof.
  unfold load_text, decoded.
  respects_steps ltac:(first [ apply reach_text_stdin | apply found_stdin
                             | stdin_prim ]).
Qed.

Lemma fetch_and_unpack_stdin (E : env) (pack_url : string)
  (minecraft_path : path) (pack_name : string) :
  respects same_stdin (fetch_and_unpack E pack_url minecraft_path pack_name).
Proof.
  unfold fetch_and_unpack, download_pack, extract_pack, move_subfolders,
    folder_exists, urlretrieve, extractall, extract_member, move_items,
    shutil_move.
  respects_steps ltac:(first [ apply mkdir_stdin | apply mkdir_at_stdin
                             | apply store_stdin | apply found_stdin
                             | apply reach_stdin | stdin_prim ]).
Qed.

(** ** The registry after a completed run *)

(** Both installers end with the registry step. *)
Lemma link_installed_inv (E : env) (pack_url : string) (minecraft_path : path)
  (pack_name : string) (w w' : world) :
  download_and_install_ftb_pack_from_link E pack_url minecraft_path pack_name w
  = (Val Installed, w') ->
  exists w1,
    fetch_and_unpack E pack_url minecraft_path pack_name w = (Val true, w1)
    /\ update_launcher_profiles E
         (Path.join minecraft_path "launcher_profiles.json") pack_name
         (Path.str (Path.join (Path.join (Path.join minecraft_path "instances")
                                         pack_name) "minecraft"))
         ("FTB pack '" ++ pack_name
          ++ "' installed successfully! Launch Minecraft and select the '"
          ++ pack_name ++ "' profile.") w1
       = (Val Installed, w').
Proof.
  unfold download_and_install_ftb_pack_from_link.
  destruct (invalid_link pack_url); [discriminate |].
  intros H. apply bind_val_inv in H. destruct H as [[|] [w1 [F U]]].
  - exists w1. split; assumption.
  - discriminate.
Qed.

Lemma html_installed_inv (E : env) (anchors : list (option string))
  (minecraft_path : path) (pack_name : string) (w w' : world) :
  install_from_anchors E anchors minecraft_path pack_name w = (Val Installed, w') ->
  exists w1,
    gather_mods E anchors minecraft_path w = (Val tt, w1)
    /\ update_launcher_profiles E
         (Path.join minecraft_path "launcher_profiles.json") pack_name
         (Path.str minecraft_path)
         ("Mods installed successfully! Launch Minecraft and select the '"
          ++ pack_name ++ "' profile.") w1
       = (Val Installed, w').
Proof.
  unfold install_from_anchors. intros H.
  apply bind_val_inv in H. destruct H as [[] [w1 [G U]]]. eauto.
Qed.

(** What a completed registry step has written. *)
Lemma update_writes (E : env) (p : path) (pack_name game_dir closing : string)
  (w w' : world) :
  update_launcher_profiles E p pack_name game_dir closing w
  = (Val Installed, w') ->
  exists version d ps,
    stdin w = version :: stdin w'
    /\ registry_start E (fs w) p = JObj d
    /\ Dict.get d "profiles" = Some (JObj ps)
    /\ NoDup (Dict.keys d) /\ NoDup (Dict.keys ps)
    /\ FS.read (fs w') (Path.resolve p)
       = Some (json_dump E
                 (JObj (Dict.set d "profiles"
                          (JObj (Dict.set ps pack_name
                                   (profile_entry pack_name version game_dir)))))).
Proof.
  intros H. apply update_spec in H.
  destruct H as [version [doc' [S [Ins [Rd _]]]]].
  apply insert_profile_inv in Ins. destruct Ins as [d [ps [Eq [G ->]]]].
  exists version, d, ps. repeat split; auto.
  - pose proof (registry_start_pythonic E (fs w) p) as [j Hj].
    rewrite Eq in Hj. symmetry in Hj.
    now destruct (as_python_object j d Hj).
  - eapply pythonic_member; eauto. rewrite <- Eq.
    apply registry_start_pythonic.
Qed.



(** C4: assigning the profile of a name that is already a key of the
    profile mapping overwrites its value where it stands: the keys, their
    order and their number are as before and the other values are
    untouched.  The keys of the mapping are distinct before the assignment
    and stay so, and so they are in the document a completed registry step
    has written. *)
Theorem C4_profile_overwritten_in_place :
  (forall d ps pack_name entry,
      Dict.get d "profiles" = Some (JObj ps) ->
      In pack_name (Dict.keys ps) ->
      exists ps',
        insert_profile (JObj d) pack_name entry
        = Val (JObj (Dict.set d "profiles" (JObj ps')))
        /\ Dict.keys ps' = Dict.keys ps
        /\ List.length ps' = List.length ps
        /\ Dict.get ps' pack_name = Some entry
        /\ (forall name, name <> pack_name -> Dict.get ps' name = Dict.get ps name))
  /\ (forall ps pack_name entry,
         NoDup (Dict.keys ps) -> NoDup (Dict.keys (Dict.set ps pack_name entry)))
  /\ (forall E profiles_path pack_name game_dir closing w w',
         update_launcher_profiles E profiles_path pack_name game_dir closing w
         = (Val Installed, w') ->
         exists d ps',
           FS.read (fs w') (Path.resolve profiles_path)
           = Some (json_dump E (JObj d))
           /\ Dict.get d "profiles" = Some (JObj ps')
           /\ NoDup (Dict.keys ps')
           /\ count_occ string_dec (Dict.keys ps') pack_name = 1).
Proof.
  split; [| split].
  - intros d ps N entry G Hin. exists (Dict.set ps N entry).
    unfold insert_profile. rewrite G.
    split; [reflexivity |].
    pose proof (keys_set_present N entry ps Hin) as K.
    split; [exact K |]. split.
    + unfold Dict.keys in K.
      rewrite <- (length_map fst (Dict.set ps N entry)), K.
      apply length_map.
    + split; [apply get_set_same |].
      intros name D. now apply get_set_other.
  - intros ps N entry. apply keys_set_NoDup.
  - intros E p N g c w w' H. apply update_writes in H.
    destruct H as [version [d [ps [_ [_ [G [_ [ND Rd]]]]]]]].
    eexists. eexists. split; [exact Rd |].
    split; [apply get_set_same |].
    split; [now apply keys_set_NoDup |].
    apply NoDup_count_one; [now apply keys_set_NoDup | apply keys_set_In].
Qed.

(** ** The guard of the archive installer *)

(** C2, as the script has it: a link that does not end in [.zip] or does
    not start with the letters [http] is answered with one message and
    nothing else: the tree and the console input are as before and the
    message is the only effect recorded, so no directory is made, no
    download is tried and the registry file is not touched. *)
Theorem C2_invalid_link_no_effect :
  forall E pack_url minecraft_path pack_name w,
    PyStr.endswith pack_url ".zip" = false
    \/ PyStr.startswith pack_url "http" = false ->
    download_and_install_ftb_pack_from_link E pack_url minecraft_path pack_name w
    = (Val GaveUp,
       World (fs w) (stdin w)
             (trace w ++
              [ Print "Invalid direct download link. Please provide a URL ending with .zip." ])).
Proof.
  intros E pack_url R N w H. apply invalid_link_run.
  unfold invalid_link. destruct H as [-> | ->]; [reflexivity |].
  apply orb_true_r.
Qed.

Lemma C2_invalid_link_no_effect_witness :
  (PyStr.endswith "ftp://h/p.zip" ".zip" = false
   \/ PyStr.startswith "ftp://h/p.zip" "http" = false)
  /\ download_and_install_ftb_pack_from_link Sample.E "ftp://h/p.zip" [ "mc" ]
       "Pack" Sample.w0
     = (Val GaveUp,
        World (fs Sample.w0) (stdin Sample.w0)
              (trace Sample.w0 ++
               [ Print "Invalid direct download link. Please provide a URL ending with .zip." ])).
Proof.
  split.
  - right. reflexivity.
  - apply (C2_invalid_link_no_effect Sample.E "ftp://h/p.zip" [ "mc" ] "Pack"
             Sample.w0).
    right. reflexivity.
Defined.

(** C2 as the specification words it fails: [httpx://h/p.zip] ends in
    [.zip] and
    is no HTTP(S) URL, yet the guard lets it through; the instance
    directory is made and the download is tried before the run gives up. *)
Lemma C2_counterexample :
  spec_is_http_url "httpx://h/p.zip" = false
  /\ invalid_link "httpx://h/p.zip" = false
  /\ FS.exists_ (fs Sample.w0) [ "mc" ] = false
  /\ exists w',
       download_and_install_ftb_pack_from_link Sample.E "httpx://h/p.zip"
         [ "mc" ] "Pack" Sample.w0 = (Val GaveUp, w')
       /\ FS.is_dir (fs w') [ "mc"; "instances"; "Pack" ] = true
       /\ fs w' <> fs Sample.w0
       /\ trace w'
          = [ Mkdir [ "mc"; "instances" ];
              Mkdir [ "mc"; "instances"; "Pack" ];
              Print "Downloading FTB pack from httpx://h/p.zip...";
              Urlretrieve "httpx://h/p.zip" [ "mc"; "instances"; "Pack"; "pack.zip" ];
              Print "Error downloading pack: unknown url type or HTTP Error 404" ].
Proof.
  split; [reflexivity |]. split; [reflexivity |]. split; [reflexivity |].
  eexists. split; [vm_compute; reflexivity |].
  split; [reflexivity |]. split; [discriminate | reflexivity].
Qed.

(** ** Sample runs *)

Lemma C4_profile_overwritten_in_place_witness :
  In "Pack" (Dict.keys [ ("Other", JNull); ("Pack", JNull); ("Last", JNull) ])
  /\ (exists ps',
        insert_profile
          (JObj [ ("profiles",
                   JObj [ ("Other", JNull); ("Pack", JNull); ("Last", JNull) ]) ])
          "Pack" (JStr "new")
        = Val (JObj [ ("profiles", JObj ps') ])
        /\ Dict.keys ps' = [ "Other"; "Pack"; "Last" ])
  /\ NoDup (Dict.keys (Dict.set [ ("Other", JNull); ("Pack", JNull) ] "Pack"
                                (JStr "new")))
  /\ exists w' d ps',
       install_from_anchors Sample.E [] [ "mc" ] "Pack" Sample.w0
       = (Val Installed, w')
       /\ FS.read (fs w') [ "mc"; "launcher_profiles.json" ]
          = Some (Sample.dump (JObj d))
       /\ Dict.get d "profiles" = Some (JObj ps')
       /\ NoDup (Dict.keys ps').
Proof.
  split; [right; left; reflexivity |]. split; [| split].
  - destruct (proj1 C4_profile_overwritten_in_place
                [ ("profiles",
                   JObj [ ("Other", JNull); ("Pack", JNull); ("Last", JNull) ]) ]
                [ ("Other", JNull); ("Pack", JNull); ("Last", JNull) ]
                "Pack" (JStr "new") eq_refl (or_intror (or_introl eq_refl)))
      as (ps' & I & K & _).
    exists ps'. split; [exact I | exact K].
  - apply (proj1 (proj2 C4_profile_overwritten_in_place)).
    repeat constructor; simpl; intuition discriminate.
  - assert (H : install_from_anchors Sample.E [] [ "mc" ] "Pack" Sample.w0
                = (Val Installed,
                   snd (install_from_anchors Sample.E [] [ "mc" ] "Pack"
                          Sample.w0)))
      by (vm_compute; reflexivity).
    destruct (html_installed_inv _ _ _ _ _ _ H) as [w1 [G' U]].
    destruct (proj2 (proj2 C4_profile_overwritten_in_place) _ _ _ _ _ _ _ U)
      as (d & ps' & R & P & ND & _).
    eexists. exists d, ps'. split; [exact H |].
    split; [exact R |]. split; [exact P | exact ND].
Defined.

Lemma C6_mod_links_exact_witness :
  (PyStr.endswith "notes.txt" ".jar" = false
   /\ PyStr.endswith "notes.txt" ".zip" = false)
  /\ ~ In "notes.txt" (mod_links ([ Some "a.jar" ] ++ Some "notes.txt" :: [ None ]))
  /\ install_from_anchors Sample.E ([ Some "a.jar" ] ++ Some "notes.txt" :: [ None ])
       [ "mc" ] "Pack" Sample.w0
     = install_from_anchors Sample.E ([ Some "a.jar" ] ++ [ None ])
         [ "mc" ] "Pack" Sample.w0.
Proof.
  split; [split; reflexivity |].
  apply (proj2 (proj2 C6_mod_links_exact) Sample.E [ Some "a.jar" ] [ None ]
           "notes.txt" [ "mc" ] "Pack" Sample.w0); reflexivity.
Defined.

Lemma C9_suffix_case_sensitive_witness :
  PyStr.endswith "http://h/p.ZIP" ".ZIP" = true
  /\ invalid_link "http://h/p.ZIP" = true
  /\ ~ In "mod.JAR" (mod_links [ Some "mod.JAR"; Some "http://h/p.ZIP" ])
  /\ fst (download_and_install_ftb_pack_from_link Sample.E "http://h/p.ZIP"
            [ "mc" ] "Pack" Sample.w0) = Val GaveUp.
Proof.
  split; [reflexivity |]. split; [reflexivity |]. split.
  - apply (proj2 C9_suffix_case_sensitive). left. reflexivity.
  - rewrite (proj1 C9_suffix_case_sensitive Sample.E "http://h/p.ZIP" [ "mc" ]
               "Pack" Sample.w0 eq_refl).
    reflexivity.
Defined.

(** ** Steps that leave a file alone *)

Lemma same_file_refl (q : path) (w : world) : same_file q w w.
Proof. reflexivity. Qed.

Lemma same_file_trans (q : path) (w1 w2 w3 : world) :
  same_file q w1 w2 -> same_file q w2 w3 -> same_file q w1 w3.
Proof. unfold same_file. congruence. Qed.

Lemma same_trace_refl (w : world) : same_trace w w.
Proof. reflexivity. Qed.

Lemma same_trace_trans (w1 w2 w3 : world) :
  same_trace w1 w2 -> same_trace w2 w3 -> same_trace w1 w3.
Proof. unfold same_trace. congruence. Qed.

#[local] Hint Resolve same_file_refl same_file_trans same_trace_refl
  same_trace_trans : core.

Lemma emit_file (q : path) (ev : event) : respects (same_file q) (emit ev).
Proof. intros w r w' H. inversion H. reflexivity. Qed.

Lemma mkdir_file (q p : path) : respects (same_file q) (mkdir p).
Proof.
  intros w r w' H. apply mkdir_spec in H.
  destruct H as [_ [_ [Fr _]]]. apply Fr.
Qed.

Lemma load_file (q p : path) : respects (same_file q) (load p).
Proof.
  intros w r w' H. apply load_spec in H. destruct H as [-> _]. reflexivity.
Qed.

Lemma found_file (q p : path) : respects (same_file q) (found p).
Proof.
  intros w r w' H. apply found_spec in H. destruct H as [-> _]. reflexivity.
Qed.

Lemma reach_file (q cur : path) (rel : list string) (p : path) :
  respects (same_file q) (reach cur rel p).
Proof.
  unfold reach. intros w r w'. unmonad.
  destruct (FS.locate (fs w) cur rel) as [[|] | t]; intros H; inversion H;
    reflexivity.
Qed.


(** Making the directories a path names neither adds nor alters a
    regular file. *)
Lemma mkdir_along_read (rel : list string) :
  forall n cur written creating n2 stopped,
    FS.mkdir_along n cur written creating rel = (n2, stopped) ->
    forall q, FS.read n2 q = FS.read n q.
Proof.
  induction rel as [| c rest IH]; intros n cur written creating n2 stopped;
    simpl.
  - intros H; inversion H; reflexivity.
  - destruct (String.eqb c ".."); [apply IH |].
    destruct (FS.lookup n (cur ++ [ c ])) as [[d | b | es] |].
    + destruct rest; [intros H; inversion H; reflexivity |].
      destruct creating; intros H; inversion H; reflexivity.
    + destruct rest; [intros H; inversion H; reflexivity |].
      destruct creating; intros H; inversion H; reflexivity.
    + apply IH.
    + destruct (FS.mkdir_p n (cur ++ [ c ])) as [n' |] eqn:Mk.
      * intros H q. rewrite (IH _ _ _ _ _ _ H q).
        exact (mkdir_p_read _ _ _ Mk q).
      * intros H; inversion H; reflexivity.
Qed.

Lemma mkdir_at_file (q base : path) (rel : list string) (p : path) :
  respects (same_file q) (mkdir_at base rel p).
Proof.
  unfold mkdir_at. intros w r w'. unmonad. unfold same_file.
  destruct (FS.mkdir_p (fs w) (Path.resolve base)) as [n1 |] eqn:Mk.
  - destruct (FS.mkdir_along n1 _ _ _ rel) as [n2 stopped] eqn:Al.
    assert (Rd : FS.read n2 q = FS.read (fs w) q).
    { rewrite (mkdir_along_read _ _ _ _ _ _ _ Al q).
      exact (mkdir_p_read _ _ _ Mk q). }
    destruct stopped as [[at_ |] |]; intros H; inversion H; exact Rd.
  - destruct rel; [destruct (FS.under_file _ _) |]; intros H; inversion H;
      reflexivity.
Qed.


Lemma store_file (q p : path) (data : string) :
  q <> Path.resolve p -> respects (same_file q) (store p data).
Proof.
  intros D w r w' H. apply store_spec in H.
  destruct H as [_ [_ [Fr _]]]. now apply Fr.
Qed.

Lemma extract_member_file (q dst : path) (member : string * string) :
  Path.is_prefix (Path.resolve dst) q = false ->
  respects (same_file q) (extract_member dst member).
Proof.
  intros Out w r w'. destruct member as [filename data].
  unfold extract_member. unmonad. unfold same_file.
  destruct (FS.mkdir_p (fs w) _) as [n' |] eqn:Mk1.
  2:{ intros H. inversion H. reflexivity. }
  destruct (PyStr.endswith filename "/").
  - destruct (FS.mkdir_p n' _) as [n'' |] eqn:Mk2; intros H; inversion H;
      simpl.
    + rewrite (mkdir_p_read _ _ _ Mk2). apply (mkdir_p_read _ _ _ Mk1).
    + apply (mkdir_p_read _ _ _ Mk1).
  - intros H.
    assert (D : q <> Path.resolve (dst ++ arcname filename)).
    { rewrite resolve_app by apply arcname_clean. now apply outside_neq. }
    pose proof (store_file q (dst ++ arcname filename) data D _ _ _ H) as S.
    unfold same_file in S. simpl in S. rewrite S.
    apply (mkdir_p_read _ _ _ Mk1).
Qed.

Lemma pack_zip_eq (p : path) : Path.join p "pack.zip" = p ++ [ "pack.zip" ].
Proof. reflexivity. Qed.

Lemma pack_zip_outside (q p : path) :
  Path.is_prefix (Path.resolve p) q = false ->
  q <> Path.resolve (Path.join p "pack.zip").
Proof.
  intros Out. rewrite pack_zip_eq.
  rewrite resolve_app by (apply clean_one; discriminate).
  now apply outside_neq.
Qed.

(** Steps 1 and 2 write below the instance directory only. *)
Lemma download_pack_file (E : env) (pack_url : string)
  (minecraft_path : path) (pack_name : string) (q : path) :
  Path.is_prefix
    (Path.resolve (Path.join (Path.join minecraft_path "instances") pack_name)) q
  = false ->
  respects (same_file q) (download_pack E pack_url minecraft_path pack_name).
Proof.
  intros Out. pose proof (pack_zip_outside _ _ Out) as D.
  unfold download_pack, urlretrieve.
  respects_steps ltac:(first [ apply mkdir_file | apply mkdir_at_file
                             | apply reach_file
                             | apply store_file; exact D
                             | apply emit_file
                             | unfold print; apply emit_file ]).
Qed.

Lemma extract_pack_file (E : env) (minecraft_path : path) (pack_name : string)
  (q : path) :
  Path.is_prefix
    (Path.resolve (Path.join (Path.join minecraft_path "instances") pack_name)) q
  = false ->
  respects (same_file q) (extract_pack E minecraft_path pack_name).
Proof.
  intros Out. unfold extract_pack, extractall.
  respects_steps ltac:(first [ apply found_file | apply reach_file
                             | apply extract_member_file; exact Out
                             | apply emit_file
                             | unfold print; apply emit_file ]).
Qed.

(** ** The two early returns of the archive installer *)

Lemma guarded_inv (m : M unit) (report : exn -> string) (w : world) (b : bool)
  (w' : world) :
  catch (m ;; ret true) (fun e => print (report e) ;; ret false) w = (Val b, w') ->
  b = true /\ m w = (Val tt, w')
  \/ b = false
     /\ exists e w1,
          m w = (Exc e, w1)
          /\ w' = World (fs w1) (stdin w1) (trace w1 ++ [ Print (report e) ]).
Proof.
  unfold catch, bind, ret, print, emit.
  destruct (m w) as [[[] | e] w1]; intros H; inversion H; subst.
  - left. auto.
  - right. split; [reflexivity |]. eauto.
Qed.

Lemma store_trace (p : path) (data : string) : respects same_trace (store p data).
Proof.
  intros w r w' H. apply store_spec in H. destruct H as [_ [T _]]. exact T.
Qed.

Lemma set_fs_trace (n : node) : respects same_trace (set_fs n).
Proof. intros w r w' H. inversion H. reflexivity. Qed.

Lemma found_trace (p : path) : respects same_trace (found p).
Proof.
  intros w r w' H. apply found_spec in H. destruct H as [-> _]. reflexivity.
Qed.

Lemma reach_trace (cur : path) (rel : list string) (p : path) :
  respects same_trace (reach cur rel p).
Proof.
  unfold reach. intros w r w'. unmonad.
  destruct (FS.locate (fs w) cur rel) as [[|] | t]; intros H; inversion H;
    reflexivity.
Qed.

Lemma mkdir_at_trace (base : path) (rel : list string) (p : path) (w : world)
  (r : result unit) (w' : world) :
  mkdir_at base rel p w = (r, w') ->
  trace w' = trace w ++ [ Mkdir p ].
Proof.
  unfold mkdir_at. unmonad.
  destruct (FS.mkdir_p (fs w) (Path.resolve base)) as [n1 |].
  - destruct (FS.mkdir_along n1 _ _ _ rel) as [n2 [[at_ |] |]];
      intros H; inversion H; reflexivity.
  - destruct rel; [destruct (FS.under_file _ _) |]; intros H; inversion H;
      reflexivity.
Qed.

Lemma urlretrieve_trace (E : env) (url : string) (base : path)
  (rel : list string) (dst : path) (w : world) (r : result unit) (w' : world) :
  urlretrieve E url base rel dst w = (r, w') ->
  trace w' = trace w ++ [ Urlretrieve url dst ].
Proof.
  unfold urlretrieve. intros H.
  apply bind_inv in H. destruct H as [[[] [w1 [Em H]]] | [e [Em _]]];
    [| discriminate].
  rewrite emit_run in Em. inversion Em; subst w1; clear Em.
  assert (T : respects same_trace
                (match urlopen E url with
                 | Refused msg => raise (LibraryError msg)
                 | Sent body short =>
                     reach (Path.resolve base) rel dst ;;
                     store dst body ;;
                     match short with
                     | Some msg => raise (LibraryError msg)
                     | None => ret tt
                     end
                 end)).
  { respects_steps ltac:(first [ apply store_trace | apply reach_trace ]). }
  apply T in H. exact H.
Qed.

Lemma extractall_trace (E : env) (base : path) (rel : list string)
  (archive dst : path) (w : world) (r : result unit) (w' : world) :
  extractall E base rel archive dst w = (r, w') ->
  trace w' = trace w ++ [ Extractall archive dst; OpenRead archive ].
Proof.
  unfold extractall. intros H.
  apply bind_inv in H. destruct H as [[[] [w1 [Em H]]] | [e [Em _]]];
    [| discriminate].
  rewrite emit_run in Em. inversion Em; subst w1; clear Em.
  apply bind_inv in H. destruct H as [[[] [w1 [Em H]]] | [e [Em _]]];
    [| discriminate].
  rewrite emit_run in Em. inversion Em; subst w1; clear Em.
  cbn [fs stdin trace] in H.
  assert (T : respects same_trace
                (reach (Path.resolve base) rel archive ;;
                 c <- found archive ;;
                 let (members, bad) := zip_members E (FS.bytes c) in
                 for_each members (extract_member dst) ;;
                 match bad with
                 | Some msg => raise (LibraryError msg)
                 | None => ret tt
                 end)).
  { unfold extract_member.
    respects_steps ltac:(first [ apply store_trace | apply set_fs_trace
                               | apply found_trace | apply reach_trace ]). }
  apply T in H. unfold same_trace in H. rewrite H. simpl.
  now rewrite <- app_assoc.
Qed.

Lemma download_pack_false (E : env) (pack_url : string) (minecraft_path : path)
  (pack_name : string) (w w1 : world) :
  download_pack E pack_url minecraft_path pack_name w = (Val false, w1) ->
  exists e,
    trace w1
    = trace w ++
      [ Mkdir (Path.join minecraft_path "instances");
        Mkdir (Path.join (Path.join minecraft_path "instances") pack_name);
        Print ("Downloading FTB pack from " ++ pack_url ++ "...");
        Urlretrieve pack_url
          (Path.join (Path.join (Path.join minecraft_path "instances") pack_name)
                     "pack.zip");
        Print ("Error downloading pack: " ++ exn_text e) ].
Proof.
  unfold download_pack. intros H.
  apply bind_val_inv in H. destruct H as [[] [wa [M1 H]]].
  apply bind_val_inv in H. destruct H as [[] [wb [M2 H]]].
  apply bind_val_inv in H. destruct H as [[] [wc [P H]]].
  rewrite print_run in P. inversion P; subst wc; clear P.
  apply guarded_inv in H. destruct H as [[Bad _] | [_ [e [wd [U ->]]]]];
    [discriminate |].
  apply urlretrieve_trace in U. simpl in U.
  apply mkdir_spec in M1. destruct M1 as [_ [T1 _]].
  apply mkdir_at_trace in M2. rename M2 into T2.
  exists e. simpl. rewrite U, T2, T1.
  repeat rewrite <- app_assoc. reflexivity.
Qed.

Lemma extract_pack_false (E : env) (minecraft_path : path) (pack_name : string)
  (w w1 : world) :
  extract_pack E minecraft_path pack_name w = (Val false, w1) ->
  exists e,
    trace w1
    = trace w ++
      [ Print "Extracting FTB pack...";
        Extractall
          (Path.join (Path.join (Path.join minecraft_path "instances") pack_name)
                     "pack.zip")
          (Path.join (Path.join minecraft_path "instances") pack_name);
        OpenRead
          (Path.join (Path.join (Path.join minecraft_path "instances") pack_name)
                     "pack.zip");
        Print ("Error extracting pack: " ++ exn_text e) ].
Proof.
  unfold extract_pack. intros H.
  apply bind_val_inv in H. destruct H as [[] [wa [P H]]].
  rewrite print_run in P. inversion P; subst wa; clear P.
  apply guarded_inv in H. destruct H as [[Bad _] | [_ [e [wb [X ->]]]]];
    [discriminate |].
  apply extractall_trace in X. simpl in X.
  exists e. simpl. rewrite X.
  repeat rewrite <- app_assoc. reflexivity.
Qed.

(** Step 1 consumes no input and, when the download goes through, adds
    four events. *)
Lemma download_pack_true (E : env) (pack_url : string) (minecraft_path : path)
  (pack_name : string) (w w1 : world) :
  download_pack E pack_url minecraft_path pack_name w = (Val true, w1) ->
  trace w1
  = trace w ++
    [ Mkdir (Path.join minecraft_path "instances");
      Mkdir (Path.join (Path.join minecraft_path "instances") pack_name);
      Print ("Downloading FTB pack from " ++ pack_url ++ "...");
      Urlretrieve pack_url
        (Path.join (Path.join (Path.join minecraft_path "instances") pack_name)
                   "pack.zip") ].
Proof.
  unfold download_pack. intros H.
  apply bind_val_inv in H. destruct H as [[] [wa [M1 H]]].
  apply bind_val_inv in H. destruct H as [[] [wb [M2 H]]].
  apply bind_val_inv in H. destruct H as [[] [wc [P H]]].
  rewrite print_run in P. inversion P; subst wc; clear P.
  apply guarded_inv in H. destruct H as [[_ U] | [Bad _]]; [| discriminate].
  apply urlretrieve_trace in U. simpl in U.
  apply mkdir_spec in M1. destruct M1 as [_ [T1 _]].
  apply mkdir_at_trace in M2. rename M2 into T2.
  rewrite U, T2, T1. repeat rewrite <- app_assoc. reflexivity.
Qed.

Lemma is_prefix_sibling (r : path) (a b : string) (rest : path) :
  a <> b -> Path.is_prefix (r ++ a :: rest) (r ++ [ b ]) = false.
Proof.
  intros D. induction r as [| x r IH]; simpl.
  - destruct (String.eqb_spec a b); [contradiction | reflexivity].
  - now rewrite String.eqb_refl.
Qed.

(** For a relative pack name without [..] the registry file is not in
    the instance directory. *)
Lemma plain_name_outside (minecraft_path : path) (pack_name : string) :
  clean minecraft_path ->
  PyStr.startswith pack_name "/" = false ->
  clean (Path.parts pack_name) ->
  Path.is_prefix
    (Path.resolve (Path.join (Path.join minecraft_path "instances") pack_name))
    (Path.resolve (Path.join minecraft_path "launcher_profiles.json"))
  = false.
Proof.
  intros CR Rel CN. unfold Path.join at 1. rewrite Rel.
  change (Path.join minecraft_path "instances")
    with (minecraft_path ++ [ "instances" ]).
  rewrite profiles_path_eq. rewrite <- app_assoc. simpl.
  rewrite !resolve_clean.
  - apply is_prefix_sibling. discriminate.
  - intros x Hx. apply in_app_or in Hx. destruct Hx as [Hx | [<- | []]];
      [now apply CR | discriminate].
  - intros x Hx. apply in_app_or in Hx.
    destruct Hx as [Hx | [<- | Hx]];
      [now apply CR | discriminate | now apply CN].
Qed.

Lemma bind_run {A B} (m : M A) (k : A -> M B) (w w1 : world) (a : A) :
  m w = (Val a, w1) -> bind m k w = k a w1.
Proof. intros H. unfold bind. now rewrite H. Qed.







(** ** The exceptions that leave a computation *)

Section RaisesOnly.

Variable Q : exn -> world -> Prop.

Lemma raises_only_ret {A} (a : A) : raises_only Q (ret a).
Proof. intros w e w' H. discriminate. Qed.

Lemma raises_only_emit (ev : event) : raises_only Q (emit ev).
Proof. intros w e w' H. discriminate. Qed.

Lemma raises_only_get_fs : raises_only Q get_fs.
Proof. intros w e w' H. discriminate. Qed.

Lemma raises_only_set_fs (n : node) : raises_only Q (set_fs n).
Proof. intros w e w' H. discriminate. Qed.

Lemma raises_only_raise {A} (e : exn) :
  (forall w, Q e w) -> raises_only Q (@raise A e).
Proof. intros HQ w e' w' H. inversion H; subst. apply HQ. Qed.

Lemma raises_only_lift {A} (r : result A) :
  (forall e w, r = Exc e -> Q e w) -> raises_only Q (lift r).
Proof. intros HQ w e w' H. inversion H; subst. now apply HQ. Qed.

Lemma raises_only_bind {A B} (m : M A) (k : A -> M B) :
  raises_only Q m -> (forall a, raises_only Q (k a)) -> raises_only Q (bind m k).
Proof.
  intros Hm Hk w e w' H. apply bind_inv in H.
  destruct H as [[a [w1 [H1 H2]]] | [e' [H1 He]]].
  - eapply Hk; eauto.
  - inversion He; subst. eapply Hm; eauto.
Qed.

(** Of a guarded computation only the handler's exceptions escape; the
    handler need only be examined on what the body can raise. *)
Lemma raises_only_catch {A} (Qm : exn -> world -> Prop) (m : M A)
  (h : exn -> M A) :
  raises_only Qm m ->
  (forall e, (exists w, Qm e w) -> raises_only Q (h e)) ->
  raises_only Q (catch m h).
Proof.
  intros Hm Hh w e w'. unfold catch.
  destruct (m w) as [[a | e1] w1] eqn:Hmw; intros H; [discriminate |].
  eapply Hh; eauto.
Qed.

Lemma raises_only_for_each {A} (xs : list A) (body : A -> M unit) :
  (forall x, raises_only Q (body x)) -> raises_only Q (for_each xs body).
Proof.
  intros Hb. induction xs as [| x xs IH]; simpl.
  - apply raises_only_ret.
  - apply raises_only_bind; auto.
Qed.

End RaisesOnly.

Lemma raises_anything {A} (m : M A) : raises_only (fun _ _ => True) m.
Proof. intros w e w' H. exact I. Qed.

Lemma raises_only_weaken {A} (Q1 Q2 : exn -> world -> Prop) (m : M A) :
  (forall e w, Q1 e w -> Q2 e w) -> raises_only Q1 m -> raises_only Q2 m.
Proof. intros Imp H w e w' Hm. apply Imp. eapply H; eauto. Qed.

Ltac raises_steps prim :=
  repeat first
    [ prim
    | apply raises_only_ret
    | apply raises_only_emit
    | unfold print; apply raises_only_emit
    | apply raises_only_get_fs
    | apply raises_only_set_fs
    | apply raises_only_bind;
      try match goal with |- forall _, raises_only _ _ => intro end
    | apply raises_only_for_each; intro
    | match goal with
      | |- raises_only _ (if ?b then _ else _) => destruct b
      | |- raises_only _ (match ?x with _ => _ end) => destruct x
      | |- raises_only _ (let (_, _) := ?x in _) => destruct x
      end ].

(** ** What the exceptions of the file operations name *)

Ltac names_raise :=
  apply raises_only_raise; intros ? ? Hs; inversion Hs; subst; simpl; tauto.

Lemma found_names (p : path) : raises_only (names_among [ p ]) (found p).
Proof. unfold found. raises_steps names_raise. Qed.

Lemma load_names (p : path) : raises_only (names_among [ p ]) (load p).
Proof.
  unfold load, load_node, decoded.
  raises_steps ltac:(first [ apply found_names | names_raise ]).
Qed.

Lemma store_node_names (p : path) (c : node) :
  raises_only (names_among [ p ]) (store_node p c).
Proof. unfold store_node. raises_steps names_raise. Qed.

Lemma store_names (p : path) (data : string) :
  raises_only (names_among [ p ]) (store p data).
Proof. unfold store. raises_steps names_raise. Qed.

Lemma reach_names (cur : path) (rel : list string) (p : path) :
  raises_only (names_among [ p ]) (reach cur rel p).
Proof. unfold reach. raises_steps names_raise. Qed.

Lemma input_names (prompt : string) (ps : list path) :
  raises_only (names_among ps) (input prompt).
Proof.
  intros w e w'. unfold input. unmonad.
  destruct (stdin w); intros H; inversion H. intros s Hs. discriminate.
Qed.

Lemma names_among_incl (ps qs : list path) (e : exn) (w : world) :
  incl ps qs -> names_among ps e w -> names_among qs e w.
Proof. intros I H s Hs. apply I. now apply H. Qed.

Ltac names_one :=
  eapply raises_only_weaken;
  [ intros ? ?; apply names_among_incl; intros ? Hx; simpl in Hx |- *;
    destruct Hx as [<- | []]; tauto
  | first [ apply found_names | apply load_names | apply store_node_names
          | apply store_names | apply reach_names ] ].

Lemma read_registry_names (E : env) (p : path) :
  raises_only (names_among [ p; Path.add_suffix p ".bak" ])
    (read_registry E p).
Proof.
  unfold read_registry.
  apply raises_only_catch with (Qm := names_among [ p ]).
  - raises_steps ltac:(first [ apply load_names | names_raise ]).
  - intros e [w He]. unfold copyfile, load_node.
    destruct e; try (apply raises_only_raise; intros w1 s Hs;
                     specialize (He s Hs); simpl in He |- *; tauto);
      raises_steps ltac:(first [ names_one | names_raise ]).
Qed.

Lemma update_names (E : env) (p : path) (pack_name game_dir closing : string) :
  raises_only (names_among [ p; Path.add_suffix p ".bak" ])
    (update_launcher_profiles E p pack_name game_dir closing).
Proof.
  unfold update_launcher_profiles.
  raises_steps ltac:(first
    [ apply read_registry_names | apply input_names
    | apply raises_only_lift; intros e w H; unfold insert_profile in H;
      repeat match type of H with
             | context [match ?x with _ => _ end] => destruct x
             end; inversion H; intros q Hq; discriminate
    | apply raises_only_catch with (Qm := fun _ _ => True);
      [apply raises_anything | intros ? _] ]).
Qed.

(** ** Running the archive installer again *)

Lemma mkdir_existing (p : path) (w : world) :
  FS.is_dir (fs w) (Path.resolve p) = true ->
  mkdir p w = (Val tt, World (fs w) (stdin w) (trace w ++ [ Mkdir p ])).
Proof.
  intros D. unfold mkdir. unmonad.
  now rewrite (mkdir_p_existing _ _ D).
Qed.

Lemma is_dir_parent (p : path) (x : string) :
  forall n, FS.is_dir n (p ++ [ x ]) = true -> FS.is_dir n p = true.
Proof.
  unfold FS.is_dir.
  induction p as [| y p IH]; intros [d | b | es] H; simpl in *;
    try discriminate H; try reflexivity.
  destruct (FS.assoc y es) as [c |]; [| discriminate H].
  now apply IH.
Qed.

(** A walk that does not start in a directory does not end in one. *)
Lemma locate_off_dir (n : node) (rel : list string) :
  forall cur q,
    FS.is_dir n cur = false -> FS.locate n cur rel = inr q ->
    FS.is_dir n q = false.
Proof.
  induction rel as [| c rest IH]; intros cur q D; cbn [FS.locate].
  - intros H; inversion H; subst; exact D.
  - destruct (String.eqb c ".."); [rewrite D; discriminate |].
    destruct (String.eqb c "" || String.eqb c ".").
    + destruct rest; [| now apply IH].
      destruct (FS.is_file n cur); intros H; inversion H; subst; exact D.
    + apply IH. destruct (FS.is_dir n (cur ++ [ c ])) eqn:X; [| reflexivity].
      apply is_dir_parent in X. congruence.
Qed.

Lemma isdir_off_dir (n : node) (cur : path) (rel : list string) :
  FS.is_dir n cur = false -> FS.isdir n cur rel = false.
Proof.
  intros D. unfold FS.isdir.
  destruct (FS.locate n cur rel) as [why | q] eqn:L; [reflexivity |].
  exact (locate_off_dir _ _ _ _ D L).
Qed.

Lemma parts_plain (s : string) : Forall plain (Path.parts s).
Proof.
  unfold Path.parts. apply Forall_forall. intros c Hc.
  apply filter_In in Hc. destruct Hc as [_ Hc].
  apply andb_true_iff in Hc. destruct Hc as [A B].
  apply negb_true_iff in A, B. split; now apply String.eqb_neq.
Qed.

Lemma plain_test (c : string) :
  plain c -> String.eqb c "" || String.eqb c "." = false.
Proof.
  intros [A B]. apply String.eqb_neq in A, B. now rewrite A, B.
Qed.

Lemma isdir_cons (n : node) (cur : path) (c : string) (rest : list string) :
  plain c -> String.eqb c ".." = false ->
  FS.isdir n cur (c :: rest) = FS.isdir n (cur ++ [ c ]) rest.
Proof.
  intros P D. unfold FS.isdir. cbn [FS.locate]. rewrite D.
  now rewrite (plain_test _ P).
Qed.

Lemma isdir_back (n : node) (cur : path) (c : string) (rest : list string) :
  String.eqb c ".." = true ->
  FS.isdir n cur (c :: rest)
  = FS.is_dir n cur && FS.isdir n (removelast cur) rest.
Proof.
  intros D. unfold FS.isdir. cbn [FS.locate]. rewrite D.
  now destruct (FS.is_dir n cur).
Qed.

(** Where a directory stands at the end of the walk, [mkdir] has nothing
    to make. *)
Lemma mkdir_along_standing (rel : list string) :
  forall n cur written creating,
    Forall plain rel -> FS.isdir n cur rel = true ->
    FS.mkdir_along n cur written creating rel = (n, None).
Proof.
  induction rel as [| c rest IH]; intros n cur written creating Pl;
    [reflexivity |].
  inversion Pl as [| c' rest' Pc Pr]; subst. cbn [FS.mkdir_along].
  destruct (String.eqb c "..") eqn:Back.
  - rewrite (isdir_back _ _ _ _ Back). intros H.
    apply andb_true_iff in H. now apply IH.
  - rewrite (isdir_cons _ _ _ _ Pc Back). intros H.
    assert (D : FS.is_dir n (cur ++ [ c ]) = true).
    { destruct (FS.is_dir n (cur ++ [ c ])) eqn:X; [reflexivity |].
      now rewrite (isdir_off_dir _ _ rest X) in H. }
    unfold FS.is_dir in D.
    destruct (FS.lookup n (cur ++ [ c ])) as [[d | b | es] |];
      try discriminate D.
    now apply IH.
Qed.

Lemma mkdir_at_standing (base : path) (rel : list string) (p : path)
  (w : world) :
  Forall plain rel ->
  FS.isdir (fs w) (Path.resolve base) rel = true ->
  mkdir_at base rel p w
  = (Val tt, World (fs w) (stdin w) (trace w ++ [ Mkdir p ])).
Proof.
  intros Pl St.
  assert (D : FS.is_dir (fs w) (Path.resolve base) = true).
  { destruct (FS.is_dir (fs w) (Path.resolve base)) eqn:X; [reflexivity |].
    now rewrite (isdir_off_dir _ _ rel X) in St. }
  unfold mkdir_at. unmonad. rewrite (mkdir_p_existing _ _ D).
  now rewrite (mkdir_along_standing rel _ _ _ _ Pl St).
Qed.

(** Where [mkdir] gives up, no directory stands at what the error names. *)
Lemma mkdir_along_refused (rel : list string) :
  forall n cur written creating n' why,
    Forall plain rel ->
    FS.mkdir_along n cur written creating rel = (n', Some why) ->
    exists k,
      (why = FS.Occupied (written ++ firstn k rel)
       \/ (why = FS.Barred /\ firstn k rel = rel))
      /\ FS.isdir n' cur (firstn k rel) = false.
Proof.
  induction rel as [| c rest IH]; intros n cur written creating n' why Pl;
    [discriminate |].
  inversion Pl as [| c' rest' Pc Pr]; subst. cbn [FS.mkdir_along].
  assert (Step : forall n0 cur0 creating0,
             FS.mkdir_along n0 cur0 (written ++ [ c ]) creating0 rest
             = (n', Some why) ->
             (forall k, FS.isdir n' cur0 (firstn k rest) = false ->
                        FS.isdir n' cur (c :: firstn k rest) = false) ->
             exists k,
               (why = FS.Occupied (written ++ firstn k (c :: rest))
                \/ (why = FS.Barred /\ firstn k (c :: rest) = c :: rest))
               /\ FS.isdir n' cur (firstn k (c :: rest)) = false).
  { intros n0 cur0 creating0 H Up.
    destruct (IH _ _ _ _ _ _ Pr H) as [k [[-> | [-> Eq]] Off]];
      exists (S k); cbn [firstn]; (split; [| now apply Up]).
    - left. now rewrite <- app_assoc.
    - right. now rewrite Eq. }
  assert (Here : forall m, FS.is_dir n' (cur ++ [ c ]) = false ->
                           String.eqb c ".." = false ->
                           FS.isdir n' cur (c :: m) = false).
  { intros m Off Back. rewrite (isdir_cons _ _ _ _ Pc Back).
    now apply isdir_off_dir. }
  destruct (String.eqb c "..") eqn:Back.
  - intros H. apply (Step _ _ _ H).
    intros k Off. rewrite (isdir_back _ _ _ _ Back), Off.
    apply andb_false_r.
  - destruct (FS.lookup n (cur ++ [ c ])) as [[d | b | es] |] eqn:Lk.
    + assert (Off : FS.is_dir n (cur ++ [ c ]) = false)
        by (unfold FS.is_dir; now rewrite Lk).
      destruct rest as [| r rest];
        [| destruct creating]; intros H; inversion H; subst.
      * exists 1. split; [now left | now apply Here].
      * exists 1. split; [now left | now apply Here].
      * exists (List.length (c :: r :: rest)). rewrite firstn_all.
        split; [now right | now apply Here].
    + assert (Off : FS.is_dir n (cur ++ [ c ]) = false)
        by (unfold FS.is_dir; now rewrite Lk).
      destruct rest as [| r rest];
        [| destruct creating]; intros H; inversion H; subst.
      * exists 1. split; [now left | now apply Here].
      * exists 1. split; [now left | now apply Here].
      * exists (List.length (c :: r :: rest)). rewrite firstn_all.
        split; [now right | now apply Here].
    + intros H. apply (Step _ _ _ H).
      intros k Off. now rewrite (isdir_cons _ _ _ _ Pc Back).
    + assert (Off : FS.is_dir n (cur ++ [ c ]) = false)
        by (unfold FS.is_dir; now rewrite Lk).
      destruct (FS.mkdir_p n (cur ++ [ c ])) as [n1 |].
      * intros H. apply (Step _ _ _ H).
        intros k Off1. now rewrite (isdir_cons _ _ _ _ Pc Back).
      * intros H; inversion H; subst.
        exists (List.length (c :: rest)). rewrite firstn_all.
        split; [now right | now apply Here].
Qed.

Lemma mkdir_at_blame (base : path) (rel : list string) :
  Forall plain rel ->
  raises_only (blames_no_directory base rel) (mkdir_at base rel (base ++ rel)).
Proof.
  intros Pl w e w'. unfold mkdir_at. unmonad.
  destruct (FS.mkdir_p (fs w) (Path.resolve base)) as [n1 |] eqn:Mk.
  - destruct (FS.mkdir_along n1 _ _ _ rel) as [n2 stopped] eqn:Al.
    destruct stopped as [why |]; [| discriminate].
    destruct (mkdir_along_refused _ _ _ _ _ _ _ Pl Al)
      as [k [[-> | [-> Eq]] Off]]; intros H; inversion H; subst; exists k.
    + split; [reflexivity | exact Off].
    + split; [simpl; now rewrite Eq | exact Off].
  - assert (D : FS.is_dir (fs w) (Path.resolve base) = false).
    { destruct (FS.is_dir (fs w) (Path.resolve base)) eqn:X; [| reflexivity].
      now rewrite (mkdir_p_existing _ _ X) in Mk. }
    destruct rel as [| c rest].
    + destruct (FS.under_file _ _); intros H; inversion H; subst; exists 0;
        (split; [reflexivity | exact D]).
    + intros H; inversion H; subst. exists (List.length (c :: rest)).
      rewrite firstn_all. split; [reflexivity | now apply isdir_off_dir].
Qed.

Lemma join_anchor (p : path) (s : string) :
  Path.join p s = Path.anchor p s ++ Path.parts s.
Proof. unfold Path.join, Path.anchor. now destruct (PyStr.startswith s "/"). Qed.

Lemma blame_destination (base : path) (rel sfx : list string) (e : exn)
  (w : world) :
  blames_no_directory base (rel ++ sfx) e w ->
  no_standing_destination base rel e w.
Proof.
  intros [k [B Off]] sub _ Hb. rewrite B in Hb. inversion Hb as [Eq].
  apply app_inv_head in Eq. now rewrite Eq in Off.
Qed.

Lemma elsewhere_destination (base : path) (rel : list string) (e : exn)
  (w : world) :
  elsewhere (base ++ rel) e w -> no_standing_destination base rel e w.
Proof.
  intros H sub I B. exfalso. apply (H sub I). rewrite B.
  now rewrite app_assoc.
Qed.

Lemma mkdir_at_destination (base : path) (rel sfx : list string) (p : path) :
  Forall plain rel -> Forall plain sfx -> p = (base ++ rel) ++ sfx ->
  raises_only (no_standing_destination base rel)
    (mkdir_at base (rel ++ sfx) p).
Proof.
  intros P1 P2 ->. rewrite <- app_assoc.
  apply (raises_only_weaken _ _ _ (blame_destination base rel sfx)).
  apply mkdir_at_blame. apply Forall_app. now split.
Qed.

Lemma mkdir_at_instance (base : path) (rel : list string) :
  Forall plain rel ->
  raises_only (no_standing_destination base rel)
    (mkdir_at base rel (base ++ rel)).
Proof.
  intros P. apply (raises_only_weaken (blames_no_directory base rel)).
  - intros e w H. apply (blame_destination base rel []).
    now rewrite app_nil_r.
  - now apply mkdir_at_blame.
Qed.

(** The last component of a destination directory. *)
Lemma destination_last (pid : path) (sub : list string) :
  In sub destinations ->
  In (last (pid ++ sub) "") [ "minecraft"; "mods"; "config"; "libraries" ].
Proof.
  intros I. simpl in I.
  destruct I as [<- | [<- | [<- | [<- | []]]]];
    try (change [ "minecraft"; "mods" ] with ([ "minecraft" ] ++ [ "mods" ]));
    try (change [ "minecraft"; "config" ] with ([ "minecraft" ] ++ [ "config" ]));
    try (change [ "minecraft"; "libraries" ]
           with ([ "minecraft" ] ++ [ "libraries" ]));
    rewrite ?app_assoc, last_last; simpl; tauto.
Qed.

(** A path of the game directory itself is no destination directory. *)
Lemma names_elsewhere (pid root : path) (xs : list string) (e : exn)
  (w : world) :
  (forall x, In x xs ->
             ~ In x [ "minecraft"; "mods"; "config"; "libraries" ]) ->
  names_among (map (fun x => root ++ [ x ]) xs) e w -> elsewhere pid e w.
Proof.
  intros Out H sub I B. apply H in B. apply in_map_iff in B.
  destruct B as [x [Eq Hx]]. apply (Out x Hx).
  pose proof (destination_last pid sub I) as L.
  now rewrite <- Eq, last_last in L.
Qed.

Lemma mkdir_blames (p : path) :
  raises_only (fun e _ => forall s, blamed e = Some s -> s = p) (mkdir p).
Proof.
  unfold mkdir.
  raises_steps ltac:(apply raises_only_raise; intros ? ? Hs; inversion Hs;
                     reflexivity).
Qed.

Ltac other_names :=
  let x := fresh "x" in
  let Hx := fresh "Hx" in
  let Hy := fresh "Hy" in
  intros x Hx Hy; simpl in Hx, Hy;
  repeat destruct Hx as [Hx | Hx]; subst;
  repeat destruct Hy as [Hy | Hy]; try discriminate; contradiction.

Ltac not_a_destination :=
  let I := fresh "I" in
  simpl; intros I; repeat destruct I as [I | I]; try discriminate I;
  try congruence; try contradiction.

(** The moves of step 3 name the items they move and the places the
    items go to, never a destination directory. *)
Lemma move_items_elsewhere (base : path) (rel : list string) (pid : path)
  (a : string) :
  a <> "minecraft" ->
  raises_only (elsewhere pid)
    (move_items base rel (pid ++ [ a ]) ((pid ++ [ "minecraft" ]) ++ [ a ])).
Proof.
  intros Na. unfold move_items, shutil_move, reach.
  raises_steps ltac:(first
    [ match goal with
      | |- raises_only _ (if FS.is_dir ?n ?d && _ then _ else _) =>
          destruct (FS.is_dir n d); cbn [andb]; cbv iota
      end
    | apply raises_only_raise; intros w0 sub I B; simpl in B;
      inversion B as [Eq]; rewrite <- ?app_assoc in Eq;
      apply app_inv_head in Eq; subst sub; revert I; not_a_destination ]).
Qed.

Lemma mkdir_instances_elsewhere (minecraft_path pid : path) :
  raises_only (elsewhere pid) (mkdir (Path.join minecraft_path "instances")).
Proof.
  assert (Out : forall x, In x [ "instances" ] ->
                          ~ In x [ "minecraft"; "mods"; "config"; "libraries" ])
    by other_names.
  apply (raises_only_weaken _ _ _
           (fun e w => names_elsewhere pid minecraft_path _ e w Out)).
  eapply raises_only_weaken; [| apply mkdir_blames ].
  intros e w H s Hs. left. symmetry. now apply H.
Qed.

Lemma update_elsewhere (E : env) (minecraft_path pid : path)
  (pack_name game_dir closing : string) :
  raises_only (elsewhere pid)
    (update_launcher_profiles E
       (Path.join minecraft_path "launcher_profiles.json") pack_name game_dir
       closing).
Proof.
  assert (Out : forall x,
             In x [ "launcher_profiles.json"; "launcher_profiles.json.bak" ] ->
             ~ In x [ "minecraft"; "mods"; "config"; "libraries" ])
    by other_names.
  apply (raises_only_weaken _ _ _
           (fun e w => names_elsewhere pid minecraft_path _ e w Out)).
  cbn [map]. rewrite <- backup_path_eq, <- (profiles_path_eq minecraft_path).
  apply update_names.
Qed.

Lemma link_installer_blame (E : env) (pack_url : string) (minecraft_path : path)
  (pack_name : string) :
  raises_only
    (no_standing_destination
       (Path.anchor (Path.join minecraft_path "instances") pack_name)
       (Path.parts pack_name))
    (download_and_install_ftb_pack_from_link E pack_url minecraft_path pack_name).
Proof.
  pose proof (parts_plain pack_name) as Pl.
  unfold download_and_install_ftb_pack_from_link, fetch_and_unpack,
    download_pack, extract_pack, move_subfolders, folder_exists.
  rewrite (join_anchor (Path.join minecraft_path "instances") pack_name).
  set (base := Path.anchor (Path.join minecraft_path "instances") pack_name).
  set (rel := Path.parts pack_name) in *.
  raises_steps ltac:(first
    [ apply mkdir_at_instance; exact Pl
    | apply (mkdir_at_destination base rel [ "minecraft" ]);
      [ exact Pl | repeat constructor; discriminate
      | cbn; rewrite <- ?app_assoc; reflexivity ]
    | apply (mkdir_at_destination base rel [ "minecraft"; "mods" ]);
      [ exact Pl | repeat constructor; discriminate
      | cbn; rewrite <- ?app_assoc; reflexivity ]
    | apply (mkdir_at_destination base rel [ "minecraft"; "config" ]);
      [ exact Pl | repeat constructor; discriminate
      | cbn; rewrite <- ?app_assoc; reflexivity ]
    | apply (mkdir_at_destination base rel [ "minecraft"; "libraries" ]);
      [ exact Pl | repeat constructor; discriminate
      | cbn; rewrite <- ?app_assoc; reflexivity ]
    | apply (raises_only_weaken _ _ _ (elsewhere_destination base rel));
      first
        [ apply (move_items_elsewhere base rel (base ++ rel) "mods");
          discriminate
        | apply (move_items_elsewhere base rel (base ++ rel) "config");
          discriminate
        | apply (move_items_elsewhere base rel (base ++ rel) "libraries");
          discriminate
        | apply mkdir_instances_elsewhere
        | apply update_elsewhere ]
    | apply raises_only_catch with (Qm := fun _ _ => True);
      [apply raises_anything | intros ? _] ]).
Qed.

(** C8: [mkdir(parents=True, exist_ok=True)] on a destination directory
    that stands succeeds and changes nothing, and no run of the archive
    installer, from whatever state and so also from the state an earlier
    run with the same pack name left, is stopped on account of a
    destination directory that stands: whenever the exception that ends a
    run names [minecraft] or one of its [mods], [config] and [libraries]
    folders, no directory is at that place. *)
Theorem C8_existing_directories_never_fail :
  (forall minecraft_path pack_name w,
      let instances_dir := Path.join minecraft_path "instances" in
      let pack_instance_dir := Path.join instances_dir pack_name in
      let base := Path.anchor instances_dir pack_name in
      let rel := Path.parts pack_name in
      let game_dir := Path.join pack_instance_dir "minecraft" in
      (FS.isdir (fs w) (Path.resolve base) (rel ++ [ "minecraft" ]) = true ->
       mkdir_at base (rel ++ [ "minecraft" ]) game_dir w
       = (Val tt, World (fs w) (stdin w) (trace w ++ [ Mkdir game_dir ])))
      /\ (forall x,
             In x [ "mods"; "config"; "libraries" ] ->
             FS.isdir (fs w) (Path.resolve base) (rel ++ [ "minecraft"; x ])
             = true ->
             mkdir_at base (rel ++ [ "minecraft"; x ]) (Path.join game_dir x) w
             = (Val tt,
                World (fs w) (stdin w)
                      (trace w ++ [ Mkdir (Path.join game_dir x) ]))))
  /\ (forall E pack_url minecraft_path pack_name w e w' sub,
         let instances_dir := Path.join minecraft_path "instances" in
         let pack_instance_dir := Path.join instances_dir pack_name in
         let base := Path.anchor instances_dir pack_name in
         let rel := Path.parts pack_name in
         download_and_install_ftb_pack_from_link E pack_url minecraft_path
           pack_name w = (Exc e, w') ->
         In sub destinations ->
         blamed e = Some (pack_instance_dir ++ sub) ->
         FS.isdir (fs w') (Path.resolve base) (rel ++ sub) = false).
Proof.
  split.
  - intros R N w inst pid base rel game. split.
    + apply mkdir_at_standing. apply Forall_app. split; [apply parts_plain |].
      repeat constructor; discriminate.
    + intros x Hx. apply mkdir_at_standing.
      apply Forall_app. split; [apply parts_plain |].
      simpl in Hx. destruct Hx as [<- | [<- | [<- | []]]];
        repeat constructor; discriminate.
  - intros E url R N w e w' sub inst pid base rel H I B.
    apply (link_installer_blame E url R N w e w' H sub I).
    rewrite B. unfold pid. rewrite join_anchor. now rewrite <- app_assoc.
Qed.

Lemma C8_existing_directories_never_fail_witness :
  (FS.isdir (fs Unpacked.again) [ "mc"; "instances" ]
            [ "Pack"; "minecraft"; "mods" ] = true
   /\ mkdir_at [ "mc"; "instances" ] [ "Pack"; "minecraft"; "mods" ]
        [ "mc"; "instances"; "Pack"; "minecraft"; "mods" ] Unpacked.again
      = (Val tt,
         World (fs Unpacked.again) (stdin Unpacked.again)
               (trace Unpacked.again
                ++ [ Mkdir [ "mc"; "instances"; "Pack"; "minecraft"; "mods" ] ])))
  /\ exists w',
       download_and_install_ftb_pack_from_link Sample.E "http://h/p.zip"
         [ "mc" ] "Pack" Sample.w_occupied
       = (Exc (FileExistsError [ "mc"; "instances"; "Pack"; "minecraft" ]), w')
       /\ FS.is_file (fs w') [ "mc"; "instances"; "Pack"; "minecraft" ] = true
       /\ FS.isdir (fs w') [ "mc"; "instances" ] [ "Pack"; "minecraft" ]
          = false.
Proof.
  split.
  { split; [reflexivity |].
    apply (proj2 (proj1 C8_existing_directories_never_fail [ "mc" ] "Pack"
                    Unpacked.again) "mods").
    - simpl. tauto.
    - reflexivity. }
  assert (H : download_and_install_ftb_pack_from_link Sample.E "http://h/p.zip"
                [ "mc" ] "Pack" Sample.w_occupied
              = (Exc (FileExistsError [ "mc"; "instances"; "Pack"; "minecraft" ]),
                 snd (download_and_install_ftb_pack_from_link Sample.E
                        "http://h/p.zip" [ "mc" ] "Pack" Sample.w_occupied)))
    by (vm_compute; reflexivity).
  eexists. split; [exact H |]. split; [vm_compute; reflexivity |].
  apply (proj2 C8_existing_directories_never_fail Sample.E "http://h/p.zip"
           [ "mc" ] "Pack" Sample.w_occupied _ _ [ "minecraft" ] H).
  - simpl. tauto.
  - reflexivity.
Defined.

(** A second run on the sample machine: every directory creation goes
    through, and the run stops at the first move, whose destination
    [minecraft/mods/a.jar] the first run has filled. *)
Example second_run_stops_at_a_move :
  exists w1 w2,
    download_and_install_ftb_pack_from_link Sample.E "http://h/p.zip" [ "mc" ]
      "Pack" Sample.w0 = (Val Installed, w1)
    /\ download_and_install_ftb_pack_from_link Sample.E "http://h/p.zip" [ "mc" ]
         "Pack" (World (fs w1) [ "1.12.2" ] []) 
       = (Exc (ShutilError "Destination path already exists: "
                 [ "mc"; "instances"; "Pack"; "minecraft"; "mods"; "a.jar" ]),
          w2)
    /\ trace w2
       = [ Mkdir [ "mc"; "instances" ];
           Mkdir [ "mc"; "instances"; "Pack" ];
           Print "Downloading FTB pack from http://h/p.zip...";
           Urlretrieve "http://h/p.zip" [ "mc"; "instances"; "Pack"; "pack.zip" ];
           Print "Extracting FTB pack...";
           Extractall [ "mc"; "instances"; "Pack"; "pack.zip" ]
                      [ "mc"; "instances"; "Pack" ];
           OpenRead [ "mc"; "instances"; "Pack"; "pack.zip" ];
           Mkdir [ "mc"; "instances"; "Pack"; "minecraft" ];
           Mkdir [ "mc"; "instances"; "Pack"; "minecraft"; "mods" ];
           Mkdir [ "mc"; "instances"; "Pack"; "minecraft"; "config" ];
           Print "Moving mods...";
           Move [ "mc"; "instances"; "Pack"; "mods"; "a.jar" ]
                [ "mc"; "instances"; "Pack"; "minecraft"; "mods" ] ].
Proof.
  eexists. eexists. split; [vm_compute; reflexivity |].
  split; vm_compute; reflexivity.
Qed.

(** ** One collected link *)

Section GrewBy.

Variable P : event -> Prop.

Lemma grew_by_refl (w : world) : grew_by P w w.
Proof. exists []. split; [now rewrite app_nil_r | constructor]. Qed.

Lemma grew_by_trans (w1 w2 w3 : world) :
  grew_by P w1 w2 -> grew_by P w2 w3 -> grew_by P w1 w3.
Proof.
  intros [a [Ha Pa]] [b [Hb Pb]]. exists (a ++ b). split.
  - rewrite Hb, Ha. now rewrite app_assoc.
  - apply Forall_app. now split.
Qed.

Lemma emit_grew (ev : event) : P ev -> respects (grew_by P) (emit ev).
Proof.
  intros Pev w r w' H. inversion H. exists [ ev ]. split; [reflexivity |].
  now repeat constructor.
Qed.

Lemma store_grew (p : path) (data : string) :
  respects (grew_by P) (store p data).
Proof.
  intros w r w' H. apply store_spec in H. destruct H as [_ [T _]].
  exists []. split; [now rewrite app_nil_r | constructor].
Qed.

Lemma input_grew (prompt : string) :
  P (Input prompt) -> respects (grew_by P) (input prompt).
Proof.
  intros Pi w r w'. unfold input. unmonad.
  destruct (stdin w); intros H; inversion H; exists [ Input prompt ];
    (split; [reflexivity | now repeat constructor]).
Qed.

End GrewBy.

#[local] Hint Resolve grew_by_refl grew_by_trans : core.

Lemma load_grew (P : event -> Prop) (p : path) :
  P (OpenRead p) -> respects (grew_by P) (load p).
Proof.
  intros Pl w r w' H. apply load_spec in H. destruct H as [-> _].
  exists [ OpenRead p ]. split; [reflexivity | now repeat constructor].
Qed.

Lemma respects_weaken {A} (R1 R2 : world -> world -> Prop) (m : M A) :
  (forall w w', R1 w w' -> R2 w w') -> respects R1 m -> respects R2 m.
Proof. intros Imp H w r w' Hm. apply Imp. eapply H; eauto. Qed.

Lemma same_trace_grew (P : event -> Prop) (w w' : world) :
  same_trace w w' -> grew_by P w w'.
Proof.
  intros T. exists []. split; [now rewrite app_nil_r | constructor].
Qed.

Lemma reach_text_trace (cwd : path) (s : string) (p : path) :
  respects same_trace (reach_text cwd s p).
Proof.
  unfold reach_text. destruct s; [| apply reach_trace].
  intros w r w' H. inversion H. reflexivity.
Qed.

Lemma store_node_trace (p : path) (c : node) :
  respects same_trace (store_node p c).
Proof.
  unfold store_node. respects_steps ltac:(apply set_fs_trace).
Qed.

Ltac quiet_prim :=
  apply (respects_weaken same_trace _ _ (same_trace_grew _));
  first [ apply found_trace | apply reach_trace | apply reach_text_trace
        | apply store_node_trace | apply store_trace ].

Lemma not_a_get_open (p : path) : not_a_get (OpenRead p).
Proof. intros url. discriminate. Qed.

(** [copy2] records its call first and issues no request. *)
Lemma copy2_trace (E : env) (link : string) (dst : path) (w : world)
  (r : result unit) (w1 : world) :
  copy2 E link dst w = (r, w1) ->
  stdin w1 = stdin w
  /\ exists tail,
       trace w1 = trace w ++ Copy2 link dst :: tail /\ Forall not_a_get tail.
Proof.
  unfold copy2. intros H.
  apply bind_inv in H. destruct H as [[[] [wa [Em H]]] | [e [Em _]]];
    [| discriminate].
  rewrite emit_run in Em. inversion Em; subst wa; clear Em.
  match type of H with ?k _ = _ =>
    assert (G : respects (grew_by not_a_get) k);
    [| assert (S : respects same_stdin k) ]
  end.
  - respects_steps ltac:(first
      [ quiet_prim
      | apply emit_grew; intros url; discriminate ]).
  - respects_steps ltac:(first
      [ apply store_node_stdin | apply found_stdin | apply reach_text_stdin
      | stdin_prim ]).
  - apply S in H as S1. apply G in H. destruct H as [tail [T F]].
    split; [exact S1 |]. exists tail. split; [| exact F].
    rewrite T. simpl. now rewrite <- app_assoc.
Qed.

(** A copy that succeeds puts the file of the link at the destination. *)
Lemma copy2_val (E : env) (link : string) (dst : path) (w w1 : world) :
  copy2 E link dst w = (Val tt, w1) ->
  exists c,
    FS.regular c = true
    /\ FS.lookup (fs w) (Path.resolve (Path.join (cwd E) link)) = Some c
    /\ FS.lookup (fs w1)
         (Path.resolve (if FS.is_dir (fs w) (Path.resolve dst)
                        then dst ++ [ Path.name link ] else dst))
       = Some c.
Proof.
  unfold copy2. intros H.
  apply bind_val_inv in H. destruct H as [[] [wa [Em H]]].
  rewrite emit_run in Em. inversion Em; subst wa; clear Em.
  apply bind_val_inv in H. destruct H as [n [wb [G H]]].
  unfold get_fs in G. inversion G; subst n wb; clear G. cbn [fs] in H.
  match type of H with (if ?b then _ else _) _ = _ => destruct b end;
    [discriminate |].
  apply bind_val_inv in H. destruct H as [[] [wc [Em H]]].
  rewrite emit_run in Em. inversion Em; subst wc; clear Em.
  apply bind_val_inv in H. destruct H as [[] [wc [Rt H]]].
  pose proof (reach_text_trace _ _ _ _ _ _ Rt) as T1.
  assert (F1 : fs wc = fs w).
  { unfold reach_text, reach in Rt. destruct link; [discriminate |].
    revert Rt. unmonad. cbn [fs].
    destruct (FS.locate _ _ _) as [[|] | t]; intros Rt; inversion Rt;
      reflexivity. }
  apply bind_val_inv in H. destruct H as [c [wd [Fd H]]].
  apply found_spec in Fd. destruct Fd as [-> [Hd _]].
  destruct (proj1 (Hd c) eq_refl) as [Lk Rg]. rewrite F1 in Lk.
  apply store_node_spec in H; [| exact Rg].
  destruct H as [_ [_ [_ Out]]].
  exists c. split; [exact Rg |]. split; [exact Lk |].
  destruct Out as [[_ R] | [e [Ex _]]]; [exact R | discriminate].
Qed.

(** A guarded statement that reports through [print] always returns. *)
Lemma reported_inv (m : M unit) (report : exn -> string) (w : world) :
  exists r w1,
    m w = (r, w1)
    /\ catch m (fun e => print (report e)) w
       = (Val tt,
          match r with
          | Val _ => w1
          | Exc e => World (fs w1) (stdin w1) (trace w1 ++ [ Print (report e) ])
          end).
Proof.
  unfold catch, print, emit.
  destruct (m w) as [[[] | e] w1]; eexists; eexists; split; reflexivity.
Qed.

Lemma install_link_local (E : env) (mods_dir : path) (link : string) (w : world) :
  FS.isfile (fs w) (cwd E) link = true ->
  exists r w1,
    copy2 E link mods_dir w = (r, w1)
    /\ install_link E mods_dir link w
       = (Val tt,
          World (fs w1) (stdin w1)
                (trace w1 ++ [ Print (copy_report mods_dir link r) ])).
Proof.
  intros F. unfold install_link. unfold bind at 1, get_fs. rewrite F.
  unfold catch, bind, print, emit.
  destruct (copy2 E link mods_dir w) as [[[] | e] w1];
    eexists; eexists; split; reflexivity.
Qed.

(** C10: a collected link, one that ends in [.jar] or [.zip], that
    [os.path.isfile] accepts is handed to [copy2] even when it starts with
    [http]; no request is issued for it.  When the copy succeeds the file
    is in the mods directory. *)
Theorem C10_local_file_before_url :
  forall E mods_dir link w,
    wanted_suffix link = true ->
    FS.isfile (fs w) (cwd E) link = true ->
    PyStr.startswith link "http" = true ->
    exists r w1 tail,
      copy2 E link mods_dir w = (r, w1)
      /\ install_link E mods_dir link w
         = (Val tt,
            World (fs w1) (stdin w1)
                  (trace w1 ++ [ Print (copy_report mods_dir link r) ]))
      /\ trace w1 = trace w ++ Copy2 link mods_dir :: tail
      /\ Forall not_a_get tail
      /\ (forall url,
             In (HttpGet url)
                (trace w1 ++ [ Print (copy_report mods_dir link r) ]) ->
             In (HttpGet url) (trace w))
      /\ (r = Val tt ->
          exists c,
            FS.regular c = true
            /\ FS.lookup (fs w) (Path.resolve (Path.join (cwd E) link))
               = Some c
            /\ FS.lookup (fs w1)
                 (Path.resolve
                    (if FS.is_dir (fs w) (Path.resolve mods_dir)
                     then mods_dir ++ [ Path.name link ] else mods_dir))
               = Some c).
Proof.
  intros E mods_dir link w _ F _.
  destruct (install_link_local E mods_dir link w F) as [r [w1 [C I]]].
  destruct (copy2_trace _ _ _ _ _ _ C) as [_ [tail [T NG]]].
  exists r, w1, tail.
  split; [exact C |]. split; [exact I |]. split; [exact T |].
  split; [exact NG |]. split.
  - intros url Hin. rewrite T in Hin.
    apply in_app_or in Hin. destruct Hin as [Hin | [Bad | []]];
      [| discriminate].
    apply in_app_or in Hin. destruct Hin as [Hin | [Bad | Hin]];
      [exact Hin | discriminate |].
    rewrite Forall_forall in NG. exfalso. exact (NG _ Hin url eq_refl).
  - intros ->. exact (copy2_val _ _ _ _ _ C).
Qed.

Lemma C10_local_file_before_url_witness :
  wanted_suffix "http-tools.jar" = true
  /\ FS.isfile (fs Sample.w_http_file) (cwd Sample.E) "http-tools.jar" = true
  /\ PyStr.startswith "http-tools.jar" "http" = true
  /\ exists w',
       install_link Sample.E [ "mc"; "mods" ] "http-tools.jar" Sample.w_http_file
       = (Val tt, w')
       /\ FS.read (fs w') [ "mc"; "mods"; "http-tools.jar" ] = Some "JAR"
       /\ trace w'
          = [ Copy2 "http-tools.jar" [ "mc"; "mods" ];
              OpenRead [ "home"; "http-tools.jar" ];
              Print "Mod copied from http-tools.jar to /mc/mods" ].
Proof.
  split; [reflexivity |]. split; [reflexivity |]. split; [reflexivity |].
  destruct (C10_local_file_before_url Sample.E [ "mc"; "mods" ]
              "http-tools.jar" Sample.w_http_file eq_refl eq_refl eq_refl)
    as (r & w1 & tail & C & I & _).
  vm_compute in C. inversion C; subst r w1; clear C.
  eexists. split; [exact I |]. split; reflexivity.
Defined.

(** A link through a directory that is not there names no file for
    [os.path.isfile], whatever lies at the place [Path.resolve] computes:
    such a link that starts with [http] is requested. *)
Example link_through_a_missing_directory :
  FS.is_file (fs Sample.w0)
    (Path.resolve (Path.join (cwd Sample.E) "http/../a.jar")) = true
  /\ FS.isfile (fs Sample.w0) (cwd Sample.E) "http/../a.jar" = false
  /\ install_link Sample.E [ "mc"; "mods" ] "http/../a.jar" Sample.w0
     = (Val tt,
        World (fs Sample.w0) (stdin Sample.w0)
              [ Print "Downloading mod from http/../a.jar...";
                HttpGet "http/../a.jar";
                Print "Error downloading mod from http/../a.jar: No connection adapters were found" ]).
Proof. repeat split. Qed.

(** ** The loop over the collected links *)

Lemma install_link_stdin (E : env) (mods_dir : path) (link : string) :
  respects same_stdin (install_link E mods_dir link).
Proof.
  unfold install_link, copy2, http_get, save_stream.
  respects_steps ltac:(first [ apply store_stdin | apply store_node_stdin
                             | apply found_stdin | apply reach_text_stdin
                             | stdin_prim ]).
Qed.

(** No exception leaves the statements run for a link. *)
Lemma install_link_total (E : env) (mods_dir : path) (link : string) (w : world) :
  exists w', install_link E mods_dir link w = (Val tt, w').
Proof.
  unfold install_link. unfold bind at 1, get_fs.
  destruct (FS.isfile (fs w) _ _).
  - match goal with |- context [catch ?m (fun e => print (@?f e))] =>
      destruct (reported_inv m f w) as [r [w1 [_ H]]] end.
    eexists. exact H.
  - destruct (PyStr.startswith link "http").
    + match goal with |- context [catch ?m (fun e => print (@?f e))] =>
        destruct (reported_inv m f w) as [r [w1 [_ H]]] end.
      eexists. exact H.
    + eexists. reflexivity.
Qed.

Lemma links_loop_total (E : env) (mods_dir : path) (links : list string) :
  forall w,
    exists w',
      for_each links (install_link E mods_dir) w = (Val tt, w')
      /\ stdin w' = stdin w.
Proof.
  induction links as [| link links IH]; intros w; simpl.
  - exists w. split; reflexivity.
  - destruct (install_link_total E mods_dir link w) as [w1 H1].
    destruct (IH w1) as [w2 [H2 S2]].
    exists w2. unfold bind. rewrite H1. split; [exact H2 |].
    rewrite S2. exact (install_link_stdin E mods_dir link w _ _ H1).
Qed.

(** The registry step announces itself first. *)
Lemma update_starts (E : env) (p : path) (pack_name game_dir closing : string)
  (w : world) (r : result outcome) (w' : world) :
  update_launcher_profiles E p pack_name game_dir closing w = (r, w') ->
  exists tail,
    trace w' = trace w ++ Print "Updating launcher profile..." :: tail.
Proof.
  unfold update_launcher_profiles. intros H.
  apply bind_inv in H. destruct H as [[[] [wa [P H]]] | [e [P _]]];
    [| discriminate].
  rewrite print_run in P. inversion P; subst wa; clear P.
  match type of H with ?k _ = _ =>
    assert (G : respects (grew_by any_event) k)
  end.
  { unfold read_registry, copyfile, load_node.
    respects_steps ltac:(first
      [ apply store_grew | apply load_grew; exact I | quiet_prim
      | apply input_grew; exact I | apply emit_grew; exact I
      | unfold print; apply emit_grew; exact I ]). }
  apply G in H. destruct H as [tail [T _]]. exists tail.
  rewrite T. simpl. now rewrite <- app_assoc.
Qed.

(** C5, as the script has it.  For a collected link, one that ends in
    [.jar] or [.zip]: a link that [os.path.isfile] accepts is
    handed to [copy2], which puts the file in the mods directory;
    otherwise a
    link that starts with [http] is requested, and an answer with status
    200 is written under the text after the link's last slash, any other
    status being reported; otherwise the link is reported as unsupported.
    Whatever fails is reported, no exception leaves the loop, and the
    registry step starts after it. *)
Theorem C5_links_are_fetched_one_by_one :
  forall E mods_dir link w,
    wanted_suffix link = true ->
    let src := Path.join (cwd E) link in
    let downloading := Print ("Downloading mod from " ++ link ++ "...") in
    let file_path := Path.join mods_dir (Path.name link) in
    (* a local file *)
    (FS.isfile (fs w) (cwd E) link = true ->
     exists r w1 tail,
       copy2 E link mods_dir w = (r, w1)
       /\ trace w1 = trace w ++ Copy2 link mods_dir :: tail
       /\ install_link E mods_dir link w
          = (Val tt,
             World (fs w1) (stdin w1)
                   (trace w1 ++ [ Print (copy_report mods_dir link r) ]))
       /\ (r = Val tt ->
           exists c,
             FS.regular c = true
             /\ FS.lookup (fs w) (Path.resolve src) = Some c
             /\ FS.lookup (fs w1)
                  (Path.resolve
                     (if FS.is_dir (fs w) (Path.resolve mods_dir)
                      then mods_dir ++ [ Path.name link ] else mods_dir))
                = Some c))
    (* a link that starts with http: the request fails *)
    /\ (FS.isfile (fs w) (cwd E) link = false ->
        PyStr.startswith link "http" = true ->
        forall msg,
          requests_get E link = inl msg ->
          install_link E mods_dir link w
          = (Val tt,
             World (fs w) (stdin w)
                   (trace w ++
                    [ downloading; HttpGet link;
                      Print ("Error downloading mod from " ++ link ++ ": " ++ msg) ])))
    (* the answer has another status than 200 *)
    /\ (FS.isfile (fs w) (cwd E) link = false ->
        PyStr.startswith link "http" = true ->
        forall r,
          requests_get E link = inr r ->
          status_code r <> 200%Z ->
          install_link E mods_dir link w
          = (Val tt,
             World (fs w) (stdin w)
                   (trace w ++
                    [ downloading; HttpGet link;
                      Print ("Failed to download mod from " ++ link
                             ++ ". Status code: " ++ Z_to_string (status_code r)) ])))
    (* the answer has status 200 *)
    /\ (FS.isfile (fs w) (cwd E) link = false ->
        PyStr.startswith link "http" = true ->
        forall r,
          requests_get E link = inr r ->
          status_code r = 200%Z ->
          exists stored w1,
            store file_path (String.concat "" (chunks r))
                  (World (fs w) (stdin w)
                         (trace w ++ [ downloading; HttpGet link;
                                       OpenWrite file_path ]))
            = (stored, w1)
            /\ install_link E mods_dir link w
               = (Val tt,
                  World (fs w1) (stdin w1)
                        (trace w1 ++ [ Print (download_report link r stored) ]))
            /\ (stored = Val tt ->
                FS.read (fs w1) (Path.resolve file_path)
                = Some (String.concat "" (chunks r))))
    (* any other link *)
    /\ (FS.isfile (fs w) (cwd E) link = false ->
        PyStr.startswith link "http" = false ->
        install_link E mods_dir link w
        = (Val tt,
           World (fs w) (stdin w)
                 (trace w ++ [ Print ("Unsupported link type: " ++ link) ])))
    (* the loop and what follows it *)
    /\ (forall links,
           exists w',
             for_each links (install_link E mods_dir) w = (Val tt, w')
             /\ stdin w' = stdin w)
    /\ (forall anchors minecraft_path pack_name w1,
           mkdir (Path.join minecraft_path "mods") w = (Val tt, w1) ->
           exists w2,
             for_each (mod_links anchors)
                      (install_link E (Path.join minecraft_path "mods")) w1
             = (Val tt, w2)
             /\ install_from_anchors E anchors minecraft_path pack_name w
                = update_launcher_profiles E
                    (Path.join minecraft_path "launcher_profiles.json")
                    pack_name (Path.str minecraft_path)
                    ("Mods installed successfully! Launch Minecraft and select the '"
                     ++ pack_name ++ "' profile.") w2
             /\ exists r w3 tail,
                  install_from_anchors E anchors minecraft_path pack_name w
                  = (r, w3)
                  /\ trace w3
                     = trace w2 ++ Print "Updating launcher profile..." :: tail).
Proof.
  intros E mods_dir link w _ src downloading file_path.
  split; [| split; [| split; [| split; [| split; [| split]]]]].
  - intros F. destruct (install_link_local E mods_dir link w F) as [r [w1 [C I]]].
    destruct (copy2_trace _ _ _ _ _ _ C) as [_ [tail [T _]]].
    exists r, w1, tail. split; [exact C |]. split; [exact T |].
    split; [exact I |]. intros ->. exact (copy2_val _ _ _ _ _ C).
  - intros F S msg G. unfold install_link. unfold bind at 1, get_fs.
    rewrite F, S.
    unfold catch, bind, print, emit, http_get, bind, emit, raise. simpl.
    rewrite G. simpl. now rewrite <- !app_assoc.
  - intros F S r G St. unfold install_link. unfold bind at 1, get_fs.
    rewrite F, S.
    unfold catch, bind, print, emit, http_get, bind, emit, ret. simpl.
    rewrite G. simpl.
    destruct (Z.eqb_spec (status_code r) 200); [contradiction |].
    simpl. now rewrite <- !app_assoc.
  - intros F S r G St.
    destruct (store file_path (String.concat "" (chunks r))
                (World (fs w) (stdin w)
                   (trace w ++ [ downloading; HttpGet link; OpenWrite file_path ])))
      as [stored w1] eqn:Sto.
    exists stored, w1. split; [reflexivity |]. split.
    + subst src downloading file_path.
      unfold install_link. unfold bind at 1, get_fs. cbv beta iota.
      rewrite F, S.
      cbv beta iota delta [catch bind print emit http_get ret save_stream raise].
      rewrite G. cbv beta iota. rewrite St.
      change (Z.eqb 200 200) with true. cbv beta iota.
      cbn [fs stdin trace]. rewrite <- !app_assoc. cbn [app].
      rewrite Sto. unfold download_report.
      destruct stored as [[] | e]; [| reflexivity].
      destruct (broken r); reflexivity.
    + intros ->. apply store_spec in Sto. simpl in Sto.
      destruct Sto as [_ [_ [_ [[_ R] | [e [Bad _]]]]]];
        [exact R | discriminate].
  - intros F S. unfold install_link. unfold bind at 1, get_fs.
    rewrite F, S. reflexivity.
  - intros links. apply links_loop_total.
  - intros anchors R N w1 Mk.
    destruct (links_loop_total E (Path.join R "mods") (mod_links anchors) w1)
      as [w2 [L _]].
    assert (Eq : install_from_anchors E anchors R N w
                 = update_launcher_profiles E
                     (Path.join R "launcher_profiles.json") N (Path.str R)
                     ("Mods installed successfully! Launch Minecraft and select the '"
                      ++ N ++ "' profile.") w2).
    { unfold install_from_anchors, gather_mods.
      unfold bind at 1. unfold bind at 1. rewrite Mk, L. reflexivity. }
    exists w2. split; [exact L |]. split; [exact Eq |].
    destruct (update_launcher_profiles E
                (Path.join R "launcher_profiles.json") N (Path.str R)
                ("Mods installed successfully! Launch Minecraft and select the '"
                 ++ N ++ "' profile.") w2) as [r w3] eqn:U.
    destruct (update_starts _ _ _ _ _ _ _ _ U) as [tail T].
    exists r, w3, tail. split; [exact Eq | exact T].
Qed.

Lemma C5_links_are_fetched_one_by_one_witness :
  (wanted_suffix "ftp://h/c.zip" = true
   /\ FS.isfile (fs Sample.w0) (cwd Sample.E) "ftp://h/c.zip" = false
   /\ PyStr.startswith "ftp://h/c.zip" "http" = false)
  /\ install_link Sample.E [ "mc"; "mods" ] "ftp://h/c.zip" Sample.w0
     = (Val tt,
        World (fs Sample.w0) (stdin Sample.w0)
              (trace Sample.w0 ++ [ Print "Unsupported link type: ftp://h/c.zip" ]))
  /\ exists w',
       for_each [ "a.jar"; "http://h/b.zip"; "ftp://h/c.zip" ]
                (install_link Sample.E [ "mc"; "mods" ]) Sample.w0
       = (Val tt, w').
Proof.
  pose proof (C5_links_are_fetched_one_by_one Sample.E [ "mc"; "mods" ]
                "ftp://h/c.zip" Sample.w0 eq_refl) as H.
  cbv zeta in H.
  destruct H as (_ & _ & _ & _ & U & L & _).
  split; [repeat split; reflexivity |].
  split; [exact (U eq_refl eq_refl) |].
  destruct (L [ "a.jar"; "http://h/b.zip"; "ftp://h/c.zip" ]) as [w' [H _]].
  exists w'. exact H.
Defined.

(** C5 as the specification words it fails: [httpx://h/mod.jar] is
    collected, is
    no local file and no HTTP(S) URL, and it is not reported as
    unsupported: it starts with [http], so it is requested, and the
    failure of the request is what gets reported. *)
Lemma C5_counterexample :
  mod_links [ Some "httpx://h/mod.jar" ] = [ "httpx://h/mod.jar" ]
  /\ FS.isfile (fs Sample.w0) (cwd Sample.E) "httpx://h/mod.jar" = false
  /\ spec_is_http_url "httpx://h/mod.jar" = false
  /\ install_link Sample.E [ "mc"; "mods" ] "httpx://h/mod.jar" Sample.w0
     = (Val tt,
        World (fs Sample.w0) (stdin Sample.w0)
              [ Print "Downloading mod from httpx://h/mod.jar...";
                HttpGet "httpx://h/mod.jar";
                Print "Error downloading mod from httpx://h/mod.jar: No connection adapters were found" ])
  /\ ~ In (Print "Unsupported link type: httpx://h/mod.jar")
          (trace (snd (install_link Sample.E [ "mc"; "mods" ]
                         "httpx://h/mod.jar" Sample.w0))).
Proof.
  split; [reflexivity |]. split; [reflexivity |]. split; [reflexivity |].
  split; [vm_compute; reflexivity |].
  vm_compute. intros [H | [H | [H | []]]]; discriminate.
Qed.

(** ** Moves stay inside the instance directory *)

Lemma assoc_drop_other (x y : string) es :
  x <> y -> FS.assoc y (FS.drop x es) = FS.assoc y es.
Proof.
  intros D. induction es as [| [z m] es IH]; simpl; [reflexivity |].
  destruct (String.eqb_spec z x) as [-> | Dz]; simpl.
  - destruct (String.eqb_spec x y); congruence.
  - now rewrite IH.
Qed.

Lemma place_read_outside (ok : option node -> bool) (sub : node) (p : path) :
  forall n n' q,
    FS.place ok sub n p = Some n' -> Path.is_prefix p q = false ->
    FS.read n' q = FS.read n q.
Proof.
  induction p as [| x p IH]; intros [d | b | es] n' q; simpl; try discriminate.
  destruct p as [| z p].
  - destruct (ok (FS.assoc x es)); [| discriminate].
    intros H Out; inversion H; subst n'; clear H.
    destruct q as [| y q]; [reflexivity |]. rewrite !read_cons.
    simpl in Out. rewrite andb_true_r in Out.
    apply String.eqb_neq in Out. now rewrite assoc_put_other.
  - destruct (FS.assoc x es) as [c |] eqn:A; [| discriminate].
    destruct (FS.place ok sub c (z :: p)) as [c' |] eqn:Pl; [| discriminate].
    intros H Out; inversion H; subst n'; clear H.
    destruct q as [| y q]; [reflexivity |]. rewrite !read_cons.
    destruct (String.eqb_spec x y) as [<- | Dx].
    + rewrite assoc_put_same, A.
      exact (IH _ _ _ Pl Out).
    + now rewrite assoc_put_other.
Qed.

Lemma detach_read_outside (p : path) :
  forall n n' q,
    FS.detach n p = Some n' -> Path.is_prefix p q = false ->
    FS.read n' q = FS.read n q.
Proof.
  induction p as [| x p IH]; intros [d | b | es] n' q; simpl; try discriminate.
  destruct (FS.assoc x es) as [c |] eqn:A; [| discriminate].
  destruct p as [| z p].
  - intros H Out; inversion H; subst n'; clear H.
    destruct q as [| y q]; [reflexivity |]. rewrite !read_cons.
    simpl in Out. rewrite andb_true_r in Out.
    apply String.eqb_neq in Out. now rewrite assoc_drop_other.
  - destruct (FS.detach c (z :: p)) as [c' |] eqn:De; [| discriminate].
    intros H Out; inversion H; subst n'; clear H.
    destruct q as [| y q]; [reflexivity |]. rewrite !read_cons.
    destruct (String.eqb_spec x y) as [<- | Dx].
    + rewrite assoc_put_same, A.
      exact (IH _ _ _ De Out).
    + now rewrite assoc_put_other.
Qed.

Lemma rename_read_outside (n n' : node) (src dst q : path) :
  FS.rename n src dst = Some n' ->
  Path.is_prefix src q = false -> Path.is_prefix dst q = false ->
  FS.read n' q = FS.read n q.
Proof.
  unfold FS.rename. destruct (FS.lookup n src) as [sub |]; [| discriminate].
  destruct (FS.detach n src) as [n1 |] eqn:De; [| discriminate].
  intros Pl O1 O2.
  rewrite (place_read_outside _ _ _ _ _ _ Pl O2).
  exact (detach_read_outside _ _ _ _ De O1).
Qed.

(** A place outside [p] is outside everything below [p]. *)
Lemma outside_below (p r q : path) :
  Path.is_prefix p r = true -> Path.is_prefix p q = false ->
  Path.is_prefix r q = false.
Proof.
  intros Pr Out. destruct (Path.is_prefix r q) eqn:Rq; [| reflexivity].
  rewrite (is_prefix_trans _ _ _ Pr Rq) in Out. discriminate.
Qed.

Lemma rev_tl_rev (l : list string) : rev (tl (rev l)) = removelast l.
Proof.
  induction l as [| x l IH] using rev_ind; [reflexivity |].
  rewrite rev_app_distr. simpl. rewrite rev_involutive.
  now rewrite removelast_last.
Qed.

(** One more component: a step back or a step down. *)
Lemma resolve_snoc (p : path) (x : string) :
  Path.resolve (p ++ [ x ])
  = if String.eqb x ".." then removelast (Path.resolve p)
    else Path.resolve p ++ [ x ].
Proof.
  unfold Path.resolve.
  destruct (resolve_onto_app p [ x ] []) as [up' [H1 H2]].
  rewrite H2, H1. simpl. destruct (String.eqb x "..").
  - rewrite <- (rev_involutive up') at 1. apply rev_tl_rev.
  - reflexivity.
Qed.

(** Two components below [p], the first a plain name, stay below [p]. *)
Lemma two_below (p : path) (a x : string) :
  a <> ".." ->
  Path.is_prefix (Path.resolve p) (Path.resolve (p ++ [ a; x ])) = true.
Proof.
  intros D. change (p ++ [ a; x ]) with (p ++ [ a ] ++ [ x ]).
  rewrite app_assoc, resolve_snoc.
  rewrite (resolve_app p [ a ]) by now apply clean_one.
  destruct (String.eqb x "..").
  - rewrite removelast_last. apply is_prefix_refl.
  - rewrite <- app_assoc. apply is_prefix_app.
Qed.

Lemma three_below (p : path) (a b x : string) :
  a <> ".." -> b <> ".." ->
  Path.is_prefix (Path.resolve p) (Path.resolve (p ++ [ a; b; x ])) = true.
Proof.
  intros Da Db. change (p ++ [ a; b; x ]) with (p ++ [ a; b ] ++ [ x ]).
  rewrite app_assoc, resolve_snoc.
  rewrite (resolve_app p [ a; b ])
    by (intros y [<- | [<- | []]]; assumption).
  destruct (String.eqb x "..").
  - change (Path.resolve p ++ [ a; b ]) with (Path.resolve p ++ [ a ] ++ [ b ]).
    rewrite app_assoc, removelast_last. apply is_prefix_app.
  - rewrite <- app_assoc. apply is_prefix_app.
Qed.

Lemma shutil_move_file (q inside base : path) (rel : list string)
  (src dst : path) :
  Path.is_prefix inside q = false ->
  Path.is_prefix inside (Path.resolve src) = true ->
  Path.is_prefix inside (Path.resolve dst) = true ->
  Path.is_prefix inside (Path.resolve (dst ++ [ last src "" ])) = true ->
  respects (same_file q) (shutil_move base rel src dst).
Proof.
  intros Out Is Id Ir. unfold shutil_move.
  apply (respects_bind _ (same_file_trans q)); [apply emit_file | intros _].
  apply (respects_bind _ (same_file_trans q)); [apply reach_file | intros _].
  intros w r w'. unmonad. unfold same_file.
  destruct (FS.is_dir (fs w) (Path.resolve dst)); cbn [andb].
  - destruct (samefile (fs w) src dst); [intros H; inversion H; reflexivity |].
    destruct (FS.exists_ (fs w) _).
    + intros H; inversion H; reflexivity.
    + destruct (FS.rename (fs w) _ _) as [n' |] eqn:Rn;
        intros H; inversion H; simpl; [| reflexivity].
      eapply rename_read_outside; eauto using outside_below.
  - destruct (FS.rename (fs w) _ _) as [n' |] eqn:Rn;
      intros H; inversion H; simpl; [| reflexivity].
    eapply rename_read_outside; eauto using outside_below.
Qed.

Lemma move_items_file (q p base : path) (rel : list string) (a m b : string) :
  a <> ".." -> m <> ".." -> b <> ".." ->
  Path.is_prefix (Path.resolve p) q = false ->
  respects (same_file q)
    (move_items base rel (p ++ [ a ]) ((p ++ [ m ]) ++ [ b ])).
Proof.
  intros Da Dm Db Out. unfold move_items.
  rewrite <- (app_assoc p [ m ] [ b ]). cbn [app].
  respects_steps ltac:(first
    [ apply reach_file
    | apply shutil_move_file with (inside := Path.resolve p);
      [ exact Out
      | rewrite <- app_assoc; now apply two_below
      | rewrite (resolve_app p [ m; b ])
          by (intros y [<- | [<- | []]]; assumption);
        apply is_prefix_app
      | rewrite last_last, <- app_assoc; now apply three_below ] ]).
Qed.

(** Step 3 moves within the instance directory. *)
Lemma move_subfolders_file (minecraft_path : path) (pack_name : string)
  (q : path) :
  Path.is_prefix
    (Path.resolve (Path.join (Path.join minecraft_path "instances") pack_name)) q
  = false ->
  respects (same_file q) (move_subfolders minecraft_path pack_name).
Proof.
  intros Out. unfold move_subfolders, folder_exists.
  set (pid := Path.join (Path.join minecraft_path "instances") pack_name) in *.
  change (Path.join pid "mods") with (pid ++ [ "mods" ]).
  change (Path.join pid "config") with (pid ++ [ "config" ]).
  change (Path.join pid "libraries") with (pid ++ [ "libraries" ]).
  change (Path.join (Path.join pid "minecraft") "mods")
    with ((pid ++ [ "minecraft" ]) ++ [ "mods" ]).
  change (Path.join (Path.join pid "minecraft") "config")
    with ((pid ++ [ "minecraft" ]) ++ [ "config" ]).
  change (Path.join (Path.join pid "minecraft") "libraries")
    with ((pid ++ [ "minecraft" ]) ++ [ "libraries" ]).
  respects_steps ltac:(first
    [ apply mkdir_at_file
    | apply move_items_file; [discriminate | discriminate | discriminate | exact Out]
    | apply emit_file | unfold print; apply emit_file ]).
Qed.

(** Before the registry step the archive installer changes files of the
    instance directory only. *)
Lemma fetch_and_unpack_file (E : env) (pack_url : string)
  (minecraft_path : path) (pack_name : string) (q : path) :
  Path.is_prefix
    (Path.resolve (Path.join (Path.join minecraft_path "instances") pack_name)) q
  = false ->
  respects (same_file q) (fetch_and_unpack E pack_url minecraft_path pack_name).
Proof.
  intros Out. unfold fetch_and_unpack.
  respects_steps ltac:(first
    [ apply download_pack_file; exact Out
    | apply extract_pack_file; exact Out
    | apply move_subfolders_file; exact Out ]).
Qed.
(** ** The registry step on a file that is not JSON *)









(** ** The registry after a completed run, from the first state on *)



(** C1 as the specification words it fails: with the pack name [/mc] the
    instance directory is the game directory itself, and the archive
    carries a registry file of its own.  The run reaches its last line;
    the registry it leaves has lost the entry of the other pack and the
    setting, and its version number is 2 where it was 3. *)
Lemma C1_counterexample :
  Path.join (Path.join [ "mc" ] "instances") "/mc" = [ "mc" ]
  /\ registry_start Shadowed.E (fs Shadowed.w)
       [ "mc"; "launcher_profiles.json" ] = JObj Shadowed.before
  /\ exists w' d' ps',
       download_and_install_ftb_pack_from_link Shadowed.E "http://h/p.zip"
         [ "mc" ] "/mc" Shadowed.w = (Val Installed, w')
       /\ FS.read (fs w') [ "mc"; "launcher_profiles.json" ]
          = Some (json_dump Shadowed.E (JObj d'))
       /\ Dict.get d' "profiles" = Some (JObj ps')
       /\ Dict.keys ps' = [ "/mc" ]
       /\ Dict.get ps' "Other" = None
       /\ Dict.get Shadowed.before "profiles"
          = Some (JObj [ ("Other", profile_entry "Other" "1.7.10" "/mc") ])
       /\ Dict.get d' "settings" <> Dict.get Shadowed.before "settings"
       /\ Dict.get d' "version" = Some (JNum 2)
       /\ Dict.get Shadowed.before "version" = Some (JNum 3).
Proof.
  split; [reflexivity |]. split; [vm_compute; reflexivity |].
  eexists.
  exists [ ("profiles",
            JObj [ ("/mc", profile_entry "/mc" "1.12.2" "/mc/minecraft") ]);
           ("settings", JObj []); ("version", JNum 2) ].
  eexists.
  split; [vm_compute; reflexivity |].
  split; [vm_compute; reflexivity |].
  split; [reflexivity |].
  repeat split; try reflexivity. discriminate.
Qed.



(** C3 as the specification words it fails.  A registry file whose bytes
    are no text does not parse as JSON, and reading it raises
    [UnicodeDecodeError], which the script does not catch: both installers
    end there, the backup is not taken and the run does not continue.
    Nor does it continue when a directory has the name of the backup, or
    when no line is left to read for the version. *)
Lemma C3_counterexample :
  (FS.is_file (fs Undecodable.w) [ "mc"; "launcher_profiles.json" ] = true
   /\ FS.read (fs Undecodable.w) [ "mc"; "launcher_profiles.json" ] = None
   /\ (exists w',
          install_from_anchors Sample.E [ Some "notes.txt" ] [ "mc" ] "Pack"
            Undecodable.w = (Exc UnicodeDecodeError, w')
          /\ FS.read (fs w') [ "mc"; "launcher_profiles.json.bak" ]
             = Some "old"
          /\ FS.lookup (fs w') [ "mc"; "launcher_profiles.json" ]
             = FS.lookup (fs Undecodable.w) [ "mc"; "launcher_profiles.json" ])
   /\ (exists w',
          download_and_install_ftb_pack_from_link Sample.E "http://h/p.zip"
            [ "mc" ] "Pack" Undecodable.w = (Exc UnicodeDecodeError, w')
          /\ FS.read (fs w') [ "mc"; "launcher_profiles.json.bak" ]
             = Some "old"
          /\ FS.lookup (fs w') [ "mc"; "launcher_profiles.json" ]
             = FS.lookup (fs Undecodable.w)
                 [ "mc"; "launcher_profiles.json" ]))
  /\ (FS.read (fs Cluttered.no_room) [ "mc"; "launcher_profiles.json" ]
      = Some "{oops"
      /\ json_load Sample.E "{oops" = None
      /\ exists w',
           install_from_anchors Sample.E [ Some "notes.txt" ] [ "mc" ] "Pack"
             Cluttered.no_room
           = (Exc (IsADirectoryError [ "mc"; "launcher_profiles.json.bak" ]),
              w')
           /\ FS.read (fs w') [ "mc"; "launcher_profiles.json" ]
              = Some "{oops")
  /\ (exists w',
         install_from_anchors Sample.E [ Some "notes.txt" ] [ "mc" ] "Pack"
           (World (fs Sample.w_corrupt) [] []) = (Exc EOFError, w')
         /\ FS.read (fs w') [ "mc"; "launcher_profiles.json" ] = Some "{oops").
Proof.
  split; [| split].
  - split; [reflexivity |]. split; [reflexivity |]. split.
    + eexists. split; [vm_compute; reflexivity |]. split; reflexivity.
    + eexists. split; [vm_compute; reflexivity |]. split; reflexivity.
  - split; [reflexivity |]. split; [reflexivity |].
    eexists. split; [vm_compute; reflexivity | reflexivity].
  - eexists. split; [vm_compute; reflexivity | reflexivity].
Qed.

(** * Further properties of the script *)

(** ** The menu *)

Lemma input_eof (prompt : string) (w : world) :
  stdin w = [] ->
  input prompt w
  = (Exc EOFError, World (fs w) [] (trace w ++ [ Input prompt ])).
Proof.
  intros S. unfold input. unmonad. now rewrite S.
Qed.

Lemma bind_forget {A} (m : M A) (w : world) :
  bind m (fun _ => ret tt) w = forget (m w).
Proof. unfold bind, forget, ret. now destruct (m w) as [[a | e] w1]. Qed.

Ltac run_menu S :=
  unfold main; cbv beta iota delta [bind print emit input ret];
  cbn [fs stdin trace]; rewrite S; cbv beta iota; cbn [fs stdin trace].

Ltac flat_trace :=
  cbn [fs stdin trace]; unfold menu_events; rewrite <- ?app_assoc; cbn [app].

(** X1: whatever the first line is, the menu asks for the pack name too;
    a first line other than [1] and [2] is then answered with one message.
    The tree is as before, two lines are consumed and nothing but the
    console is used.  With fewer than two lines the second prompt or the
    first ends the menu with [EOFError], the tree again untouched. *)
Theorem X1_menu_other_choice :
  (forall E minecraft_path w choice pack_name rest,
      stdin w = choice :: pack_name :: rest ->
      choice <> "1" -> choice <> "2" ->
      main E minecraft_path w
      = (Val tt,
         World (fs w) rest
               (trace w ++ menu_events
                ++ [ Print "Invalid choice. Please choose again." ])))
  /\ (forall E minecraft_path w choice,
         stdin w = [ choice ] ->
         main E minecraft_path w
         = (Exc EOFError, World (fs w) [] (trace w ++ menu_events)))
  /\ (forall E minecraft_path w,
         stdin w = [] ->
         main E minecraft_path w
         = (Exc EOFError,
            World (fs w) []
                  (trace w ++
                   [ Print "Choose an installation method:";
                     Print "1. Install from a direct download link";
                     Print "2. Install from an HTML document";
                     Input "Enter your choice (1/2): " ]))).
Proof.
  split; [| split].
  - intros E R w choice pack_name rest S D1 D2. run_menu S.
    destruct (String.eqb_spec choice "1"); [contradiction |].
    destruct (String.eqb_spec choice "2"); [contradiction |].
    flat_trace. reflexivity.
  - intros E R w choice S. run_menu S. flat_trace. reflexivity.
  - intros E R w S. run_menu S. flat_trace. reflexivity.
Qed.

Lemma X1_menu_other_choice_witness :
  (stdin Sample.w0 = [ "1.12.2" ])
  /\ main Sample.E [ "mc" ] Sample.w0
     = (Exc EOFError,
        World (fs Sample.w0) [] (trace Sample.w0 ++ menu_events))
  /\ main Sample.E [ "mc" ]
          (World (fs Sample.w0) [ "3"; "Pack"; "left" ] [])
     = (Val tt,
        World (fs Sample.w0) [ "left" ]
              ([] ++ menu_events
               ++ [ Print "Invalid choice. Please choose again." ])).
Proof.
  split; [reflexivity |]. split.
  - exact (proj1 (proj2 X1_menu_other_choice) Sample.E [ "mc" ] Sample.w0
             "1.12.2" eq_refl).
  - apply (proj1 X1_menu_other_choice Sample.E [ "mc" ]
             (World (fs Sample.w0) [ "3"; "Pack"; "left" ] []) "3" "Pack"
             [ "left" ] eq_refl); discriminate.
Defined.

(** ** The scrape installer as a whole *)

Lemma gather_mods_stdin (E : env) (anchors : list (option string))
  (minecraft_path : path) :
  respects same_stdin (gather_mods E anchors minecraft_path).
Proof.
  unfold gather_mods.
  respects_steps ltac:(first [ apply mkdir_stdin | apply install_link_stdin ]).
Qed.

Lemma parse_html_stdin (E : env) (html_file_path : string) :
  respects same_stdin (parse_html E html_file_path).
Proof.
  unfold parse_html.
  respects_steps ltac:(first [ apply load_text_stdin | stdin_prim ]).
Qed.

Lemma html_run_inv (E : env) (html_file_path : string) (minecraft_path : path)
  (pack_name : string) (w w' : world) :
  download_and_install_ftb_pack_from_html E html_file_path minecraft_path
    pack_name w = (Val Installed, w') ->
  exists anchors w0 w1,
    parse_html E html_file_path w = (Val (Some anchors), w0)
    /\ gather_mods E anchors minecraft_path w0 = (Val tt, w1)
    /\ stdin w1 = stdin w
    /\ update_launcher_profiles E
         (Path.join minecraft_path "launcher_profiles.json") pack_name
         (Path.str minecraft_path)
         ("Mods installed successfully! Launch Minecraft and select the '"
          ++ pack_name ++ "' profile.") w1
       = (Val Installed, w').
Proof.
  unfold download_and_install_ftb_pack_from_html. intros H.
  apply bind_val_inv in H. destruct H as [[anchors |] [w0 [P H]]];
    [| discriminate].
  apply html_installed_inv in H. destruct H as [w1 [G U]].
  exists anchors, w0, w1. repeat split; auto.
  pose proof (parse_html_stdin E html_file_path w _ _ P) as S0.
  pose proof (gather_mods_stdin E anchors minecraft_path w0 _ _ G) as S1.
  unfold same_stdin in *. congruence.
Qed.

(** X3: after a run of the scrape installer that reaches its last line
    the registry file holds the document the registry step started from
    with the profile of the pack set: the fixed fields, the version typed
    at the prompt, and the game directory itself, not a directory of the
    pack, as [gameDir].  The name occurs once among the keys; the other
    profiles and the other members of the document are as they were. *)
Theorem X3_registry_after_scrape_install :
  forall E html_file_path minecraft_path pack_name w w',
    download_and_install_ftb_pack_from_html E html_file_path minecraft_path
      pack_name w = (Val Installed, w') ->
    let profiles_path := Path.join minecraft_path "launcher_profiles.json" in
    exists anchors w0 w1 version d ps d' ps',
      parse_html E html_file_path w = (Val (Some anchors), w0)
      /\ gather_mods E anchors minecraft_path w0 = (Val tt, w1)
      /\ stdin w = version :: stdin w'
      /\ registry_start E (fs w1) profiles_path = JObj d
      /\ Dict.get d "profiles" = Some (JObj ps)
      /\ FS.read (fs w') (Path.resolve profiles_path)
         = Some (json_dump E (JObj d'))
      /\ Dict.get d' "profiles" = Some (JObj ps')
      /\ Dict.get ps' pack_name
         = Some (JObj [ ("name", JStr pack_name);
                        ("type", JStr "custom");
                        ("created", JStr "2024-01-01T00:00:00.000Z");
                        ("lastUsed", JStr "2024-01-01T00:00:00.000Z");
                        ("icon", JStr "Furnace");
                        ("lastVersionId", JStr version);
                        ("javaDir", JStr "");
                        ("javaArgs", JStr "-Xmx4G");
                        ("gameDir", JStr (Path.str minecraft_path)) ])
      /\ count_occ string_dec (Dict.keys ps') pack_name = 1
      /\ (forall name, name <> pack_name -> Dict.get ps' name = Dict.get ps name)
      /\ (forall key, key <> "profiles" -> Dict.get d' key = Dict.get d key).
Proof.
  intros E html R N w w' H profiles_path.
  apply html_run_inv in H. destruct H as [anchors [w0 [w1 [P [G [S1 U]]]]]].
  apply update_writes in U.
  destruct U as [version [d [ps [S [Eq [Gp [_ [ND Rd]]]]]]]].
  exists anchors, w0, w1, version, d, ps. eexists. eexists.
  split; [exact P |]. split; [exact G |]. split; [congruence |].
  split; [exact Eq |]. split; [exact Gp |]. split; [exact Rd |].
  split; [apply get_set_same |]. split; [apply get_set_same |].
  split.
  { apply NoDup_count_one; [now apply keys_set_NoDup | apply keys_set_In]. }
  split; [intros name D; now apply get_set_other |].
  intros key D. now apply get_set_other.
Qed.

Lemma X3_registry_after_scrape_install_witness :
  download_and_install_ftb_pack_from_html Sample.E "page.html" [ "mc" ] "Pack"
    Sample.w0
  = (Val Installed,
     snd (download_and_install_ftb_pack_from_html Sample.E "page.html" [ "mc" ]
            "Pack" Sample.w0))
  /\ exists ps',
       Dict.get ps' "Pack" = Some (profile_entry "Pack" "1.12.2" "/mc")
       /\ count_occ string_dec (Dict.keys ps') "Pack" = 1.
Proof.
  assert (H : download_and_install_ftb_pack_from_html Sample.E "page.html"
                [ "mc" ] "Pack" Sample.w0
              = (Val Installed,
                 snd (download_and_install_ftb_pack_from_html Sample.E
                        "page.html" [ "mc" ] "Pack" Sample.w0)))
    by (vm_compute; reflexivity).
  split; [exact H |].
  destruct (X3_registry_after_scrape_install Sample.E "page.html" [ "mc" ]
              "Pack" Sample.w0 _ H)
    as (anchors & w0 & w1 & version & d & ps & d' & ps' & _ & _ & S & _ & _
        & _ & _ & G & C & _).
  exists ps'. vm_compute in S. inversion S. subst version.
  split; [exact G | exact C].
Defined.

Ltac flat_menu :=
  cbn [fs stdin trace]; unfold menu_events, link_prompt_events;
  rewrite <- ?app_assoc; cbn [app].

(** X2: the menu hands the second line to the installer as the pack name
    and the third as the link (choice [1]) or as the path of the page
    (choice [2]), with the resolved game directory; the installer starts
    on the lines that are left.  The profile of a completed installation
    is therefore keyed by the second line and carries the fourth as its
    version. *)
Theorem X2_menu_dispatch :
  (forall E minecraft_path w pack_name pack_url rest,
      stdin w = "1" :: pack_name :: pack_url :: rest ->
      let started :=
        World (fs w) rest (trace w ++ menu_events ++ link_prompt_events) in
      main E minecraft_path w
      = forget (download_and_install_ftb_pack_from_link E pack_url
                  minecraft_path pack_name started)
      /\ forall w',
           download_and_install_ftb_pack_from_link E pack_url minecraft_path
             pack_name started = (Val Installed, w') ->
           main E minecraft_path w = (Val tt, w')
           /\ exists version d ps,
                rest = version :: stdin w'
                /\ FS.read (fs w')
                     (Path.resolve
                        (Path.join minecraft_path "launcher_profiles.json"))
                   = Some (json_dump E (JObj d))
                /\ Dict.get d "profiles" = Some (JObj ps)
                /\ Dict.get ps pack_name
                   = Some (profile_entry pack_name version
                             (Path.str
                                (Path.join
                                   (Path.join
                                      (Path.join minecraft_path "instances")
                                      pack_name) "minecraft"))))
  /\ (forall E minecraft_path w pack_name html_file_path rest,
         stdin w = "2" :: pack_name :: html_file_path :: rest ->
         let started :=
           World (fs w) rest
                 (trace w ++ menu_events
                  ++ [ Input "Input the path to the local HTML file: " ]) in
         main E minecraft_path w
         = forget (download_and_install_ftb_pack_from_html E html_file_path
                     minecraft_path pack_name started)
         /\ forall w',
              download_and_install_ftb_pack_from_html E html_file_path
                minecraft_path pack_name started = (Val Installed, w') ->
              main E minecraft_path w = (Val tt, w')
              /\ exists version d ps,
                   rest = version :: stdin w'
                   /\ FS.read (fs w')
                        (Path.resolve
                           (Path.join minecraft_path "launcher_profiles.json"))
                      = Some (json_dump E (JObj d))
                   /\ Dict.get d "profiles" = Some (JObj ps)
                   /\ Dict.get ps pack_name
                      = Some (profile_entry pack_name version
                                (Path.str minecraft_path))).
Proof.
  split.
  - intros E R w pack_name pack_url rest S started.
    assert (Eq : main E R w
                 = forget (download_and_install_ftb_pack_from_link E pack_url
                             R pack_name started)).
    { subst started. run_menu S. change (String.eqb "1" "1") with true.
      cbv beta iota. flat_menu. unfold forget.
      now destruct (download_and_install_ftb_pack_from_link _ _ _ _ _)
        as [[a | e] w1]. }
    split; [exact Eq |]. intros w' H. split; [now rewrite Eq, H |].
    apply link_installed_inv in H. destruct H as [w1 [F U]].
    pose proof (fetch_and_unpack_stdin E pack_url R pack_name _ _ _ F) as S1.
    apply update_writes in U.
    destruct U as [version [d [ps [Sv [_ [_ [_ [_ Rd]]]]]]]].
    exists version. eexists. eexists.
    split; [unfold same_stdin in S1; simpl in S1; congruence |].
    split; [exact Rd |]. split; apply get_set_same.
  - intros E R w pack_name html rest S started.
    assert (Eq : main E R w
                 = forget (download_and_install_ftb_pack_from_html E html
                             R pack_name started)).
    { subst started. run_menu S. change (String.eqb "2" "1") with false.
      change (String.eqb "2" "2") with true.
      cbv beta iota. flat_menu. unfold forget.
      now destruct (download_and_install_ftb_pack_from_html _ _ _ _ _)
        as [[a | e] w1]. }
    split; [exact Eq |]. intros w' H. split; [now rewrite Eq, H |].
    apply html_run_inv in H. destruct H as [anchors [w0 [w1 [_ [_ [S1 U]]]]]].
    apply update_writes in U.
    destruct U as [version [d [ps [Sv [_ [_ [_ [_ Rd]]]]]]]].
    exists version. eexists. eexists.
    split; [simpl in S1; congruence |].
    split; [exact Rd |]. split; apply get_set_same.
Qed.

Lemma X2_menu_dispatch_witness :
  main Sample.E [ "mc" ]
       (World (fs Sample.w0) [ "1"; "Pack"; "http://h/p.zip"; "1.12.2" ] [])
  = forget (download_and_install_ftb_pack_from_link Sample.E "http://h/p.zip"
              [ "mc" ] "Pack"
              (World (fs Sample.w0) [ "1.12.2" ]
                     ([] ++ menu_events ++ link_prompt_events)))
  /\ exists w' d ps,
       main Sample.E [ "mc" ]
            (World (fs Sample.w0) [ "2"; "Pack"; "page.html"; "1.12.2" ] [])
       = (Val tt, w')
       /\ FS.read (fs w')
            (Path.resolve (Path.join [ "mc" ] "launcher_profiles.json"))
          = Some (json_dump Sample.E (JObj d))
       /\ Dict.get d "profiles" = Some (JObj ps)
       /\ Dict.get ps "Pack" = Some (profile_entry "Pack" "1.12.2" "/mc").
Proof.
  split.
  - exact (proj1 (proj1 X2_menu_dispatch Sample.E [ "mc" ]
                    (World (fs Sample.w0)
                           [ "1"; "Pack"; "http://h/p.zip"; "1.12.2" ] [])
                    "Pack" "http://h/p.zip" [ "1.12.2" ] eq_refl)).
  - pose proof (proj2 X2_menu_dispatch Sample.E [ "mc" ]
                  (World (fs Sample.w0)
                         [ "2"; "Pack"; "page.html"; "1.12.2" ] [])
                  "Pack" "page.html" [ "1.12.2" ] eq_refl) as K.
    cbv zeta in K. destruct K as [_ K].
    match type of K with
    | forall w', ?run = _ -> _ =>
        assert (H : run = (Val Installed, snd run))
          by (vm_compute; reflexivity);
        destruct (K _ H) as (M & version & d & ps & S & R & P & G)
    end.
    eexists. exists d, ps. split; [exact M |].
    split; [exact R |]. split; [exact P |].
    vm_compute in S. inversion S. subst version. exact G.
Defined.

(** ** The registry step, whatever its outcome *)

Lemma input_file (q : path) (prompt : string) :
  respects (same_file q) (input prompt).
Proof.
  intros w r w' H. unfold input in H. unmonad.
  destruct (stdin w); inversion H; reflexivity.
Qed.

Lemma copyfile_file (q src dst : path) :
  q <> Path.resolve dst -> respects (same_file q) (copyfile src dst).
Proof.
  intros D w r w' H. apply copyfile_spec in H.
  destruct H as [_ [Fr _]]. now apply Fr.
Qed.

Lemma read_registry_file (E : env) (p q : path) :
  q <> Path.resolve (Path.add_suffix p ".bak") ->
  respects (same_file q) (read_registry E p).
Proof.
  intros D. unfold read_registry.
  respects_steps ltac:(first [ apply load_file | apply copyfile_file; exact D
                             | apply emit_file
                             | unfold print; apply emit_file ]).
Qed.

Lemma update_file (E : env) (p q : path) (pack_name game_dir closing : string) :
  q <> Path.resolve p ->
  q <> Path.resolve (Path.add_suffix p ".bak") ->
  respects (same_file q)
    (update_launcher_profiles E p pack_name game_dir closing).
Proof.
  intros D1 D2. unfold update_launcher_profiles.
  respects_steps ltac:(first [ apply read_registry_file; exact D2
                             | apply input_file
                             | apply store_file; exact D1
                             | apply emit_file
                             | unfold print; apply emit_file ]).
Qed.

(** A registry file that is missing or parses is read without a change
    to the tree. *)
Lemma read_registry_sound (E : env) (p : path) (w : world) (r : result json)
  (w1 : world) :
  (forall data, FS.read (fs w) (Path.resolve p) = Some data ->
                json_load E data <> None) ->
  read_registry E p w = (r, w1) -> fs w1 = fs w.
Proof.
  intros Ok. unfold read_registry, catch, bind.
  destruct (load p w) as [[data | e] w0] eqn:L;
    destruct (load_spec _ _ _ _ L) as [-> [Rd Er]].
  - destruct (json_load E data) eqn:J.
    + intros H. inversion H. reflexivity.
    + exfalso. apply (Ok data); [now apply Rd | exact J].
  - destruct (Er e eq_refl) as [-> | [-> | [-> | [-> _]]]]; intros H;
      inversion H; reflexivity.
Qed.

Lemma update_keeps_backup (E : env) (p q : path)
  (pack_name game_dir closing : string) (w : world) (r : result outcome)
  (w' : world) :
  q <> Path.resolve p ->
  (forall data, FS.read (fs w) (Path.resolve p) = Some data ->
                json_load E data <> None) ->
  update_launcher_profiles E p pack_name game_dir closing w = (r, w') ->
  FS.read (fs w') q = FS.read (fs w) q.
Proof.
  intros D Ok H. unfold update_launcher_profiles in H.
  apply bind_inv in H. destruct H as [[[] [w0 [P H]]] | [e [P _]]].
  2:{ rewrite print_run in P. discriminate P. }
  rewrite print_run in P. inversion P. subst w0. clear P.
  apply bind_inv in H. destruct H as [[doc [w1 [Rg H]]] | [e [Rg _]]].
  2:{ apply read_registry_sound in Rg; [| exact Ok]. simpl in Rg.
      now rewrite Rg. }
  apply read_registry_sound in Rg; [| exact Ok]. simpl in Rg.
  rewrite <- Rg. revert H.
  generalize w1 r w'. change (respects (same_file q)
    (profile_version <- input "Input Minecraft version for modpack: " ;;
     profiles_data' <-
       lift (insert_profile doc pack_name
               (profile_entry pack_name profile_version game_dir)) ;;
     written <-
       catch (emit (OpenWrite p) ;;
              store p (json_dump E profiles_data') ;;
              ret true)
             (fun e =>
                print ("Error writing to launcher_profiles.json: " ++ exn_text e) ;;
                ret false) ;;
     if written : bool then print closing ;; ret Installed else ret GaveUp)).
  respects_steps ltac:(first [ apply input_file
                             | apply store_file; exact D
                             | apply emit_file
                             | unfold print; apply emit_file ]).
Qed.

(** X4: however the registry step ends, by its last line, by the early
    return or by an exception, every regular file other than the registry
    and its backup is as before; and the backup too is as before unless
    the registry file held a text that is not JSON. *)
Theorem X4_registry_step_touches_two_files :
  forall E minecraft_path pack_name game_dir closing w r w',
    update_launcher_profiles E
      (Path.join minecraft_path "launcher_profiles.json") pack_name game_dir
      closing w = (r, w') ->
    (forall q,
        q <> Path.resolve (Path.join minecraft_path "launcher_profiles.json") ->
        q <> Path.resolve (minecraft_path ++ [ "launcher_profiles.json.bak" ]) ->
        FS.read (fs w') q = FS.read (fs w) q)
    /\ ((forall data,
            FS.read (fs w)
              (Path.resolve (Path.join minecraft_path "launcher_profiles.json"))
            = Some data ->
            json_load E data <> None) ->
        FS.read (fs w')
          (Path.resolve (minecraft_path ++ [ "launcher_profiles.json.bak" ]))
        = FS.read (fs w)
            (Path.resolve (minecraft_path ++ [ "launcher_profiles.json.bak" ]))).
Proof.
  intros E R N G C w r w' H. split.
  - intros q D1 D2. rewrite <- backup_path_eq in D2.
    exact (update_file E _ q N G C D1 D2 _ _ _ H).
  - intros Ok. rewrite <- backup_path_eq.
    exact (update_keeps_backup E _ _ N G C w r w' (backup_elsewhere R) Ok H).
Qed.

Lemma X4_registry_step_touches_two_files_witness :
  (forall data,
      FS.read (fs Sample.w_registry)
        (Path.resolve (Path.join [ "mc" ] "launcher_profiles.json"))
      = Some data ->
      json_load Sample.E data <> None)
  /\ (let w' :=
        snd (update_launcher_profiles Sample.E
               (Path.join [ "mc" ] "launcher_profiles.json") "Pack" "/mc"
               "done" Sample.w_registry) in
      FS.read (fs w') [ "home"; "a.jar" ]
      = FS.read (fs Sample.w_registry) [ "home"; "a.jar" ]
      /\ FS.read (fs w')
           (Path.resolve ([ "mc" ] ++ [ "launcher_profiles.json.bak" ]))
         = FS.read (fs Sample.w_registry)
             (Path.resolve ([ "mc" ] ++ [ "launcher_profiles.json.bak" ]))).
Proof.
  assert (Ok : forall data,
             FS.read (fs Sample.w_registry)
               (Path.resolve (Path.join [ "mc" ] "launcher_profiles.json"))
             = Some data ->
             json_load Sample.E data <> None).
  { intros data Rd. vm_compute in Rd. inversion Rd. discriminate. }
  split; [exact Ok |]. cbv zeta.
  destruct (X4_registry_step_touches_two_files Sample.E [ "mc" ] "Pack" "/mc"
              "done" Sample.w_registry _ _ (surjective_pairing _))
    as [Fr Bk].
  split.
  - apply Fr; intros Q; vm_compute in Q; discriminate Q.
  - exact (Bk Ok).
Defined.

(** ** The registry file is missing *)

Lemma lookup_absent (n : node) (q : path) :
  FS.exists_ n q = false -> FS.lookup n q = None.
Proof.
  unfold FS.exists_. now destruct (FS.lookup n q).
Qed.

Lemma is_dir_absent (n : node) (q : path) :
  FS.exists_ n q = false -> FS.is_dir n q = false.
Proof.
  intros H. unfold FS.is_dir. now rewrite (lookup_absent _ _ H).
Qed.

(** X5: when nothing stands at the registry path, the step starts from
    the default document without a message about decoding and without a
    backup: one line is read as the version, and the file is created with
    the default document and the one profile.  When the file cannot be
    created, its directory being absent, the error is reported, the
    installer returns early, and the tree is as before. *)
Theorem X5_missing_registry_is_created :
  forall E minecraft_path pack_name game_dir closing w version rest,
    let p := Path.join minecraft_path "launcher_profiles.json" in
    let text :=
      json_dump E
        (JObj [ ("profiles",
                 JObj [ (pack_name,
                         profile_entry pack_name version game_dir) ]);
                ("settings", JObj []);
                ("version", JNum 2) ]) in
    let asked :=
      [ Print "Updating launcher profile...";
        OpenRead p;
        Input "Input Minecraft version for modpack: ";
        OpenWrite p ] in
    FS.exists_ (fs w) (Path.resolve p) = false ->
    FS.under_file (fs w) (Path.resolve p) = false ->
    stdin w = version :: rest ->
    update_launcher_profiles E p pack_name game_dir closing w
    = match FS.write (fs w) (Path.resolve p) text with
      | Some n' =>
          (Val Installed,
           World n' rest (trace w ++ asked ++ [ Print closing ]))
      | None =>
          (Val GaveUp,
           World (fs w) rest
                 (trace w ++ asked
                  ++ [ Print ("Error writing to launcher_profiles.json: "
                              ++ exn_text (FileNotFoundError p)) ]))
      end.
Proof.
  intros E R N G C w version rest p text asked Ex Un S.
  pose proof (lookup_absent _ _ Ex) as Lk.
  pose proof (is_dir_absent _ _ Ex) as Di.
  unfold update_launcher_profiles, read_registry, load, load_node, found,
    store, input.
  cbv beta iota delta [bind catch print emit get_fs set_fs ret raise lift].
  cbn [fs stdin trace]. fold p. rewrite Lk, Un. cbv beta iota.
  cbn [fs stdin trace]. rewrite S. cbv beta iota. cbn [fs stdin trace].
  unfold default_registry, insert_profile. cbn [Dict.get Dict.set String.eqb
    Ascii.eqb Bool.eqb]. cbv beta iota. cbn [fs stdin trace]. fold text.
  destruct (FS.write (fs w) (Path.resolve p) text) as [n' |] eqn:W;
    cbv beta iota; cbn [fs stdin trace].
  - subst asked. rewrite <- !app_assoc. reflexivity.
  - rewrite Di, Un. cbv beta iota. cbn [fs stdin trace].
    subst asked. rewrite <- !app_assoc. reflexivity.
Qed.

Lemma X5_missing_registry_is_created_witness :
  (FS.exists_ (fs Sample.w_http_file)
     (Path.resolve (Path.join [ "mc" ] "launcher_profiles.json")) = false
   /\ FS.under_file (fs Sample.w_http_file)
        (Path.resolve (Path.join [ "mc" ] "launcher_profiles.json")) = false
   /\ stdin Sample.w_http_file = [ "1.12.2" ])
  /\ fst (update_launcher_profiles Sample.E
            (Path.join [ "mc" ] "launcher_profiles.json") "Pack" "/mc" "done"
            Sample.w_http_file) = Val Installed
  /\ fst (update_launcher_profiles Sample.E
            (Path.join [ "mc" ] "launcher_profiles.json") "Pack" "/mc" "done"
            Sample.w0) = Val GaveUp.
Proof.
  split; [repeat split |]. split.
  - pose proof (X5_missing_registry_is_created Sample.E [ "mc" ] "Pack" "/mc"
                  "done" Sample.w_http_file "1.12.2" [] eq_refl eq_refl
                  eq_refl) as H.
    cbv zeta in H. rewrite H. vm_compute. reflexivity.
  - pose proof (X5_missing_registry_is_created Sample.E [ "mc" ] "Pack" "/mc"
                  "done" Sample.w0 "1.12.2" [] eq_refl eq_refl eq_refl) as H.
    cbv zeta in H. rewrite H. vm_compute. reflexivity.
Defined.

(** ** A registry the step cannot use *)

(** X6: a registry that parses to something other than an object with an
    object under [profiles] ends the step with the exception of the
    assignment, [KeyError] when the key [profiles] is missing and
    [TypeError] otherwise.  By then the version has been asked for and one
    line consumed; the file is neither rewritten nor backed up. *)
Theorem X6_registry_without_profiles :
  forall E p pack_name game_dir closing w data raw version rest,
    FS.read (fs w) (Path.resolve p) = Some data ->
    json_load E data = Some raw ->
    stdin w = version :: rest ->
    (forall d ps, as_python raw = JObj d ->
                  Dict.get d "profiles" <> Some (JObj ps)) ->
    exists e,
      update_launcher_profiles E p pack_name game_dir closing w
      = (Exc e,
         World (fs w) rest
               (trace w ++
                [ Print "Updating launcher profile...";
                  OpenRead p;
                  Input "Input Minecraft version for modpack: " ]))
      /\ (e = KeyError "profiles" \/ e = TypeError)
      /\ (e = KeyError "profiles" <->
          exists d, as_python raw = JObj d /\ Dict.get d "profiles" = None).
Proof.
  intros E p N G C w data raw version rest Rd J S Bad.
  assert (Lk : FS.lookup (fs w) (Path.resolve p) = Some (File data)).
  { unfold FS.read in Rd.
    destruct (FS.lookup (fs w) (Path.resolve p)) as [[d | b | es] |];
      congruence. }
  assert (Run : forall e,
             insert_profile (as_python raw) N (profile_entry N version G)
             = Exc e ->
             update_launcher_profiles E p N G C w
             = (Exc e,
                World (fs w) rest
                      (trace w ++
                       [ Print "Updating launcher profile...";
                         OpenRead p;
                         Input "Input Minecraft version for modpack: " ]))).
  { intros e I.
    unfold update_launcher_profiles, read_registry, load, load_node, found,
      decoded, input.
    cbv beta iota delta [bind catch print emit get_fs set_fs ret raise lift].
    cbn [fs stdin trace]. rewrite Lk. cbv beta iota. rewrite J.
    cbv beta iota. cbn [fs stdin trace]. rewrite S. cbv beta iota.
    cbn [fs stdin trace]. rewrite I. cbv beta iota.
    rewrite <- !app_assoc. reflexivity. }
  unfold insert_profile in Run.
  destruct (as_python raw) as [| b | n | s | items | d] eqn:P;
    try (exists TypeError; split; [now apply Run |];
         split; [now right |];
         split; [discriminate | intros [d [Q _]]; discriminate Q]).
  destruct (Dict.get d "profiles") as [v |] eqn:Gt.
  - exists TypeError.
    assert (T : match v with
                | JObj ps =>
                    Val (JObj (Dict.set d "profiles"
                                 (JObj (Dict.set ps N
                                          (profile_entry N version G)))))
                | _ => Exc TypeError
                end = Exc TypeError).
    { destruct v; try reflexivity. exfalso. now apply (Bad d fields). }
    split; [now apply Run |]. split; [now right |].
    split; [discriminate |].
    intros [d' [Q Gn]]. inversion Q. subst d'. congruence.
  - exists (KeyError "profiles"). split; [now apply Run |].
    split; [now left |]. split; [| reflexivity].
    intros _. now exists d.
Qed.

Lemma X6_registry_without_profiles_witness :
  (FS.read (fs Sample.w_registry)
     (Path.resolve (Path.join [ "mc" ] "launcher_profiles.json")) = Some "{}"
   /\ json_load Sample.E "{}" = Some (JObj [])
   /\ stdin Sample.w_registry = [ "1.12.2" ])
  /\ update_launcher_profiles Sample.E
       (Path.join [ "mc" ] "launcher_profiles.json") "Pack" "/mc" "done"
       Sample.w_registry
     = (Exc (KeyError "profiles"),
        World (fs Sample.w_registry) []
              (trace Sample.w_registry ++
               [ Print "Updating launcher profile...";
                 OpenRead (Path.join [ "mc" ] "launcher_profiles.json");
                 Input "Input Minecraft version for modpack: " ])).
Proof.
  split; [repeat split |].
  destruct (X6_registry_without_profiles Sample.E
              (Path.join [ "mc" ] "launcher_profiles.json") "Pack" "/mc"
              "done" Sample.w_registry "{}" (JObj []) "1.12.2" [] eq_refl
              eq_refl eq_refl)
    as [e [Run [_ [_ K]]]].
  - intros d ps Q. inversion Q. discriminate.
  - rewrite Run. rewrite (K (ex_intro _ [] (conj eq_refl eq_refl))).
    reflexivity.
Defined.

(** ** A registry path that cannot be opened *)

Lemma under_file_absent (n : node) (q : path) :
  FS.under_file n q = true -> FS.lookup n q = None.
Proof.
  revert n. induction q as [| x q IH]; intros n H; [discriminate H |].
  destruct n as [d | b | es]; [reflexivity | reflexivity |]. simpl in *.
  destruct (FS.assoc x es) as [c |]; [now apply IH | reflexivity].
Qed.

(** X7: only a missing file and a text that is not JSON are handled when
    the registry is read.  A directory at the registry path, or a regular
    file above it, ends the step with the error of [open] before anything
    is asked: no line is consumed and the tree is as before. *)
Theorem X7_unreadable_registry_propagates :
  forall E p pack_name game_dir closing w,
    (FS.is_dir (fs w) (Path.resolve p) = true ->
     update_launcher_profiles E p pack_name game_dir closing w
     = (Exc (IsADirectoryError p),
        World (fs w) (stdin w)
              (trace w ++ [ Print "Updating launcher profile..."; OpenRead p ])))
    /\ (FS.under_file (fs w) (Path.resolve p) = true ->
        update_launcher_profiles E p pack_name game_dir closing w
        = (Exc (NotADirectoryError p),
           World (fs w) (stdin w)
                 (trace w ++
                  [ Print "Updating launcher profile..."; OpenRead p ]))).
Proof.
  intros E p N G C w. split; intros H.
  - unfold FS.is_dir in H.
    destruct (FS.lookup (fs w) (Path.resolve p)) as [[d | b | es] |] eqn:Lk;
      try discriminate H.
    unfold update_launcher_profiles, read_registry, load, load_node, found.
    cbv beta iota delta [bind catch print emit get_fs set_fs ret raise lift].
    cbn [fs stdin trace]. rewrite Lk. cbv beta iota.
    rewrite <- !app_assoc. reflexivity.
  - pose proof (under_file_absent _ _ H) as Lk.
    unfold update_launcher_profiles, read_registry, load, load_node, found.
    cbv beta iota delta [bind catch print emit get_fs set_fs ret raise lift].
    cbn [fs stdin trace]. rewrite Lk, H. cbv beta iota.
    rewrite <- !app_assoc. reflexivity.
Qed.

Lemma X7_unreadable_registry_propagates_witness :
  FS.is_dir (fs Sample.w_http_file)
    (Path.resolve (Path.join [ "mc" ] "mods")) = true
  /\ FS.under_file (fs Sample.w_blocked)
       (Path.resolve (Path.join [ "mc"; "instances" ] "launcher_profiles.json"))
     = true
  /\ fst (update_launcher_profiles Sample.E (Path.join [ "mc" ] "mods") "Pack"
            "/mc" "done" Sample.w_http_file)
     = Exc (IsADirectoryError (Path.join [ "mc" ] "mods"))
  /\ fst (update_launcher_profiles Sample.E
            (Path.join [ "mc"; "instances" ] "launcher_profiles.json") "Pack"
            "/mc" "done" Sample.w_blocked)
     = Exc (NotADirectoryError
              (Path.join [ "mc"; "instances" ] "launcher_profiles.json")).
Proof.
  split; [reflexivity |]. split; [reflexivity |]. split.
  - rewrite (proj1 (X7_unreadable_registry_propagates Sample.E
                      (Path.join [ "mc" ] "mods") "Pack" "/mc" "done"
                      Sample.w_http_file) eq_refl).
    reflexivity.
  - rewrite (proj2 (X7_unreadable_registry_propagates Sample.E
                      (Path.join [ "mc"; "instances" ]
                         "launcher_profiles.json") "Pack" "/mc" "done"
                      Sample.w_blocked) eq_refl).
    reflexivity.
Defined.

(** ** What the archive installer leaves alone *)

(** X8: however a run of the archive installer ends, a regular file that
    lies neither in the pack's instance directory nor at the place of the
    registry or of its backup is as it was before the run, and no such
    file has appeared: downloading, unpacking (whatever the member names
    of the archive) and moving stay inside the instance directory. *)
Theorem X8_archive_installer_confined :
  forall E pack_url minecraft_path pack_name q w r w',
    Path.is_prefix
      (Path.resolve
         (Path.join (Path.join minecraft_path "instances") pack_name)) q
    = false ->
    q <> Path.resolve (Path.join minecraft_path "launcher_profiles.json") ->
    q <> Path.resolve (minecraft_path ++ [ "launcher_profiles.json.bak" ]) ->
    download_and_install_ftb_pack_from_link E pack_url minecraft_path
      pack_name w = (r, w') ->
    FS.read (fs w') q = FS.read (fs w) q.
Proof.
  intros E url R N q w r w' Out D1 D2. rewrite <- backup_path_eq in D2.
  revert w r w'.
  change (respects (same_file q)
            (download_and_install_ftb_pack_from_link E url R N)).
  unfold download_and_install_ftb_pack_from_link.
  respects_steps ltac:(first [ apply fetch_and_unpack_file; exact Out
                             | apply update_file; [exact D1 | exact D2]
                             | apply emit_file
                             | unfold print; apply emit_file ]).
Qed.

Lemma X8_archive_installer_confined_witness :
  let run :=
    download_and_install_ftb_pack_from_link Sample.E "http://h/p.zip" [ "mc" ]
      "Pack" Sample.w0 in
  fst run = Val Installed
  /\ FS.read (fs (snd run)) [ "home"; "a.jar" ]
     = FS.read (fs Sample.w0) [ "home"; "a.jar" ]
  /\ FS.read (fs (snd run)) [ "mc"; "mods"; "a.jar" ]
     = FS.read (fs Sample.w0) [ "mc"; "mods"; "a.jar" ].
Proof.
  cbv zeta. split; [vm_compute; reflexivity |].
  pose proof (fun q Out D1 D2 =>
                X8_archive_installer_confined Sample.E "http://h/p.zip"
                  [ "mc" ] "Pack" q Sample.w0 _ _ Out D1 D2
                  (surjective_pairing _)) as K.
  split; apply K; try reflexivity; intros Q; vm_compute in Q; discriminate Q.
Defined.

(** ** The page of the scrape installer *)

(** What opening the page gives: its text, or the error of [open] or of
    the decoding. *)
Lemma load_text_spec (E : env) (s : string) (w : world) :
  let page := Path.join (cwd E) s in
  let opened := World (fs w) (stdin w) (trace w ++ [ OpenRead page ]) in
  match FS.text_at (fs w) (cwd E) s with
  | Some data => load_text E s w = (Val data, opened)
  | None =>
      exists e,
        (e = IsADirectoryError page \/ e = NotADirectoryError page
         \/ e = FileNotFoundError page \/ e = UnicodeDecodeError)
        /\ load_text E s w = (Exc e, opened)
  end.
Proof.
  intros page opened. unfold FS.text_at, FS.reachable, FS.read, load_text.
  fold page. rewrite (bind_run _ _ _ _ _ (emit_run (OpenRead page) w)).
  fold opened. unfold reach_text, reach, found, decoded.
  destruct s as [| c s'].
  { cbv iota. exists (FileNotFoundError page). split; [tauto | reflexivity]. }
  cbv iota. set (s := String c s') in *.
  set (rel := PyStr.split "/" s). set (st := FS.start (cwd E) s).
  clearbody rel st page. subst opened. unmonad.
  destruct (FS.locate (fs w) st rel) as [[|] | t].
  - exists (FileNotFoundError page). split; [tauto | reflexivity].
  - exists (NotADirectoryError page). split; [tauto | reflexivity].
  - cbn [fs stdin trace].
    destruct (FS.lookup (fs w) (Path.resolve page)) as [[d | b | es] |].
    + reflexivity.
    + exists UnicodeDecodeError. split; [tauto | reflexivity].
    + exists (IsADirectoryError page). split; [tauto | reflexivity].
    + destruct (FS.under_file (fs w) (Path.resolve page)).
      * exists (NotADirectoryError page). split; [tauto | reflexivity].
      * exists (FileNotFoundError page). split; [tauto | reflexivity].
Qed.

(** X9: the scrape installer opens the page as its name is written, from
    the working directory.  A page that cannot be read, or that the
    parser refuses, is answered with one message and the early return:
    the tree and the console input are as before, no directory is made
    and the registry is not touched.  Otherwise the rest of the installer
    runs on the hyperlinks of the page. *)
Theorem X9_unparsed_page_no_effect :
  forall E html_file_path minecraft_path pack_name w,
    let page := Path.join (cwd E) html_file_path in
    let run :=
      download_and_install_ftb_pack_from_html E html_file_path minecraft_path
        pack_name w in
    (FS.text_at (fs w) (cwd E) html_file_path = None ->
     exists e,
       (e = IsADirectoryError page \/ e = NotADirectoryError page
        \/ e = FileNotFoundError page \/ e = UnicodeDecodeError)
       /\ run
          = (Val GaveUp,
             World (fs w) (stdin w)
                   (trace w ++
                    [ OpenRead page;
                      Print ("Error parsing HTML file: " ++ exn_text e) ])))
    /\ (forall data msg,
           FS.text_at (fs w) (cwd E) html_file_path = Some data ->
           html_hrefs E data = inl msg ->
           run
           = (Val GaveUp,
              World (fs w) (stdin w)
                    (trace w ++
                     [ OpenRead page;
                       Print ("Error parsing HTML file: " ++ msg) ])))
    /\ (forall data anchors,
           FS.text_at (fs w) (cwd E) html_file_path = Some data ->
           html_hrefs E data = inr anchors ->
           run
           = install_from_anchors E anchors minecraft_path pack_name
               (World (fs w) (stdin w) (trace w ++ [ OpenRead page ]))).
Proof.
  intros E f R N w page run. subst run.
  pose proof (load_text_spec E f w) as L. cbv zeta in L. fold page in L.
  unfold download_and_install_ftb_pack_from_html, parse_html.
  split; [| split].
  - intros Rd. rewrite Rd in L. destruct L as [e [Which L]].
    exists e. split; [exact Which |].
    unfold bind at 1, catch, bind at 1. rewrite L.
    unfold bind, print, emit, ret. cbn [fs stdin trace].
    rewrite <- !app_assoc. reflexivity.
  - intros data msg Rd P. rewrite Rd in L.
    unfold bind at 1, catch, bind at 1. rewrite L, P.
    unfold raise, bind, print, emit, ret. cbn [fs stdin trace].
    rewrite <- !app_assoc. reflexivity.
  - intros data anchors Rd P. rewrite Rd in L.
    unfold bind at 1, catch, bind at 1. rewrite L, P. reflexivity.
Qed.

Lemma X9_unparsed_page_no_effect_witness :
  FS.text_at (fs Sample.w0) (cwd Sample.E) "missing.html" = None
  /\ FS.text_at (fs Sample.w0) (cwd Sample.E) "page.html" = Some "<html>"
  /\ (exists e,
         download_and_install_ftb_pack_from_html Sample.E "missing.html"
           [ "mc" ] "Pack" Sample.w0
         = (Val GaveUp,
            World (fs Sample.w0) (stdin Sample.w0)
                  (trace Sample.w0 ++
                   [ OpenRead (Path.join (cwd Sample.E) "missing.html");
                     Print ("Error parsing HTML file: " ++ exn_text e) ])))
  /\ download_and_install_ftb_pack_from_html Sample.E "page.html" [ "mc" ]
       "Pack" Sample.w0
     = install_from_anchors Sample.E
         [ Some "a.jar"; Some "http://h/b.zip"; Some "c.txt"; None ] [ "mc" ]
         "Pack"
         (World (fs Sample.w0) (stdin Sample.w0)
                (trace Sample.w0
                 ++ [ OpenRead (Path.join (cwd Sample.E) "page.html") ])).
Proof.
  split; [reflexivity |]. split; [reflexivity |]. split.
  - destruct (proj1 (X9_unparsed_page_no_effect Sample.E "missing.html"
                       [ "mc" ] "Pack" Sample.w0) eq_refl) as [e [_ Run]].
    exists e. exact Run.
  - exact (proj2 (proj2 (X9_unparsed_page_no_effect Sample.E "page.html"
                           [ "mc" ] "Pack" Sample.w0))
             "<html>" _ eq_refl eq_refl).
Defined.

(** A page named through a directory that is not there cannot be opened,
    whatever lies at the place [Path.resolve] computes. *)
Example page_through_a_missing_directory :
  FS.read (fs Sample.w0)
    (Path.resolve (Path.join (cwd Sample.E) "nodir/../page.html"))
  = Some "<html>"
  /\ FS.text_at (fs Sample.w0) (cwd Sample.E) "nodir/../page.html" = None
  /\ download_and_install_ftb_pack_from_html Sample.E "nodir/../page.html"
       [ "mc" ] "Pack" Sample.w0
     = (Val GaveUp,
        World (fs Sample.w0) (stdin Sample.w0)
              [ OpenRead [ "home"; "nodir"; ".."; "page.html" ];
                Print "Error parsing HTML file: No such file or directory: /home/nodir/../page.html" ]).
Proof. repeat split. Qed.

(** ** File names of collected links *)













(** ** What the scrape installer leaves alone *)








